(** * Java migration front end: the wizard's client-side logic

    A shallow embedding of [src/components/MigrationWizard.tsx] and
    [src/services/api.ts]: the URL normaliser, the wizard's state and
    its event handlers, the polling effect and the gates that decide
    which actions a view offers. *)

From Stdlib Require Import List Bool NArith ZArith Lia String Ascii.
Import ListNotations.

(** ** JavaScript strings

    A JavaScript string is a sequence of UTF-16 code units; the regular
    expressions of the source carry no [u] flag, so they too work on
    code units. *)

Module JS.

Definition jsstring := list N.

(** The code units of an ASCII literal. *)
Definition u (s : string) : jsstring :=
  map N_of_ascii (list_ascii_of_string s).

Fixpoint eqb (a b : jsstring) : bool :=
  match a, b with
  | [], [] => true
  | x :: a', y :: b' => N.eqb x y && eqb a' b'
  | _, _ => false
  end.

(** [LineTerminator]: LF, CR, LS, PS. *)
Definition is_line_terminator (c : N) : bool :=
  (N.eqb c 10 || N.eqb c 13 || N.eqb c 8232 || N.eqb c 8233)%N.

(** [WhiteSpace] and [LineTerminator], the set stripped by
    [String.prototype.trim] and matched by [\s]. *)
Definition is_space (c : N) : bool :=
  (N.eqb c 9 || N.eqb c 11 || N.eqb c 12 || N.eqb c 32 || N.eqb c 160
   || N.eqb c 5760 || (N.leb 8192 c && N.leb c 8202)
   || N.eqb c 8239 || N.eqb c 8287 || N.eqb c 12288 || N.eqb c 65279
   || is_line_terminator c)%N.

Fixpoint trimStart (s : jsstring) : jsstring :=
  match s with
  | c :: s' => if is_space c then trimStart s' else s
  | [] => []
  end.

Definition trimEnd (s : jsstring) : jsstring := rev (trimStart (rev s)).

(** [s.trim()] *)
Definition trim (s : jsstring) : jsstring := trimEnd (trimStart s).

(** Truthiness of a string: only the empty string is falsy. *)
Definition truthy (s : jsstring) : bool :=
  match s with [] => false | _ => true end.

(** [a || b] on strings. *)
Definition or_else (a b : jsstring) : jsstring := if truthy a then a else b.

End JS.

Import JS.

(** ** Regular expressions

    The patterns of the source use literals, character classes,
    concatenation, [?], [+] and [*], anchored by [^] and [$].  Every
    use is either [test] on a pattern anchored at both ends or
    [replace] with a pattern anchored at the end, so what is matched is
    decided by language membership alone. *)

Module Regex.

Inductive regex : Type :=
| Void
| Eps
| Cls (p : N -> bool)
| Cat (r1 r2 : regex)
| Alt (r1 r2 : regex)
| Star (r : regex).

Definition chr (c : N) : regex := Cls (N.eqb c).

Fixpoint lit (s : jsstring) : regex :=
  match s with
  | [] => Eps
  | c :: s' => Cat (chr c) (lit s')
  end.

Definition plus (r : regex) : regex := Cat r (Star r).
Definition opt (r : regex) : regex := Alt r Eps.

(** [.] without the [s] flag *)
Definition dot : regex := Cls (fun c => negb (is_line_terminator c)).

Declare Scope regex_scope.
Delimit Scope regex_scope with re.
Bind Scope regex_scope with regex.
Infix "@" := Cat (at level 61, right associativity) : regex_scope.

Inductive lang : regex -> jsstring -> Prop :=
| LEps : lang Eps []
| LCls p c : p c = true -> lang (Cls p) [c]
| LCat r1 r2 s1 s2 : lang r1 s1 -> lang r2 s2 -> lang (Cat r1 r2) (s1 ++ s2)
| LAltL r1 r2 s : lang r1 s -> lang (Alt r1 r2) s
| LAltR r1 r2 s : lang r2 s -> lang (Alt r1 r2) s
| LStar0 r : lang (Star r) []
| LStarS r c s1 s2 :
    lang r (c :: s1) -> lang (Star r) s2 -> lang (Star r) (c :: s1 ++ s2).

Fixpoint nullable (r : regex) : bool :=
  match r with
  | Void => false
  | Eps => true
  | Cls _ => false
  | Cat r1 r2 => nullable r1 && nullable r2
  | Alt r1 r2 => nullable r1 || nullable r2
  | Star _ => true
  end.

Fixpoint deriv (c : N) (r : regex) : regex :=
  match r with
  | Void => Void
  | Eps => Void
  | Cls p => if p c then Eps else Void
  | Cat r1 r2 =>
      if nullable r1 then Alt (Cat (deriv c r1) r2) (deriv c r2)
      else Cat (deriv c r1) r2
  | Alt r1 r2 => Alt (deriv c r1) (deriv c r2)
  | Star r1 => Cat (deriv c r1) (Star r1)
  end.

(** Does [r] match the whole of [s]?  This is [/^r$/.test(s)]. *)
Fixpoint accepts (r : regex) (s : jsstring) : bool :=
  match s with
  | [] => nullable r
  | c :: s' => accepts (deriv c r) s'
  end.

(** [s.replace(/r$/, '')]: the leftmost position from which [r] matches
    up to the end of the string is where the match starts, and the match
    is replaced by the empty string. *)
Fixpoint replace_to_end (r : regex) (s : jsstring) : jsstring :=
  if accepts r s then []
  else match s with
       | [] => []
       | c :: s' => c :: replace_to_end r s'
       end.

End Regex.

Import Regex.

(** ** [normalizeGithubUrl] *)

Module Url.

Definition not_slash : regex := Cls (fun c => negb (N.eqb c 47)).
Definition not_slash_space : regex :=
  Cls (fun c => negb (N.eqb c 47 || is_space c)).

(** [/\/tree\/[^/]+.*$/] *)
Definition re_tree : regex := (lit (u "/tree/") @ plus not_slash @ Star dot)%re.
(** [/\/blob\/[^/]+.*$/] *)
Definition re_blob : regex := (lit (u "/blob/") @ plus not_slash @ Star dot)%re.
(** [/\/src\/.*$/] *)
Definition re_src : regex := (lit (u "/src/") @ Star dot)%re.
(** [/\/$/] *)
Definition re_slash : regex := lit (u "/").
(** [/\.git$/] *)
Definition re_git : regex := lit (u ".git").
(** [/^https?:\/\/(www\.)?github\.com\/[^/]+\/[^/\s]+$/] *)
Definition re_github : regex :=
  (lit (u "http") @ opt (chr 115) @ lit (u "://") @ opt (lit (u "www."))
   @ lit (u "github.com/") @ plus not_slash @ chr 47 @ plus not_slash_space)%re.
(** [/^[^/]+\/[^/\s]+$/] *)
Definition re_short : regex := (plus not_slash @ chr 47 @ plus not_slash_space)%re.

Record validation : Type := mkValidation {
  valid : bool;
  normalizedUrl : jsstring;
  message : jsstring
}.

Definition msg_required : jsstring := u "URL is required".
(** The message starts with U+2713 (check mark). *)
Definition msg_normalized : jsstring :=
  10003%N :: u " URL normalized (removed tree/blob paths)".
Definition msg_invalid : jsstring :=
  u "Invalid URL format. Use: https://github.com/owner/repo or owner/repo".

(** The five [replace] calls, in the order of the source. *)
Definition strip_paths (s : jsstring) : jsstring :=
  let normalized := replace_to_end re_tree s in
  let normalized := replace_to_end re_blob normalized in
  let normalized := replace_to_end re_src normalized in
  let normalized := replace_to_end re_slash normalized in
  replace_to_end re_git normalized.

Definition normalizeGithubUrl (url : jsstring) : validation :=
  if negb (truthy (trim url)) then mkValidation false [] msg_required
  else
    let normalized := strip_paths (trim url) in
    let isGithubUrl := accepts re_github normalized in
    let isShortFormat := accepts re_short normalized in
    if isGithubUrl || isShortFormat then
      if negb (JS.eqb url normalized)
      then mkValidation true normalized msg_normalized
      else mkValidation true normalized []
    else mkValidation false [] msg_invalid.

End Url.

Import Url.

(** ** More string operations of the source *)

Module Str.

Fixpoint startsWith (pat s : jsstring) : bool :=
  match pat, s with
  | [], _ => true
  | p :: pat', c :: s' => N.eqb p c && startsWith pat' s'
  | _ :: _, [] => false
  end.

(** [s.includes(pat)] *)
Fixpoint includes (pat s : jsstring) : bool :=
  startsWith pat s ||
  match s with
  | [] => false
  | _ :: s' => includes pat s'
  end.

(** [s.replace(pat, "")] with a string pattern: the first occurrence
    goes. *)
Fixpoint remove_first (pat s : jsstring) : jsstring :=
  if startsWith pat s then skipn (List.length pat) s
  else match s with
       | [] => []
       | c :: s' => c :: remove_first pat s'
       end.

(** [s.split("/").pop()]: what follows the last slash. *)
Fixpoint split_pop_from (cur s : jsstring) : jsstring :=
  match s with
  | [] => rev cur
  | c :: s' => if N.eqb c 47 then split_pop_from [] s'
               else split_pop_from (c :: cur) s'
  end.

Definition split_pop (s : jsstring) : jsstring := split_pop_from [] s.

(** [parseInt(s)] without a radix; [None] is [NaN].  Integers are exact
    here, as they are in JavaScript below 2^53. *)
Definition digit_value (c : N) : option Z :=
  if (N.leb 48 c && N.leb c 57)%bool then Some (Z.of_N c - 48)%Z
  else if (N.leb 97 c && N.leb c 122)%bool then Some (Z.of_N c - 87)%Z
  else if (N.leb 65 c && N.leb c 90)%bool then Some (Z.of_N c - 55)%Z
  else None.

Fixpoint parse_digits (radix : Z) (acc : option Z) (s : jsstring) : option Z :=
  match s with
  | [] => acc
  | c :: s' =>
      match digit_value c with
      | Some d =>
          if (d <? radix)%Z
          then parse_digits radix
                 (Some (match acc with Some a => a | None => 0 end * radix + d)%Z) s'
          else acc
      | None => acc
      end
  end.

Definition parseInt (s : jsstring) : option Z :=
  let s := trimStart s in
  let '(sign, s) :=
    match s with
    | 45%N :: s' => ((-1)%Z, s')
    | 43%N :: s' => (1%Z, s')
    | _ => (1%Z, s)
    end in
  let '(radix, s) :=
    match s with
    | 48%N :: 120%N :: s' => (16%Z, s')
    | 48%N :: 88%N :: s' => (16%Z, s')
    | _ => (10%Z, s)
    end in
  option_map (Z.mul sign) (parse_digits radix None s).

(** [a > b] on numbers that may be [NaN] *)
Definition num_gt (a b : option Z) : bool :=
  match a, b with
  | Some x, Some y => (y <? x)%Z
  | _, _ => false
  end.

End Str.

Import Str.

(** ** [services/api.ts] *)

Module Api.

Record RepoInfo : Type := mkRepoInfo {
  name : jsstring;
  full_name : jsstring;
  url : jsstring;
  default_branch : jsstring;
  language : option jsstring;
  description : option jsstring
}.

Inductive FileType : Type := file | dir.

Record RepoFile : Type := mkRepoFile {
  file_name : jsstring;
  path : jsstring;
  type : FileType;
  size : Z;
  file_url : jsstring
}.

Record DependencyInfo : Type := mkDependencyInfo {
  group_id : jsstring;
  artifact_id : jsstring;
  current_version : jsstring;
  new_version : option jsstring;
  dep_status : jsstring
}.

Record ConversionType : Type := mkConversionType {
  id : jsstring;
  conversion_name : jsstring;
  conversion_description : jsstring;
  category : jsstring;
  icon : jsstring
}.

Inductive Severity : Type := SevError | SevWarning | SevInfo.
Inductive IssueStatus : Type := detected | fixed | manual_review | ignored.

Record MigrationIssue : Type := mkMigrationIssue {
  issue_id : jsstring;
  severity : Severity;
  issue_status : IssueStatus;
  issue_category : jsstring;
  issue_message : jsstring;
  file_path : jsstring;
  line_number : option Z;
  column : option Z;
  code_snippet : option jsstring;
  suggested_fix : option jsstring;
  fixed_at : option jsstring;
  conversion_type : jsstring
}.

Record MigrationRequest : Type := mkMigrationRequest {
  source_repo_url : jsstring;
  target_repo_name : jsstring;
  platform : jsstring;
  req_source_java_version : jsstring;
  req_target_java_version : jsstring;
  token : jsstring;
  req_conversion_types : list jsstring;
  run_tests : bool;
  run_sonar : bool;
  fix_business_logic : bool
}.

Record MigrationResult : Type := mkMigrationResult {
  job_id : jsstring;
  status : jsstring;
  source_repo : jsstring;
  target_repo : option jsstring;
  source_java_version : jsstring;
  target_java_version : jsstring;
  conversion_types : list jsstring;
  started_at : jsstring;
  completed_at : option jsstring;
  progress_percent : Z;
  current_step : jsstring;
  dependencies : list DependencyInfo;
  files_modified : Z;
  issues_fixed : Z;
  api_endpoints_validated : Z;
  api_endpoints_working : Z;
  sonar_quality_gate : option jsstring;
  sonar_bugs : Z;
  sonar_vulnerabilities : Z;
  sonar_code_smells : Z;
  sonar_coverage : Z;
  error_message : option jsstring;
  migration_log : list jsstring;
  issues : list MigrationIssue;
  total_errors : Z;
  total_warnings : Z;
  errors_fixed : Z;
  warnings_fixed : Z
}.

Record Endpoint : Type := mkEndpoint {
  endpoint_path : jsstring;
  method : jsstring;
  endpoint_file : jsstring
}.

Record Structure : Type := mkStructure {
  has_pom_xml : bool;
  has_build_gradle : bool;
  has_src_main : bool;
  has_src_test : bool
}.

Record RepoAnalysis : Type := mkRepoAnalysis {
  analysis_name : jsstring;
  analysis_full_name : jsstring;
  analysis_default_branch : jsstring;
  analysis_language : option jsstring;
  build_tool : option jsstring;
  java_version : option jsstring;
  has_tests : bool;
  analysis_dependencies : list DependencyInfo;
  api_endpoints : list Endpoint;
  structure : Structure
}.

Record JavaVersionOption : Type := mkJavaVersionOption {
  value : jsstring;
  label : jsstring
}.

(** What [response.json()] settles to: the parsed body, or the
    [SyntaxError] of a body that is not JSON.  The parsed body of an ok
    response is taken at the type its service function declares; what
    the wizard does when it is [null] instead is
    [startMigrationSettledNull] and [statusSettledNull] below. *)
Inductive Body (A : Type) : Type :=
| NotJson (syntaxError : jsstring)
| Json (value : A).

Arguments NotJson {A} syntaxError.
Arguments Json {A} value.

(** The [detail] property of an error body: a string, or any other JSON
    value, of which only the truthiness and the conversion to a string
    matter. *)
Inductive Detail : Type :=
| DetailString (s : jsstring)
| DetailOther (isTruthy : bool) (toString : jsstring).

(** The parsed body of a response that is not ok: [null], or a value on
    which [detail] can be read ([None] when it has no such property). *)
Inductive ErrorJson : Type :=
| JsonNull
| JsonValue (detail : option Detail).

(** What [fetch] resolves to.  The body of an ok response is typed by
    the function that reads it. *)
Inductive Response (A : Type) : Type :=
| ResponseOk (body : Body A)
| ResponseNotOk (body : Body ErrorJson).

Arguments ResponseOk {A} body.
Arguments ResponseNotOk {A} body.

Definition ok {A} (response : Response A) : bool :=
  match response with
  | ResponseOk _ => true
  | ResponseNotOk _ => false
  end.

(** A settled promise: the value returned, or the message of the error
    thrown. *)
Inductive Promise (A : Type) : Type :=
| Resolved (a : A)
| Rejected (message : jsstring).

Arguments Resolved {A} a.
Arguments Rejected {A} message.

(** The message of the [TypeError] thrown on reading a property of
    [null], in the wording of V8. *)
Definition msg_null_detail : jsstring :=
  u "Cannot read properties of null (reading 'detail')".

(** [new Error(error.detail || fallback).message] *)
Definition detail_or (detail : option Detail) (fallback : jsstring) : jsstring :=
  match detail with
  | Some (DetailString s) => or_else s fallback
  | Some (DetailOther true toString) => toString
  | Some (DetailOther false _) => fallback
  | None => fallback
  end.

(** The error branch shared by the functions that read [error.detail]:
    [const error = await response.json(); throw new Error(error.detail || fallback)] *)
Definition throwDetail {A} (body : Body ErrorJson) (fallback : jsstring)
  : Promise A :=
  match body with
  | NotJson syntaxError => Rejected syntaxError
  | Json JsonNull => Rejected msg_null_detail
  | Json (JsonValue detail) => Rejected (detail_or detail fallback)
  end.

(** [return response.json()] *)
Definition returnJson {A} (body : Body A) : Promise A :=
  match body with
  | NotJson syntaxError => Rejected syntaxError
  | Json value => Resolved value
  end.

Definition startMigration (response : Response MigrationResult)
  : Promise MigrationResult :=
  match response with
  | ResponseNotOk body => throwDetail body (u "Failed to start migration")
  | ResponseOk body => returnJson body
  end.

Definition getMigrationStatus (response : Response MigrationResult)
  : Promise MigrationResult :=
  match response with
  | ResponseNotOk body => throwDetail body (u "Failed to get migration status")
  | ResponseOk body => returnJson body
  end.

Definition getMigrationLogs (response : Response (list jsstring))
  : Promise (list jsstring) :=
  match response with
  | ResponseNotOk _ => Rejected (u "Failed to get migration logs")
  | ResponseOk body => returnJson body
  end.

(** The requests the service module can send: one constructor for each
    function it exports. *)
Inductive ApiCall : Type :=
| FetchRepositories (tok : jsstring)
| AnalyzeRepository (tok owner repo : jsstring)
| AnalyzeRepoUrl (repoUrl tok : jsstring)
| ListRepoFiles (repoUrl tok dirPath : jsstring)
| GetFileContent (repoUrl filePath tok : jsstring)
| GetJavaVersions
| GetConversionTypes
| StartMigration (request : MigrationRequest)
| GetMigrationStatus (jobId : jsstring)
| GetMigrationLogs (jobId : jsstring)
| DownloadMigratedProject (jobId : jsstring)
| DownloadMigrationReport (jobId : jsstring)
| ListMigrations
| GetRecipes
| HealthCheck.

End Api.

Import Api.

(** ** The wizard's state: one field for each [useState] *)

Module Wizard.

Record State : Type := mkState {
  step : Z;
  repoUrl : jsstring;
  repos : list RepoInfo;
  selectedRepo : option RepoInfo;
  githubToken : jsstring;
  repoAnalysis : option RepoAnalysis;
  repoFiles : list RepoFile;
  currentPath : jsstring;
  targetRepoName : jsstring;
  sourceVersions : list JavaVersionOption;
  targetVersions : list JavaVersionOption;
  selectedSourceVersion : jsstring;
  selectedTargetVersion : jsstring;
  conversionTypes : list ConversionType;
  selectedConversions : list jsstring;
  runTests : bool;
  runSonar : bool;
  fixBusinessLogic : bool;
  loading : bool;
  migrationJob : option MigrationResult;
  migrationLogs : list jsstring;
  error : jsstring;
  migrationApproach : jsstring;
  riskLevel : jsstring;
  selectedFrameworks : list jsstring
}.

(** The state at mount.  [tok] is the literal the source passes to
    [useState] for [githubToken]. *)
Definition initialState (tok : jsstring) : State := {|
  step := 1%Z;
  repoUrl := [];
  repos := [];
  selectedRepo := None;
  githubToken := tok;
  repoAnalysis := None;
  repoFiles := [];
  currentPath := [];
  targetRepoName := [];
  sourceVersions := [];
  targetVersions := [];
  selectedSourceVersion := u "8";
  selectedTargetVersion := u "17";
  conversionTypes := [];
  selectedConversions := [u "java_version"];
  runTests := true;
  runSonar := false;
  fixBusinessLogic := true;
  loading := false;
  migrationJob := None;
  migrationLogs := [];
  error := [];
  migrationApproach := u "in-place";
  riskLevel := [];
  selectedFrameworks := []
|}.

(** The setters returned by [useState]. *)
Definition setStep (v : Z) (st : State) : State :=
  {| step := v; repoUrl := repoUrl st; repos := repos st;
     selectedRepo := selectedRepo st; githubToken := githubToken st;
     repoAnalysis := repoAnalysis st; repoFiles := repoFiles st;
     currentPath := currentPath st; targetRepoName := targetRepoName st;
     sourceVersions := sourceVersions st;
     targetVersions := targetVersions st;
     selectedSourceVersion := selectedSourceVersion st;
     selectedTargetVersion := selectedTargetVersion st;
     conversionTypes := conversionTypes st;
     selectedConversions := selectedConversions st; runTests := runTests st;
     runSonar := runSonar st; fixBusinessLogic := fixBusinessLogic st;
     loading := loading st; migrationJob := migrationJob st;
     migrationLogs := migrationLogs st; error := error st;
     migrationApproach := migrationApproach st; riskLevel := riskLevel st;
     selectedFrameworks := selectedFrameworks st |}.

Definition setRepoUrl (v : jsstring) (st : State) : State :=
  {| step := step st; repoUrl := v; repos := repos st;
     selectedRepo := selectedRepo st; githubToken := githubToken st;
     repoAnalysis := repoAnalysis st; repoFiles := repoFiles st;
     currentPath := currentPath st; targetRepoName := targetRepoName st;
     sourceVersions := sourceVersions st;
     targetVersions := targetVersions st;
     selectedSourceVersion := selectedSourceVersion st;
     selectedTargetVersion := selectedTargetVersion st;
     conversionTypes := conversionTypes st;
     selectedConversions := selectedConversions st; runTests := runTests st;
     runSonar := runSonar st; fixBusinessLogic := fixBusinessLogic st;
     loading := loading st; migrationJob := migrationJob st;
     migrationLogs := migrationLogs st; error := error st;
     migrationApproach := migrationApproach st; riskLevel := riskLevel st;
     selectedFrameworks := selectedFrameworks st |}.

Definition setRepos (v : list RepoInfo) (st : State) : State :=
  {| step := step st; repoUrl := repoUrl st; repos := v;
     selectedRepo := selectedRepo st; githubToken := githubToken st;
     repoAnalysis := repoAnalysis st; repoFiles := repoFiles st;
     currentPath := currentPath st; targetRepoName := targetRepoName st;
     sourceVersions := sourceVersions st;
     targetVersions := targetVersions st;
     selectedSourceVersion := selectedSourceVersion st;
     selectedTargetVersion := selectedTargetVersion st;
     conversionTypes := conversionTypes st;
     selectedConversions := selectedConversions st; runTests := runTests st;
     runSonar := runSonar st; fixBusinessLogic := fixBusinessLogic st;
     loading := loading st; migrationJob := migrationJob st;
     migrationLogs := migrationLogs st; error := error st;
     migrationApproach := migrationApproach st; riskLevel := riskLevel st;
     selectedFrameworks := selectedFrameworks st |}.

Definition setSelectedRepo (v : option RepoInfo) (st : State) : State :=
  {| step := step st; repoUrl := repoUrl st; repos := repos st;
     selectedRepo := v; githubToken := githubToken st;
     repoAnalysis := repoAnalysis st; repoFiles := repoFiles st;
     currentPath := currentPath st; targetRepoName := targetRepoName st;
     sourceVersions := sourceVersions st;
     targetVersions := targetVersions st;
     selectedSourceVersion := selectedSourceVersion st;
     selectedTargetVersion := selectedTargetVersion st;
     conversionTypes := conversionTypes st;
     selectedConversions := selectedConversions st; runTests := runTests st;
     runSonar := runSonar st; fixBusinessLogic := fixBusinessLogic st;
     loading := loading st; migrationJob := migrationJob st;
     migrationLogs := migrationLogs st; error := error st;
     migrationApproach := migrationApproach st; riskLevel := riskLevel st;
     selectedFrameworks := selectedFrameworks st |}.

Definition setGithubToken (v : jsstring) (st : State) : State :=
  {| step := step st; repoUrl := repoUrl st; repos := repos st;
     selectedRepo := selectedRepo st; githubToken := v;
     repoAnalysis := repoAnalysis st; repoFiles := repoFiles st;
     currentPath := currentPath st; targetRepoName := targetRepoName st;
     sourceVersions := sourceVersions st;
     targetVersions := targetVersions st;
     selectedSourceVersion := selectedSourceVersion st;
     selectedTargetVersion := selectedTargetVersion st;
     conversionTypes := conversionTypes st;
     selectedConversions := selectedConversions st; runTests := runTests st;
     runSonar := runSonar st; fixBusinessLogic := fixBusinessLogic st;
     loading := loading st; migrationJob := migrationJob st;
     migrationLogs := migrationLogs st; error := error st;
     migrationApproach := migrationApproach st; riskLevel := riskLevel st;
     selectedFrameworks := selectedFrameworks st |}.

Definition setRepoAnalysis (v : option RepoAnalysis) (st : State) : State :=
  {| step := step st; repoUrl := repoUrl st; repos := repos st;
     selectedRepo := selectedRepo st; githubToken := githubToken st;
     repoAnalysis := v; repoFiles := repoFiles st;
     currentPath := currentPath st; targetRepoName := targetRepoName st;
     sourceVersions := sourceVersions st;
     targetVersions := targetVersions st;
     selectedSourceVersion := selectedSourceVersion st;
     selectedTargetVersion := selectedTargetVersion st;
     conversionTypes := conversionTypes st;
     selectedConversions := selectedConversions st; runTests := runTests st;
     runSonar := runSonar st; fixBusinessLogic := fixBusinessLogic st;
     loading := loading st; migrationJob := migrationJob st;
     migrationLogs := migrationLogs st; error := error st;
     migrationApproach := migrationApproach st; riskLevel := riskLevel st;
     selectedFrameworks := selectedFrameworks st |}.

Definition setRepoFiles (v : list RepoFile) (st : State) : State :=
  {| step := step st; repoUrl := repoUrl st; repos := repos st;
     selectedRepo := selectedRepo st; githubToken := githubToken st;
     repoAnalysis := repoAnalysis st; repoFiles := v;
     currentPath := currentPath st; targetRepoName := targetRepoName st;
     sourceVersions := sourceVersions st;
     targetVersions := targetVersions st;
     selectedSourceVersion := selectedSourceVersion st;
     selectedTargetVersion := selectedTargetVersion st;
     conversionTypes := conversionTypes st;
     selectedConversions := selectedConversions st; runTests := runTests st;
     runSonar := runSonar st; fixBusinessLogic := fixBusinessLogic st;
     loading := loading st; migrationJob := migrationJob st;
     migrationLogs := migrationLogs st; error := error st;
     migrationApproach := migrationApproach st; riskLevel := riskLevel st;
     selectedFrameworks := selectedFrameworks st |}.

Definition setCurrentPath (v : jsstring) (st : State) : State :=
  {| step := step st; repoUrl := repoUrl st; repos := repos st;
     selectedRepo := selectedRepo st; githubToken := githubToken st;
     repoAnalysis := repoAnalysis st; repoFiles := repoFiles st;
     currentPath := v; targetRepoName := targetRepoName st;
     sourceVersions := sourceVersions st;
     targetVersions := targetVersions st;
     selectedSourceVersion := selectedSourceVersion st;
     selectedTargetVersion := selectedTargetVersion st;
     conversionTypes := conversionTypes st;
     selectedConversions := selectedConversions st; runTests := runTests st;
     runSonar := runSonar st; fixBusinessLogic := fixBusinessLogic st;
     loading := loading st; migrationJob := migrationJob st;
     migrationLogs := migrationLogs st; error := error st;
     migrationApproach := migrationApproach st; riskLevel := riskLevel st;
     selectedFrameworks := selectedFrameworks st |}.

Definition setTargetRepoName (v : jsstring) (st : State) : State :=
  {| step := step st; repoUrl := repoUrl st; repos := repos st;
     selectedRepo := selectedRepo st; githubToken := githubToken st;
     repoAnalysis := repoAnalysis st; repoFiles := repoFiles st;
     currentPath := currentPath st; targetRepoName := v;
     sourceVersions := sourceVersions st;
     targetVersions := targetVersions st;
     selectedSourceVersion := selectedSourceVersion st;
     selectedTargetVersion := selectedTargetVersion st;
     conversionTypes := conversionTypes st;
     selectedConversions := selectedConversions st; runTests := runTests st;
     runSonar := runSonar st; fixBusinessLogic := fixBusinessLogic st;
     loading := loading st; migrationJob := migrationJob st;
     migrationLogs := migrationLogs st; error := error st;
     migrationApproach := migrationApproach st; riskLevel := riskLevel st;
     selectedFrameworks := selectedFrameworks st |}.

Definition setSourceVersions (v : list JavaVersionOption) (st : State) : State :=
  {| step := step st; repoUrl := repoUrl st; repos := repos st;
     selectedRepo := selectedRepo st; githubToken := githubToken st;
     repoAnalysis := repoAnalysis st; repoFiles := repoFiles st;
     currentPath := currentPath st; targetRepoName := targetRepoName st;
     sourceVersions := v; targetVersions := targetVersions st;
     selectedSourceVersion := selectedSourceVersion st;
     selectedTargetVersion := selectedTargetVersion st;
     conversionTypes := conversionTypes st;
     selectedConversions := selectedConversions st; runTests := runTests st;
     runSonar := runSonar st; fixBusinessLogic := fixBusinessLogic st;
     loading := loading st; migrationJob := migrationJob st;
     migrationLogs := migrationLogs st; error := error st;
     migrationApproach := migrationApproach st; riskLevel := riskLevel st;
     selectedFrameworks := selectedFrameworks st |}.

Definition setTargetVersions (v : list JavaVersionOption) (st : State) : State :=
  {| step := step st; repoUrl := repoUrl st; repos := repos st;
     selectedRepo := selectedRepo st; githubToken := githubToken st;
     repoAnalysis := repoAnalysis st; repoFiles := repoFiles st;
     currentPath := currentPath st; targetRepoName := targetRepoName st;
     sourceVersions := sourceVersions st; targetVersions := v;
     selectedSourceVersion := selectedSourceVersion st;
     selectedTargetVersion := selectedTargetVersion st;
     conversionTypes := conversionTypes st;
     selectedConversions := selectedConversions st; runTests := runTests st;
     runSonar := runSonar st; fixBusinessLogic := fixBusinessLogic st;
     loading := loading st; migrationJob := migrationJob st;
     migrationLogs := migrationLogs st; error := error st;
     migrationApproach := migrationApproach st; riskLevel := riskLevel st;
     selectedFrameworks := selectedFrameworks st |}.

Definition setSelectedSourceVersion (v : jsstring) (st : State) : State :=
  {| step := step st; repoUrl := repoUrl st; repos := repos st;
     selectedRepo := selectedRepo st; githubToken := githubToken st;
     repoAnalysis := repoAnalysis st; repoFiles := repoFiles st;
     currentPath := currentPath st; targetRepoName := targetRepoName st;
     sourceVersions := sourceVersions st;
     targetVersions := targetVersions st; selectedSourceVersion := v;
     selectedTargetVersion := selectedTargetVersion st;
     conversionTypes := conversionTypes st;
     selectedConversions := selectedConversions st; runTests := runTests st;
     runSonar := runSonar st; fixBusinessLogic := fixBusinessLogic st;
     loading := loading st; migrationJob := migrationJob st;
     migrationLogs := migrationLogs st; error := error st;
     migrationApproach := migrationApproach st; riskLevel := riskLevel st;
     selectedFrameworks := selectedFrameworks st |}.

Definition setSelectedTargetVersion (v : jsstring) (st : State) : State :=
  {| step := step st; repoUrl := repoUrl st; repos := repos st;
     selectedRepo := selectedRepo st; githubToken := githubToken st;
     repoAnalysis := repoAnalysis st; repoFiles := repoFiles st;
     currentPath := currentPath st; targetRepoName := targetRepoName st;
     sourceVersions := sourceVersions st;
     targetVersions := targetVersions st;
     selectedSourceVersion := selectedSourceVersion st;
     selectedTargetVersion := v; conversionTypes := conversionTypes st;
     selectedConversions := selectedConversions st; runTests := runTests st;
     runSonar := runSonar st; fixBusinessLogic := fixBusinessLogic st;
     loading := loading st; migrationJob := migrationJob st;
     migrationLogs := migrationLogs st; error := error st;
     migrationApproach := migrationApproach st; riskLevel := riskLevel st;
     selectedFrameworks := selectedFrameworks st |}.

Definition setConversionTypes (v : list ConversionType) (st : State) : State :=
  {| step := step st; repoUrl := repoUrl st; repos := repos st;
     selectedRepo := selectedRepo st; githubToken := githubToken st;
     repoAnalysis := repoAnalysis st; repoFiles := repoFiles st;
     currentPath := currentPath st; targetRepoName := targetRepoName st;
     sourceVersions := sourceVersions st;
     targetVersions := targetVersions st;
     selectedSourceVersion := selectedSourceVersion st;
     selectedTargetVersion := selectedTargetVersion st; conversionTypes := v;
     selectedConversions := selectedConversions st; runTests := runTests st;
     runSonar := runSonar st; fixBusinessLogic := fixBusinessLogic st;
     loading := loading st; migrationJob := migrationJob st;
     migrationLogs := migrationLogs st; error := error st;
     migrationApproach := migrationApproach st; riskLevel := riskLevel st;
     selectedFrameworks := selectedFrameworks st |}.

Definition setSelectedConversions (v : list jsstring) (st : State) : State :=
  {| step := step st; repoUrl := repoUrl st; repos := repos st;
     selectedRepo := selectedRepo st; githubToken := githubToken st;
     repoAnalysis := repoAnalysis st; repoFiles := repoFiles st;
     currentPath := currentPath st; targetRepoName := targetRepoName st;
     sourceVersions := sourceVersions st;
     targetVersions := targetVersions st;
     selectedSourceVersion := selectedSourceVersion st;
     selectedTargetVersion := selectedTargetVersion st;
     conversionTypes := conversionTypes st; selectedConversions := v;
     runTests := runTests st; runSonar := runSonar st;
     fixBusinessLogic := fixBusinessLogic st; loading := loading st;
     migrationJob := migrationJob st; migrationLogs := migrationLogs st;
     error := error st; migrationApproach := migrationApproach st;
     riskLevel := riskLevel st; selectedFrameworks := selectedFrameworks st |}.

Definition setRunTests (v : bool) (st : State) : State :=
  {| step := step st; repoUrl := repoUrl st; repos := repos st;
     selectedRepo := selectedRepo st; githubToken := githubToken st;
     repoAnalysis := repoAnalysis st; repoFiles := repoFiles st;
     currentPath := currentPath st; targetRepoName := targetRepoName st;
     sourceVersions := sourceVersions st;
     targetVersions := targetVersions st;
     selectedSourceVersion := selectedSourceVersion st;
     selectedTargetVersion := selectedTargetVersion st;
     conversionTypes := conversionTypes st;
     selectedConversions := selectedConversions st; runTests := v;
     runSonar := runSonar st; fixBusinessLogic := fixBusinessLogic st;
     loading := loading st; migrationJob := migrationJob st;
     migrationLogs := migrationLogs st; error := error st;
     migrationApproach := migrationApproach st; riskLevel := riskLevel st;
     selectedFrameworks := selectedFrameworks st |}.

Definition setRunSonar (v : bool) (st : State) : State :=
  {| step := step st; repoUrl := repoUrl st; repos := repos st;
     selectedRepo := selectedRepo st; githubToken := githubToken st;
     repoAnalysis := repoAnalysis st; repoFiles := repoFiles st;
     currentPath := currentPath st; targetRepoName := targetRepoName st;
     sourceVersions := sourceVersions st;
     targetVersions := targetVersions st;
     selectedSourceVersion := selectedSourceVersion st;
     selectedTargetVersion := selectedTargetVersion st;
     conversionTypes := conversionTypes st;
     selectedConversions := selectedConversions st; runTests := runTests st;
     runSonar := v; fixBusinessLogic := fixBusinessLogic st;
     loading := loading st; migrationJob := migrationJob st;
     migrationLogs := migrationLogs st; error := error st;
     migrationApproach := migrationApproach st; riskLevel := riskLevel st;
     selectedFrameworks := selectedFrameworks st |}.

Definition setFixBusinessLogic (v : bool) (st : State) : State :=
  {| step := step st; repoUrl := repoUrl st; repos := repos st;
     selectedRepo := selectedRepo st; githubToken := githubToken st;
     repoAnalysis := repoAnalysis st; repoFiles := repoFiles st;
     currentPath := currentPath st; targetRepoName := targetRepoName st;
     sourceVersions := sourceVersions st;
     targetVersions := targetVersions st;
     selectedSourceVersion := selectedSourceVersion st;
     selectedTargetVersion := selectedTargetVersion st;
     conversionTypes := conversionTypes st;
     selectedConversions := selectedConversions st; runTests := runTests st;
     runSonar := runSonar st; fixBusinessLogic := v; loading := loading st;
     migrationJob := migrationJob st; migrationLogs := migrationLogs st;
     error := error st; migrationApproach := migrationApproach st;
     riskLevel := riskLevel st; selectedFrameworks := selectedFrameworks st |}.

Definition setLoading (v : bool) (st : State) : State :=
  {| step := step st; repoUrl := repoUrl st; repos := repos st;
     selectedRepo := selectedRepo st; githubToken := githubToken st;
     repoAnalysis := repoAnalysis st; repoFiles := repoFiles st;
     currentPath := currentPath st; targetRepoName := targetRepoName st;
     sourceVersions := sourceVersions st;
     targetVersions := targetVersions st;
     selectedSourceVersion := selectedSourceVersion st;
     selectedTargetVersion := selectedTargetVersion st;
     conversionTypes := conversionTypes st;
     selectedConversions := selectedConversions st; runTests := runTests st;
     runSonar := runSonar st; fixBusinessLogic := fixBusinessLogic st;
     loading := v; migrationJob := migrationJob st;
     migrationLogs := migrationLogs st; error := error st;
     migrationApproach := migrationApproach st; riskLevel := riskLevel st;
     selectedFrameworks := selectedFrameworks st |}.

Definition setMigrationJob (v : option MigrationResult) (st : State) : State :=
  {| step := step st; repoUrl := repoUrl st; repos := repos st;
     selectedRepo := selectedRepo st; githubToken := githubToken st;
     repoAnalysis := repoAnalysis st; repoFiles := repoFiles st;
     currentPath := currentPath st; targetRepoName := targetRepoName st;
     sourceVersions := sourceVersions st;
     targetVersions := targetVersions st;
     selectedSourceVersion := selectedSourceVersion st;
     selectedTargetVersion := selectedTargetVersion st;
     conversionTypes := conversionTypes st;
     selectedConversions := selectedConversions st; runTests := runTests st;
     runSonar := runSonar st; fixBusinessLogic := fixBusinessLogic st;
     loading := loading st; migrationJob := v;
     migrationLogs := migrationLogs st; error := error st;
     migrationApproach := migrationApproach st; riskLevel := riskLevel st;
     selectedFrameworks := selectedFrameworks st |}.

Definition setMigrationLogs (v : list jsstring) (st : State) : State :=
  {| step := step st; repoUrl := repoUrl st; repos := repos st;
     selectedRepo := selectedRepo st; githubToken := githubToken st;
     repoAnalysis := repoAnalysis st; repoFiles := repoFiles st;
     currentPath := currentPath st; targetRepoName := targetRepoName st;
     sourceVersions := sourceVersions st;
     targetVersions := targetVersions st;
     selectedSourceVersion := selectedSourceVersion st;
     selectedTargetVersion := selectedTargetVersion st;
     conversionTypes := conversionTypes st;
     selectedConversions := selectedConversions st; runTests := runTests st;
     runSonar := runSonar st; fixBusinessLogic := fixBusinessLogic st;
     loading := loading st; migrationJob := migrationJob st;
     migrationLogs := v; error := error st;
     migrationApproach := migrationApproach st; riskLevel := riskLevel st;
     selectedFrameworks := selectedFrameworks st |}.

Definition setError (v : jsstring) (st : State) : State :=
  {| step := step st; repoUrl := repoUrl st; repos := repos st;
     selectedRepo := selectedRepo st; githubToken := githubToken st;
     repoAnalysis := repoAnalysis st; repoFiles := repoFiles st;
     currentPath := currentPath st; targetRepoName := targetRepoName st;
     sourceVersions := sourceVersions st;
     targetVersions := targetVersions st;
     selectedSourceVersion := selectedSourceVersion st;
     selectedTargetVersion := selectedTargetVersion st;
     conversionTypes := conversionTypes st;
     selectedConversions := selectedConversions st; runTests := runTests st;
     runSonar := runSonar st; fixBusinessLogic := fixBusinessLogic st;
     loading := loading st; migrationJob := migrationJob st;
     migrationLogs := migrationLogs st; error := v;
     migrationApproach := migrationApproach st; riskLevel := riskLevel st;
     selectedFrameworks := selectedFrameworks st |}.

Definition setMigrationApproach (v : jsstring) (st : State) : State :=
  {| step := step st; repoUrl := repoUrl st; repos := repos st;
     selectedRepo := selectedRepo st; githubToken := githubToken st;
     repoAnalysis := repoAnalysis st; repoFiles := repoFiles st;
     currentPath := currentPath st; targetRepoName := targetRepoName st;
     sourceVersions := sourceVersions st;
     targetVersions := targetVersions st;
     selectedSourceVersion := selectedSourceVersion st;
     selectedTargetVersion := selectedTargetVersion st;
     conversionTypes := conversionTypes st;
     selectedConversions := selectedConversions st; runTests := runTests st;
     runSonar := runSonar st; fixBusinessLogic := fixBusinessLogic st;
     loading := loading st; migrationJob := migrationJob st;
     migrationLogs := migrationLogs st; error := error st;
     migrationApproach := v; riskLevel := riskLevel st;
     selectedFrameworks := selectedFrameworks st |}.

Definition setRiskLevel (v : jsstring) (st : State) : State :=
  {| step := step st; repoUrl := repoUrl st; repos := repos st;
     selectedRepo := selectedRepo st; githubToken := githubToken st;
     repoAnalysis := repoAnalysis st; repoFiles := repoFiles st;
     currentPath := currentPath st; targetRepoName := targetRepoName st;
     sourceVersions := sourceVersions st;
     targetVersions := targetVersions st;
     selectedSourceVersion := selectedSourceVersion st;
     selectedTargetVersion := selectedTargetVersion st;
     conversionTypes := conversionTypes st;
     selectedConversions := selectedConversions st; runTests := runTests st;
     runSonar := runSonar st; fixBusinessLogic := fixBusinessLogic st;
     loading := loading st; migrationJob := migrationJob st;
     migrationLogs := migrationLogs st; error := error st;
     migrationApproach := migrationApproach st; riskLevel := v;
     selectedFrameworks := selectedFrameworks st |}.

Definition setSelectedFrameworks (v : list jsstring) (st : State) : State :=
  {| step := step st; repoUrl := repoUrl st; repos := repos st;
     selectedRepo := selectedRepo st; githubToken := githubToken st;
     repoAnalysis := repoAnalysis st; repoFiles := repoFiles st;
     currentPath := currentPath st; targetRepoName := targetRepoName st;
     sourceVersions := sourceVersions st;
     targetVersions := targetVersions st;
     selectedSourceVersion := selectedSourceVersion st;
     selectedTargetVersion := selectedTargetVersion st;
     conversionTypes := conversionTypes st;
     selectedConversions := selectedConversions st; runTests := runTests st;
     runSonar := runSonar st; fixBusinessLogic := fixBusinessLogic st;
     loading := loading st; migrationJob := migrationJob st;
     migrationLogs := migrationLogs st; error := error st;
     migrationApproach := migrationApproach st; riskLevel := riskLevel st;
     selectedFrameworks := v |}.

Notation "st |> f" := (f st) (at level 45, left associativity, only parsing).

(** What a handler asks of the outside world: a call of the service
    module, or the browser opening one of the artefact URLs of a job
    ([/download-zip], [/report], [/jmeter]). *)
Inductive Artifact : Type := download_zip | report | jmeter.

Definition artifactUrl (a : Artifact) (jobId : jsstring) : jsstring :=
  u "http://localhost:8001/api/migration/" ++ jobId ++
  match a with
  | download_zip => u "/download-zip"
  | report => u "/report"
  | jmeter => u "/jmeter"
  end.

Inductive Effect : Type :=
| Call (c : ApiCall)
| OpenUrl (url : jsstring).

Definition isNull {A} (o : option A) : bool :=
  match o with Some _ => false | None => true end.

(** [selectedRepo?.name] and [selectedRepo?.url]; [undefined] is as
    falsy as the empty string. *)
Definition repoNameOf (r : option RepoInfo) : jsstring :=
  match r with Some r => name r | None => [] end.
Definition repoUrlOf (r : option RepoInfo) : jsstring :=
  match r with Some r => url r | None => [] end.

(** *** [resetWizard] *)

Definition resetWizard (st : State) : State :=
  st |> setStep 1
     |> setRepoUrl []
     |> setRepos []
     |> setSelectedRepo None
     |> setRepoAnalysis None
     |> setRepoFiles []
     |> setCurrentPath []
     |> setTargetRepoName []
     |> setSelectedSourceVersion (u "8")
     |> setSelectedTargetVersion (u "17")
     |> setSelectedConversions [u "java_version"]
     |> setRunTests true
     |> setRunSonar false
     |> setLoading false
     |> setMigrationJob None
     |> setMigrationLogs []
     |> setError []
     |> setMigrationApproach (u "in-place")
     |> setRiskLevel []
     |> setSelectedFrameworks [].

(** *** [handleStartMigration] *)

Definition detectPlatform (url : jsstring) : jsstring :=
  if includes (u "gitlab.com") url then u "gitlab"
  else if includes (u "github.com") url then u "github"
  else u "github".

Definition migrationRequest (st : State) : MigrationRequest :=
  let repoName :=
    or_else (or_else (repoNameOf (selectedRepo st))
                     (remove_first (u ".git") (split_pop (repoUrl st))))
            (u "migrated-repo") in
  let finalTargetRepoName :=
    or_else (targetRepoName st) (repoName ++ u "-migrated") in
  {| source_repo_url := or_else (repoUrlOf (selectedRepo st)) (repoUrl st);
     target_repo_name := finalTargetRepoName;
     platform :=
       detectPlatform (or_else (repoUrlOf (selectedRepo st)) (repoUrl st));
     req_source_java_version := selectedSourceVersion st;
     req_target_java_version := selectedTargetVersion st;
     token := githubToken st;
     req_conversion_types := selectedConversions st;
     run_tests := runTests st;
     run_sonar := runSonar st;
     fix_business_logic := fixBusinessLogic st |}.

Definition handleStartMigration (st : State) : State * list Effect :=
  if isNull (selectedRepo st) && negb (truthy (repoUrl st)) then
    (st |> setError (u "Please select a repository or enter a repository URL"),
     [])
  else
    (st |> setLoading true |> setError [],
     [Call (StartMigration (migrationRequest st))]).

(** The [then], [catch] and [finally] callbacks on the promise of
    [startMigration]. *)
Definition startMigrationSettled (p : Promise MigrationResult) (st : State)
  : State :=
  match p with
  | Resolved job =>
      st |> setMigrationJob (Some job) |> setStep 9 |> setLoading false
  | Rejected message =>
      st |> setError (or_else message (u "Failed to start migration."))
         |> setLoading false
         |> setLoading false
  end.

(** *** The polling effect *)

Definition statusIs (job : MigrationResult) (s : string) : bool :=
  JS.eqb (status job) (u s).

(** The condition under which the effect sets its two intervals. *)
Definition pollingActive (st : State) : bool :=
  (9 <=? step st)%Z &&
  match migrationJob st with
  | Some job => negb (statusIs job "completed") && negb (statusIs job "failed")
  | None => false
  end.

(** The 2000 ms interval. *)
Definition pollTick (st : State) : list Effect :=
  if pollingActive st then
    match migrationJob st with
    | Some job => [Call (GetMigrationStatus (job_id job))]
    | None => []
    end
  else [].

(** The callbacks on the promise of [getMigrationStatus]. *)
Definition statusSettled (p : Promise MigrationResult) (st : State)
  : State * list Effect :=
  match p with
  | Resolved job =>
      let st := st |> setMigrationJob (Some job) in
      let fetchLogs := [Call (GetMigrationLogs (job_id job))] in
      (if statusIs job "completed" then st |> setStep 11 else st,
       (if statusIs job "completed" then fetchLogs else [])
       ++ (if statusIs job "failed" then fetchLogs else []))
  | Rejected _ =>
      (st |> setError (u "Failed to fetch migration status."), [])
  end.

Definition logsSettled (p : Promise (list jsstring)) (st : State) : State :=
  match p with
  | Resolved logs => st |> setMigrationLogs logs
  | Rejected _ => st
  end.

(** The message starts with U+26A0 U+FE0F (warning sign). *)
Definition msg_stuck : jsstring :=
  9888%N :: 65039%N ::
  u " Migration appears to be stuck on cloning. This may be due to a large repository or network issues. Please wait a bit longer or restart the migration.".

(** The 15000 ms interval, set together with the polling interval;
    [timeSinceLastUpdate] is [Date.now() - lastUpdateTime]. *)
Definition stuckCheck (timeSinceLastUpdate : Z) (st : State) : State :=
  if pollingActive st then
    if (30000 <? timeSinceLastUpdate)%Z &&
       match migrationJob st with
       | Some job => statusIs job "cloning"
       | None => false
       end
    then st |> setError msg_stuck
    else st
  else st.

(** *** The effects that load the catalogue and the analysis *)

Definition javaVersionsLoaded
  (source_versions target_versions : list JavaVersionOption) (st : State)
  : State :=
  st |> setSourceVersions source_versions |> setTargetVersions target_versions.

Definition conversionTypesLoaded (l : list ConversionType) (st : State)
  : State :=
  st |> setConversionTypes l.

(** The effect of step 2 that asks for the analysis of the repository. *)
Definition analysisEffect (st : State) : State * list Effect :=
  match selectedRepo st with
  | Some r =>
      if (step st =? 2)%Z && isNull (repoAnalysis st) then
        (st |> setLoading true |> setError [],
         [Call (AnalyzeRepoUrl (url r) (githubToken st))])
      else (st, [])
  | None => (st, [])
  end.

Definition analysisSettled (p : Promise RepoAnalysis) (st : State) : State :=
  match p with
  | Resolved analysis =>
      st |> setRepoAnalysis (Some analysis)
         |> (match java_version analysis with
             | Some v =>
                 if truthy v && negb (JS.eqb v (u "unknown"))
                 then setSelectedSourceVersion v else fun st => st
             | None => fun st => st
             end)
         |> (if has_tests analysis && negb (isNull (build_tool analysis))
             then setRiskLevel (u "low")
             else if negb (isNull (build_tool analysis))
                  then setRiskLevel (u "medium")
                  else setRiskLevel (u "high"))
         |> setLoading false
  | Rejected message =>
      st |> setError (or_else message (u "Failed to analyze repository."))
         |> setLoading false
  end.

(** The effect of step 2 that lists the files of the repository. *)
Definition filesEffect (st : State) : State * list Effect :=
  match selectedRepo st with
  | Some r =>
      if (step st =? 2)%Z then
        (st |> setLoading true,
         [Call (ListRepoFiles (url r) (githubToken st) (currentPath st))])
      else (st, [])
  | None => (st, [])
  end.

Definition filesSettled (p : Promise (list RepoFile)) (st : State) : State :=
  match p with
  | Resolved files => st |> setRepoFiles files |> setLoading false
  | Rejected message =>
      st |> setError (or_else message (u "Failed to list repository files."))
         |> setLoading false
  end.

(** The effect that fills in the target repository name. *)
Definition autofillEffect (st : State) : State :=
  match selectedRepo st with
  | Some r =>
      if negb (truthy (targetRepoName st)) then
        st |> setTargetRepoName (or_else (name r) (u "repo") ++ u "-migrated")
      else st
  | None => st
  end.

(** *** What the views offer *)

(** The options of the target version [select]. *)
Definition offeredTargetVersions (st : State) : list JavaVersionOption :=
  filter (fun v => num_gt (parseInt (value v))
                          (parseInt (selectedSourceVersion st)))
         (targetVersions st).

(** [urlValidation] of [renderStep1] *)
Definition urlValidation (st : State) : validation :=
  if truthy (repoUrl st) then normalizeGithubUrl (repoUrl st)
  else mkValidation false [] [].

(** [migrationJob?.progress_percent || 0] *)
Definition progressOrZero (st : State) : Z :=
  match migrationJob st with
  | Some job => if (progress_percent job =? 0)%Z then 0%Z else progress_percent job
  | None => 0%Z
  end.

(** The five animated steps of [renderMigrationAnimation], each with the
    condition under which its check mark is drawn. *)
Definition animationSteps (st : State) : list (jsstring * bool) :=
  [ (u "Analyzing Source Code", (10 <=? progressOrZero st)%Z);
    (u "Updating Dependencies", (30 <=? progressOrZero st)%Z);
    (u "Applying Code Transformations", (50 <=? progressOrZero st)%Z);
    (u "Running Tests & Quality Checks", (70 <=? progressOrZero st)%Z);
    (u "Generating Migration Report", (90 <=? progressOrZero st)%Z) ].

Inductive Action : Type :=
| ChangeRepoUrl (v : jsstring)
| ClickContinue
| ClickBack
| ClickNext
| ClickFile (idx : nat)
| ClickHome
| ChangeApproach (v : jsstring)
| ChangeTargetVersion (v : jsstring)
| ChangeTargetRepoName (v : jsstring)
| ChangeConversion (v : jsstring)
| ClearConversion
| ChangeRunTests (b : bool)
| ChangeRunSonar (b : bool)
| ChangeFixBusinessLogic (b : bool)
| ClickStartMigration
| ClickCancelMigration
| ClickTryAgain
| ClickViewReport
| ClickDownload (a : Artifact)
| ClickStartNew
| ClickStepIndicator (stepId : Z)
| CloseErrorBanner.

Definition jobStatusIn (st : State) (l : list string) : bool :=
  match migrationJob st with
  | Some job => existsb (statusIs job) l
  | None => false
  end.

(** Is the control of [a] rendered, and enabled, in state [st]?  The
    views are [renderStep1] (step 1), [renderDiscoveryStep] (2),
    [renderAssessmentStep] (3), [renderStrategyStep] (4),
    [renderModernizeStep] (5), [renderMigrationAnimation] (9),
    [renderMigrationProgress] (10) and [renderStep11] (11). *)
Definition offered (st : State) (a : Action) : bool :=
  match a with
  | ChangeRepoUrl _ => (step st =? 1)%Z
  | ClickContinue =>
      (step st =? 1)%Z && truthy (repoUrl st) && valid (urlValidation st)
  | ClickBack =>
      (step st =? 2)%Z || (step st =? 3)%Z || (step st =? 4)%Z
      || (step st =? 5)%Z
  | ClickNext => (step st =? 2)%Z || (step st =? 3)%Z || (step st =? 4)%Z
  | ClickFile idx =>
      (step st =? 2)%Z && negb (isNull (selectedRepo st))
      && negb (loading st)
      && negb (isNull (nth_error (repoFiles st) idx))
  | ClickHome =>
      (step st =? 2)%Z && negb (isNull (selectedRepo st))
      && negb (loading st)
      && negb (Nat.eqb (List.length (repoFiles st)) 0)
      && truthy (currentPath st)
  | ChangeApproach v =>
      (step st =? 4)%Z
      && existsb (JS.eqb v) [u "in-place"; u "branch"; u "fork"]
  | ChangeTargetVersion v =>
      (step st =? 4)%Z
      && existsb (fun o => JS.eqb (value o) v) (offeredTargetVersions st)
  | ChangeTargetRepoName _ => (step st =? 4)%Z
  | ChangeConversion v =>
      (step st =? 5)%Z
      && (negb (truthy v)
          || existsb (fun ct => JS.eqb (id ct) v) (conversionTypes st))
  | ClearConversion =>
      (step st =? 5)%Z
      && negb (Nat.eqb (List.length (selectedConversions st)) 0)
  | ChangeRunTests _ => (step st =? 5)%Z
  | ChangeRunSonar _ => (step st =? 5)%Z
  | ChangeFixBusinessLogic _ => (step st =? 5)%Z
  | ClickStartMigration => (step st =? 5)%Z && negb (loading st)
  | ClickCancelMigration =>
      (step st =? 10)%Z
      && jobStatusIn st ["cloning"; "analyzing"; "migrating"]%string
  | ClickTryAgain => (step st =? 10)%Z && jobStatusIn st ["failed"]%string
  | ClickViewReport =>
      (step st =? 10)%Z && negb (isNull (migrationJob st))
      && negb (jobStatusIn st
           ["cloning"; "analyzing"; "migrating"; "pending"; "failed"]%string)
  | ClickDownload _ => (step st =? 11)%Z
  | ClickStartNew => (step st =? 11)%Z
  | ClickStepIndicator stepId =>
      existsb (Z.eqb stepId) [1; 2; 3; 4; 5]%Z && (stepId <? step st)%Z
  | CloseErrorBanner => truthy (error st)
  end.

(** The event handlers, as written on the controls. *)
Definition handle (a : Action) (st : State) : State * list Effect :=
  match a with
  | ChangeRepoUrl v => (st |> setRepoUrl v, [])
  | ClickContinue =>
      if truthy (repoUrl st) && valid (urlValidation st) then
        let finalUrl := normalizedUrl (urlValidation st) in
        (st |> setSelectedRepo (Some
                 {| name := or_else (remove_first (u ".git") (split_pop finalUrl))
                                    (u "repo");
                    full_name := finalUrl;
                    url := finalUrl;
                    default_branch := u "main";
                    language := None;
                    description := Some [] |})
            |> setStep 2, [])
      else (st, [])
  | ClickBack =>
      (if (step st =? 2)%Z then st |> setStep 1
       else if (step st =? 3)%Z then st |> setStep 2
       else if (step st =? 4)%Z then st |> setStep 3
       else st |> setStep 4, [])
  | ClickNext =>
      (if (step st =? 2)%Z then st |> setStep 3
       else if (step st =? 3)%Z then st |> setStep 4
       else st |> setStep 5, [])
  | ClickFile idx =>
      match nth_error (repoFiles st) idx with
      | Some {| type := dir; path := p |} => (st |> setCurrentPath p, [])
      | _ => (st, [])
      end
  | ClickHome => (st |> setCurrentPath [], [])
  | ChangeApproach v => (st |> setMigrationApproach v, [])
  | ChangeTargetVersion v => (st |> setSelectedTargetVersion v, [])
  | ChangeTargetRepoName v => (st |> setTargetRepoName v, [])
  | ChangeConversion v =>
      (st |> setSelectedConversions (if truthy v then [v] else []), [])
  | ClearConversion => (st |> setSelectedConversions [], [])
  | ChangeRunTests b => (st |> setRunTests b, [])
  | ChangeRunSonar b => (st |> setRunSonar b, [])
  | ChangeFixBusinessLogic b => (st |> setFixBusinessLogic b, [])
  | ClickStartMigration => handleStartMigration st
  | ClickCancelMigration => (st |> setError [] |> resetWizard, [])
  | ClickTryAgain => (st |> setError [] |> resetWizard, [])
  | ClickViewReport => (st |> setStep 11, [])
  | ClickDownload a =>
      match migrationJob st with
      | Some job => (st, [OpenUrl (artifactUrl a (job_id job))])
      | None => (st, [])
      end
  | ClickStartNew => (resetWizard st, [])
  | ClickStepIndicator stepId => (st |> setStep stepId, [])
  | CloseErrorBanner => (st |> setError [], [])
  end.

(** A user action takes effect when its control is on the screen. *)
Definition dispatch (a : Action) (st : State) : State * list Effect :=
  if offered st a then handle a st else (st, []).

End Wizard.

Import Wizard.

(** ** The registry behind [POST /migration/start]

    The server is not among the sources; its [create] is taken from the
    specification (section 4.2 and section 6). *)

Module Registry.

Inductive ValidationError : Type :=
| EmptyRepository
| TargetNotGreater
| NoConversionType
| InvalidOptions.

(** Modelled from the spec: the floors of the progress percent at which
    the stages count as done (section 4.1), which no source file holds:
    cloning, analysis, transform, verify, report. *)
Definition stageFloors : list Z := [20; 40; 70; 90; 100]%Z.

Section Create.

(** Left open by the specification: which option combinations are
    valid, how a failure is worded for the user, and how the pending
    job of an accepted request is allotted. *)
Variable valid_options : bool -> bool -> bool -> bool.
Variable describe : ValidationError -> jsstring.
Variable allocate : list MigrationResult -> MigrationRequest -> MigrationResult.

(** Modelled from the spec: the request validation of [create], which
    is missing from the sources: a non-empty repository reference, a
    target version greater than the source version (the versions
    compared by their integer values), at least one conversion type and
    a valid option combination. *)
Definition validate (r : MigrationRequest) : option ValidationError :=
  if negb (truthy (source_repo_url r)) then Some EmptyRepository
  else if negb (num_gt (parseInt (req_target_java_version r))
                       (parseInt (req_source_java_version r)))
  then Some TargetNotGreater
  else if isNull (hd_error (req_conversion_types r)) then Some NoConversionType
  else if negb (valid_options (run_tests r) (run_sonar r) (fix_business_logic r))
  then Some InvalidOptions
  else None.

(** Modelled from the spec: [create(request)] of the job registry,
    which is missing from the sources: a malformed request fails with
    a validation error carrying a human message and no job is created;
    otherwise a job is allocated and its initial snapshot returned. *)
Definition create (jobs : list MigrationResult) (r : MigrationRequest)
  : list MigrationResult * Response MigrationResult :=
  match validate r with
  | Some e =>
      (jobs, ResponseNotOk (Json (JsonValue (Some (DetailString (describe e))))))
  | None =>
      let job := allocate jobs r in
      (jobs ++ [job], ResponseOk (Json job))
  end.

End Create.

End Registry.

Import Registry.

(** ** Runs of the wizard

    The wizard together with the requests that are on their way.  An
    event is a user action on a control that is on the screen, a timer
    of the polling effect, one of the effects of step 2, or the answer
    to a request that is outstanding; answers may come in any order. *)

Module Run.

Record Sys : Type := mkSys {
  ui : State;
  outstanding : list ApiCall
}.

(** The wizard at mount: the catalogue requests are on their way. *)
Definition mounted (tok : jsstring) : Sys :=
  {| ui := initialState tok;
     outstanding := [GetJavaVersions; GetConversionTypes] |}.

Inductive Event : Type :=
| User (a : Action)
| PollTimer
| StuckTimer (timeSinceLastUpdate : Z)
| AnalysisEffect
| FilesEffect
| AutofillEffect
| JavaVersionsAnswer (source_versions target_versions : list JavaVersionOption)
| ConversionTypesAnswer (l : list ConversionType)
| AnalysisAnswer (p : Promise RepoAnalysis)
| FilesAnswer (p : Promise (list RepoFile))
| StartAnswer (response : Response MigrationResult)
| StatusAnswer (response : Response MigrationResult)
| LogsAnswer (response : Response (list jsstring)).

Definition calls (l : list Effect) : list ApiCall :=
  flat_map (fun e => match e with Call c => [c] | OpenUrl _ => [] end) l.

(** Take the first outstanding request that [p] recognises. *)
Fixpoint answered (p : ApiCall -> bool) (l : list ApiCall)
  : option (list ApiCall) :=
  match l with
  | [] => None
  | c :: l' =>
      if p c then Some l'
      else option_map (cons c) (answered p l')
  end.

Definition after (s : Sys) (r : State * list Effect) : Sys :=
  {| ui := fst r; outstanding := outstanding s ++ calls (snd r) |}.

Definition isStart (c : ApiCall) : bool :=
  match c with StartMigration _ => true | _ => false end.
Definition isAnalysis (c : ApiCall) : bool :=
  match c with AnalyzeRepoUrl _ _ => true | _ => false end.
Definition isFiles (c : ApiCall) : bool :=
  match c with ListRepoFiles _ _ _ => true | _ => false end.
Definition isJavaVersions (c : ApiCall) : bool :=
  match c with GetJavaVersions => true | _ => false end.
Definition isConversionTypes (c : ApiCall) : bool :=
  match c with GetConversionTypes => true | _ => false end.
Definition isLogs (c : ApiCall) : bool :=
  match c with GetMigrationLogs _ => true | _ => false end.

(** A status answer belongs to a status request for the job it is
    about, or is an error. *)
Definition isStatusFor (response : Response MigrationResult) (c : ApiCall)
  : bool :=
  match c, response with
  | GetMigrationStatus jobId, ResponseOk (Json job) => JS.eqb jobId (job_id job)
  | GetMigrationStatus _, _ => true
  | _, _ => false
  end.

(** One event; [None] when the event cannot happen in [s]. *)
Definition fire (e : Event) (s : Sys) : option Sys :=
  let answer p k :=
    match answered p (outstanding s) with
    | Some rest => Some (after {| ui := ui s; outstanding := rest |} (k (ui s)))
    | None => None
    end in
  match e with
  | User a => if offered (ui s) a then Some (after s (handle a (ui s))) else None
  | PollTimer =>
      if pollingActive (ui s) then Some (after s (ui s, pollTick (ui s)))
      else None
  | StuckTimer t =>
      if pollingActive (ui s) then Some (after s (stuckCheck t (ui s), []))
      else None
  | AnalysisEffect => Some (after s (analysisEffect (ui s)))
  | FilesEffect => Some (after s (filesEffect (ui s)))
  | AutofillEffect => Some (after s (autofillEffect (ui s), []))
  | JavaVersionsAnswer sv tv =>
      answer isJavaVersions (fun st => (javaVersionsLoaded sv tv st, []))
  | ConversionTypesAnswer l =>
      answer isConversionTypes (fun st => (conversionTypesLoaded l st, []))
  | AnalysisAnswer p => answer isAnalysis (fun st => (analysisSettled p st, []))
  | FilesAnswer p => answer isFiles (fun st => (filesSettled p st, []))
  | StartAnswer r =>
      answer isStart (fun st => (startMigrationSettled (startMigration r) st, []))
  | StatusAnswer r =>
      answer (isStatusFor r) (statusSettled (getMigrationStatus r))
  | LogsAnswer r =>
      answer isLogs (fun st => (logsSettled (getMigrationLogs r) st, []))
  end.

Fixpoint run (events : list Event) (s : Sys) : option Sys :=
  match events with
  | [] => Some s
  | e :: events' =>
      match fire e s with
      | Some s' => run events' s'
      | None => None
      end
  end.

(** The steps that have a view and are set by some handler. *)
Definition shownStep (st : State) : bool :=
  existsb (Z.eqb (step st)) [1; 2; 3; 4; 5; 9; 11]%Z.

End Run.

Import Run.

(** ** Sample values *)

Module Sample.

(** A snapshot with the given id, status and progress and nothing else
    filled in. *)
Definition snapshot (jobId st : string) (progress : Z) : MigrationResult :=
  {| job_id := u jobId; status := u st; source_repo := u "o/r";
     target_repo := None; source_java_version := u "8";
     target_java_version := u "17"; conversion_types := [u "java_version"];
     started_at := u "2025-01-01T00:00:00"; completed_at := None;
     progress_percent := progress; current_step := [];
     dependencies := []; files_modified := 0; issues_fixed := 0;
     api_endpoints_validated := 0; api_endpoints_working := 0;
     sonar_quality_gate := None; sonar_bugs := 0;
     sonar_vulnerabilities := 0; sonar_code_smells := 0;
     sonar_coverage := 0; error_message := None; migration_log := [];
     issues := []; total_errors := 0; total_warnings := 0;
     errors_fixed := 0; warnings_fixed := 0 |}.

(** The wizard showing job [job] at step [n]. *)
Definition showing (n : Z) (job : MigrationResult) : State :=
  initialState (u "t") |> setRepoUrl (u "o/r") |> setMigrationJob (Some job)
                       |> setStep n.

(** A registry that accepts every option combination, words each failure
    and allots a pending job. *)
Definition describe (e : ValidationError) : jsstring :=
  match e with
  | EmptyRepository => u "Repository is required"
  | TargetNotGreater => u "Target version must be greater than source version"
  | NoConversionType => u "Select at least one conversion type"
  | InvalidOptions => u "Invalid options"
  end.

Definition allocate (jobs : list MigrationResult) (r : MigrationRequest)
  : MigrationResult :=
  snapshot "job-1" "pending" 0.

(** The wizard on the Modernize step with a repository URL typed in. *)
Definition ready : State :=
  initialState (u "t") |> setRepoUrl (u "o/r") |> setStep 5.

(** The analysis of a Maven project with tests on Java [version]. *)
Definition analysisOn (version : string) : RepoAnalysis :=
  {| analysis_name := u "r"; analysis_full_name := u "o/r";
     analysis_default_branch := u "main"; analysis_language := Some (u "Java");
     build_tool := Some (u "maven"); java_version := Some (u version);
     has_tests := true; analysis_dependencies := []; api_endpoints := [];
     structure := {| has_pom_xml := true; has_build_gradle := false;
                     has_src_main := true; has_src_test := true |} |}.

(** From mount to the Modernize step: the user types "o/r", continues,
    the effects of step 2 run and are answered, the analysis finding
    Java [version], and the user continues three times. *)
Definition toModernizeOn (version : string) : list Event :=
  [ User (ChangeRepoUrl (u "o/r")); User ClickContinue;
    AnalysisEffect; FilesEffect; AutofillEffect;
    AnalysisAnswer (Resolved (analysisOn version)); FilesAnswer (Resolved []);
    User ClickNext; User ClickNext; User ClickNext ].

Definition toModernize : list Event := toModernizeOn "8".

(** An ok answer of the server with a snapshot of job [jobId]. *)
Definition answer (jobId st : string) (progress : Z)
  : Response MigrationResult :=
  ResponseOk (Json (snapshot jobId st progress)).

End Sample.

(** ** More of the wizard and of the service *)

Module More.

(** *** The toggles

    [prev.includes(id) ? prev.filter((c) => c !== id) : [...prev, id]],
    the updater of [handleConversionToggle] and [handleFrameworkToggle]. *)
Definition toggle (id : jsstring) (prev : list jsstring) : list jsstring :=
  if existsb (JS.eqb id) prev
  then filter (fun c => negb (JS.eqb c id)) prev
  else prev ++ [id].

Definition handleConversionToggle (id : jsstring) (st : State) : State :=
  st |> setSelectedConversions (toggle id (selectedConversions st)).

Definition handleFrameworkToggle (framework : jsstring) (st : State) : State :=
  st |> setSelectedFrameworks (toggle framework (selectedFrameworks st)).

(** *** The dependency list of the discovery view

    [dependencies.slice(0, 10)] and the line "+N more", drawn when
    [dependencies.length > 10] with [N = dependencies.length - 10]. *)
Definition shownDependencies (deps : list DependencyInfo)
  : list DependencyInfo :=
  firstn 10 deps.

Definition moreItems (deps : list DependencyInfo) : option nat :=
  if Nat.ltb 10 (List.length deps) then Some (List.length deps - 10)%nat
  else None.

(** *** Where the requests go

    [API_BASE_URL] is [(import.meta.env?.VITE_API_URL ||
    'http://localhost:8001') + '/api']; the variable may be missing. *)
Definition API_BASE_URL (VITE_API_URL : option jsstring) : jsstring :=
  or_else (match VITE_API_URL with Some v => v | None => [] end)
          (u "http://localhost:8001")
  ++ u "/api".

(** The unreserved set of [encodeURIComponent]: letters, digits and
    [- _ . ! ~ * ' ( )]. *)
Definition unreserved (c : N) : bool :=
  (N.leb 65 c && N.leb c 90) || (N.leb 97 c && N.leb c 122)
  || (N.leb 48 c && N.leb c 57)
  || existsb (N.eqb c) [45; 95; 46; 33; 126; 42; 39; 40; 41]%N.

Definition hexDigit (d : N) : N :=
  if N.ltb d 10 then (48 + d)%N else (55 + d)%N.

(** ["%XX"] for an octet, in upper case. *)
Definition percent (octet : N) : jsstring :=
  [37%N; hexDigit (N.modulo (N.div octet 16) 16); hexDigit (N.modulo octet 16)].

(** The UTF-8 octets of a code point. *)
Definition utf8 (v : N) : list N :=
  if N.ltb v 128 then [v]
  else if N.ltb v 2048 then
    [192 + N.div v 64; 128 + N.modulo v 64]%N
  else if N.ltb v 65536 then
    [224 + N.div v 4096; 128 + N.modulo (N.div v 64) 64; 128 + N.modulo v 64]%N
  else
    [240 + N.div v 262144; 128 + N.modulo (N.div v 4096) 64;
     128 + N.modulo (N.div v 64) 64; 128 + N.modulo v 64]%N.

Definition isHighSurrogate (c : N) : bool := N.leb 55296 c && N.leb c 56319.
Definition isLowSurrogate (c : N) : bool := N.leb 56320 c && N.leb c 57343.

(** [encodeURIComponent(s)]; [None] is the [URIError] thrown on a lone
    surrogate. *)
Fixpoint encodeURIComponent (s : jsstring) : option jsstring :=
  match s with
  | [] => Some []
  | c :: s' =>
      if unreserved c then option_map (cons c) (encodeURIComponent s')
      else if isLowSurrogate c then None
      else if isHighSurrogate c then
        match s' with
        | d :: s'' =>
            if isLowSurrogate d then
              option_map
                (app (flat_map percent
                        (utf8 ((c - 55296) * 1024 + (d - 56320) + 65536)%N)))
                (encodeURIComponent s'')
            else None
        | [] => None
        end
      else option_map (app (flat_map percent (utf8 c))) (encodeURIComponent s')
  end.

(** The characters that delimit a path, a query and its parameters:
    [/ ? # & = +] and the space. *)
Definition delimiter (c : N) : bool :=
  existsb (N.eqb c) [47; 63; 35; 38; 61; 43; 32]%N.

Definition isSurrogate (c : N) : bool := isHighSurrogate c || isLowSurrogate c.

(** The pieces of a template literal, put together; [None] when one of
    them threw. *)
Fixpoint join (parts : list (option jsstring)) : option jsstring :=
  match parts with
  | [] => Some []
  | Some x :: parts' => option_map (app x) (join parts')
  | None :: _ => None
  end.

Definition text (s : string) : option jsstring := Some (u s).

(** The URL each function of the service fetches; [None] when
    [encodeURIComponent] throws before the request is made. *)
Definition requestUrl (base : jsstring) (c : ApiCall) : option jsstring :=
  let enc := encodeURIComponent in
  match c with
  | FetchRepositories tok =>
      join [Some base; text "/github/repos?token="; enc tok]
  | AnalyzeRepository tok owner repo =>
      join [Some base; text "/github/repo/"; Some owner; text "/"; Some repo;
            text "/analyze?token="; enc tok]
  | AnalyzeRepoUrl repoUrl tok =>
      join [Some base; text "/github/analyze-url?repo_url="; enc repoUrl;
            text "&token="; enc tok]
  | ListRepoFiles repoUrl tok dirPath =>
      join [Some base; text "/github/list-files?repo_url="; enc repoUrl;
            text "&token="; enc tok; text "&path="; enc dirPath]
  | GetFileContent repoUrl filePath tok =>
      join [Some base; text "/github/file-content?repo_url="; enc repoUrl;
            text "&file_path="; enc filePath; text "&token="; enc tok]
  | GetJavaVersions => join [Some base; text "/java-versions"]
  | GetConversionTypes => join [Some base; text "/conversion-types"]
  | StartMigration _ => join [Some base; text "/migration/start"]
  | GetMigrationStatus jobId => join [Some base; text "/migration/"; Some jobId]
  | GetMigrationLogs jobId =>
      join [Some base; text "/migration/"; Some jobId; text "/logs"]
  | DownloadMigratedProject jobId =>
      join [Some base; text "/migration/"; Some jobId; text "/download-zip"]
  | DownloadMigrationReport jobId =>
      join [Some base; text "/migration/"; Some jobId; text "/report"]
  | ListMigrations => join [Some base; text "/migrations"]
  | GetRecipes => join [Some base; text "/openrewrite/recipes"]
  | HealthCheck => text "http://localhost:8001/health"
  end.

(** *** What holds along every run *)

(** From step 9 on a job is displayed. *)
Definition jobShown (st : State) : bool :=
  (step st <? 9)%Z || negb (isNull (migrationJob st)).

(** At most one conversion type is selected. *)
Definition oneConversion (l : list jsstring) : bool :=
  Nat.leb (List.length l) 1.

(** The source version is neither empty nor "unknown". *)
Definition sourceVersionKnown (st : State) : bool :=
  truthy (selectedSourceVersion st)
  && negb (JS.eqb (selectedSourceVersion st) (u "unknown")).

(** What a start request of the wizard looks like. *)
Definition wellFormed (tok : jsstring) (r : MigrationRequest) : Prop :=
  token r = tok
  /\ truthy (source_repo_url r) = true
  /\ truthy (target_repo_name r) = true
  /\ (platform r = u "github" \/ platform r = u "gitlab")
  /\ truthy (req_source_java_version r) = true
  /\ req_source_java_version r <> u "unknown"
  /\ oneConversion (req_conversion_types r) = true.

(** [isGithubUrl || isShortFormat] *)
Definition accepted (n : jsstring) : bool :=
  accepts re_github n || accepts re_short n.

(** The requests the wizard makes: with the token it was mounted with,
    and, where a repository is analysed or listed, for a URL in one of
    the two formats. *)
Definition wizardCall (tok : jsstring) (c : ApiCall) : Prop :=
  match c with
  | GetJavaVersions | GetConversionTypes => True
  | AnalyzeRepoUrl repoUrl t => t = tok /\ accepted repoUrl = true
  | ListRepoFiles repoUrl t _ => t = tok /\ accepted repoUrl = true
  | StartMigration r => wellFormed tok r
  | GetMigrationStatus _ | GetMigrationLogs _ => True
  | FetchRepositories _ | AnalyzeRepository _ _ _ | GetFileContent _ _ _
  | DownloadMigratedProject _ | DownloadMigrationReport _
  | ListMigrations | GetRecipes | HealthCheck => False
  end.

(** The fields of the screen that only some handlers write: the token
    is the one of mount, at most one conversion type is selected, the
    source version is known, and a selected repository has a name and
    a URL in one of the two formats. *)
Definition screenOk (tok : jsstring) (st : State) : Prop :=
  githubToken st = tok
  /\ oneConversion (selectedConversions st) = true
  /\ sourceVersionKnown st = true
  /\ forall r, selectedRepo st = Some r ->
       accepted (url r) = true /\ truthy (url r) = true
       /\ truthy (name r) = true.

Definition runOk (tok : jsstring) (s : Sys) : Prop :=
  screenOk tok (ui s)
  /\ forall c, In c (outstanding s) -> wizardCall tok c.

(** What an event does to the screen: a user action that is offered,
    one of the effects, or a callback of a settled promise. *)
Inductive ui_step : State -> State -> Prop :=
| ui_same st : ui_step st st
| ui_handle a st : offered st a = true -> ui_step st (fst (handle a st))
| ui_stuck t st : ui_step st (stuckCheck t st)
| ui_analysisEffect st : ui_step st (fst (analysisEffect st))
| ui_filesEffect st : ui_step st (fst (filesEffect st))
| ui_autofill st : ui_step st (autofillEffect st)
| ui_javaVersions sv tv st : ui_step st (javaVersionsLoaded sv tv st)
| ui_conversionTypes l st : ui_step st (conversionTypesLoaded l st)
| ui_analysis p st : ui_step st (analysisSettled p st)
| ui_files p st : ui_step st (filesSettled p st)
| ui_start p st : ui_step st (startMigrationSettled p st)
| ui_status p st : ui_step st (fst (statusSettled p st))
| ui_logs p st : ui_step st (logsSettled p st).

(** *** The effects after a change of step

    The analysis effect and the files effect have [step] among their
    dependencies, so both run again after every change of step.  Neither
    writes what the other reads ([step], [selectedRepo], [repoAnalysis],
    [githubToken], [currentPath]), so running them one after the other
    is running them on the state of the same render.  (The polling
    effect depends on [step] too; running it again sets or clears its
    two timers and writes no state.) *)
Definition stepEffects (st : State) : State * list Effect :=
  (fst (filesEffect (fst (analysisEffect st))),
   snd (analysisEffect st) ++ snd (filesEffect (fst (analysisEffect st)))).

(** A click on "Next" or "Back", which changes the step where it is
    offered, and the effects that follow it. *)
Definition navigate (a : Action) (st : State) : State * list Effect :=
  (fst (stepEffects (fst (dispatch a st))),
   snd (dispatch a st) ++ snd (stepEffects (fst (dispatch a st)))).

(** *** Promises without a [catch], and bodies that are [null]

    The two promises of the mount effect have a [then] and no [catch]:
    a rejection reaches no callback. *)
Definition javaVersionsSettled
  (p : Promise (list JavaVersionOption * list JavaVersionOption)) (st : State)
  : State :=
  match p with
  | Resolved (source_versions, target_versions) =>
      javaVersionsLoaded source_versions target_versions st
  | Rejected _ => st
  end.

Definition conversionTypesSettled (p : Promise (list ConversionType))
  (st : State) : State :=
  match p with
  | Resolved l => conversionTypesLoaded l st
  | Rejected _ => st
  end.

(** [response.json()] returns [null] for the body [null], which the
    declared type of the service functions hides and the wizard does
    not test.  When [startMigration] resolves to [null] the [then]
    callback runs [setMigrationJob(null); setStep(9)] and the [finally]
    callback [setLoading(false)]. *)
Definition startMigrationSettledNull (st : State) : State :=
  st |> setMigrationJob None |> setStep 9 |> setLoading false.

(** When [getMigrationStatus] resolves to [null] the [then] callback
    runs [setMigrationJob(null)] and throws on [job.status], so that the
    [catch] callback sets the banner. *)
Definition statusSettledNull (st : State) : State :=
  st |> setMigrationJob None |> setError (u "Failed to fetch migration status.").

(** *** Runs for the examples

    From mount to the Modernize step and "Start Migration", and the
    wizard as that run leaves it. *)
Definition startedRun : list Event :=
  Sample.toModernize ++ [User ClickStartMigration].

Definition started : Sys :=
  match run startedRun (mounted (u "t")) with
  | Some s => s
  | None => mounted (u "t")
  end.

(** Where a run from mount with token "t" leaves the wizard. *)
Definition reached (events : list Event) : Sys :=
  match run events (mounted (u "t")) with
  | Some s => s
  | None => mounted (u "t")
  end.

(** On the discovery step, the repository "o/r" analysed and listed. *)
Definition toDiscovery : list Event :=
  [ User (ChangeRepoUrl (u "o/r")); User ClickContinue;
    AnalysisEffect; FilesEffect; AutofillEffect;
    AnalysisAnswer (Resolved (Sample.analysisOn "8"));
    FilesAnswer (Resolved []) ].

(** A whole session: the catalogues arrive, the migration is started,
    polled once, found completed, its logs arrive, and the user is on
    the report view with no request on its way. *)
Definition toReport : list Event :=
  [ JavaVersionsAnswer [] []; ConversionTypesAnswer [] ]
  ++ Sample.toModernize
  ++ [ User ClickStartMigration; StartAnswer (Sample.answer "j" "pending" 0);
       PollTimer; StatusAnswer (Sample.answer "j" "completed" 100);
       LogsAnswer (ResponseOk (Json [])) ].

End More.

Import More.

(** ** The matcher decides the language *)

Module RegexFacts.

Lemma nullable_lang r : nullable r = true <-> lang r [].
Proof.
  induction r; simpl.
  - split; [discriminate | intro H; inversion H].
  - split; [constructor | reflexivity].
  - split; [discriminate | intro H; inversion H].
  - rewrite andb_true_iff, IHr1, IHr2. split.
    + intros [H1 H2]. change (@nil N) with (@nil N ++ []). now constructor.
    + intro H. inversion H; subst.
      match goal with E : _ ++ _ = [] |- _ =>
        apply app_eq_nil in E as [-> ->] end. tauto.
  - rewrite orb_true_iff, IHr1, IHr2. split.
    + intros [H | H]; [apply LAltL | apply LAltR]; assumption.
    + intro H; inversion H; subst; tauto.
  - split; [constructor | reflexivity].
Qed.

Lemma deriv_sound c r : forall s, lang (deriv c r) s -> lang r (c :: s).
Proof.
  induction r; simpl; intros s H; try solve [inversion H].
  - destruct (p c) eqn:E; inversion H; subst. now constructor.
  - destruct (nullable r1) eqn:N1.
    + inversion H; subst.
      * match goal with L : lang (Cat _ _) _ |- _ => inversion L; subst end.
        rewrite app_comm_cons. constructor; auto.
      * change (c :: s) with ([] ++ c :: s). constructor; auto.
        now apply nullable_lang.
    + inversion H; subst. rewrite app_comm_cons. constructor; auto.
  - inversion H; subst; [apply LAltL | apply LAltR]; auto.
  - inversion H; subst. constructor; auto.
Qed.

Lemma deriv_complete c r : forall s, lang r (c :: s) -> lang (deriv c r) s.
Proof.
  induction r; simpl; intros s H.
  - inversion H.
  - inversion H.
  - inversion H; subst. match goal with E : p c = true |- _ => rewrite E end.
    constructor.
  - inversion H; subst.
    match goal with E : ?a ++ ?b = c :: s |- _ =>
      destruct a as [|c1 a]; simpl in E; [subst b | injection E as -> <-] end.
    + match goal with L : lang r1 [] |- _ =>
        apply nullable_lang in L; rewrite L end.
      apply LAltR; auto.
    + destruct (nullable r1); [apply LAltL|]; constructor; auto.
  - inversion H; subst; [apply LAltL | apply LAltR]; auto.
  - inversion H; subst. constructor; auto.
Qed.

Theorem accepts_lang r s : accepts r s = true <-> lang r s.
Proof.
  revert r; induction s as [|c s IH]; intro r; simpl.
  - apply nullable_lang.
  - rewrite IH. split; [apply deriv_sound | apply deriv_complete].
Qed.

Lemma not_accepts_lang r s : accepts r s = false <-> ~ lang r s.
Proof.
  rewrite <- accepts_lang. destruct (accepts r s); split; congruence.
Qed.

(** Shapes of the languages the patterns are built from. *)

Lemma lang_lit w s : lang (lit w) s <-> s = w.
Proof.
  revert s; induction w as [|c w IH]; intro s; simpl; split; intro H.
  - now inversion H.
  - subst; constructor.
  - inversion H as [| |r1 r2 s1 s2 L1 L2| | | |]; subst.
    inversion L1 as [|p c' E| | | | |]; subst.
    apply N.eqb_eq in E; subst. apply IH in L2; subst. reflexivity.
  - subst. change (c :: w) with ([c] ++ w). constructor.
    + constructor. apply N.eqb_refl.
    + now apply IH.
Qed.

Lemma lang_cat r1 r2 s :
  lang (Cat r1 r2) s <-> exists s1 s2, s = s1 ++ s2 /\ lang r1 s1 /\ lang r2 s2.
Proof.
  split.
  - intro H; inversion H; subst; eauto.
  - intros (s1 & s2 & -> & H1 & H2); now constructor.
Qed.

Lemma lang_star_cls p s : lang (Star (Cls p)) s <-> forallb p s = true.
Proof.
  split.
  - intro H. remember (Star (Cls p)) as r eqn:E.
    induction H; try discriminate; auto.
    injection E as ->.
    match goal with L : lang (Cls p) _ |- _ => inversion L; subst end.
    simpl. apply andb_true_iff; split; auto.
  - induction s as [|c s IH]; simpl; intro H.
    + constructor.
    + apply andb_true_iff in H as [Hc Hs].
      change (c :: s) with (c :: [] ++ s). constructor; auto.
      now constructor.
Qed.

Lemma lang_plus_cls p s :
  lang (plus (Cls p)) s <-> s <> [] /\ forallb p s = true.
Proof.
  unfold plus. rewrite lang_cat. split.
  - intros (s1 & s2 & -> & H1 & H2). inversion H1; subst.
    apply lang_star_cls in H2. simpl. split; [discriminate|].
    apply andb_true_iff; auto.
  - intros [Hne H]. destruct s as [|c s]; [congruence|].
    simpl in H. apply andb_true_iff in H as [Hc Hs].
    exists [c], s. repeat split; [now constructor | now apply lang_star_cls].
Qed.

End RegexFacts.

(** ** Facts about [replace] and [trim] *)

Module StringFacts.

Import RegexFacts.

Lemma eqb_refl (s : jsstring) : JS.eqb s s = true.
Proof.
  induction s as [|c s IH]; simpl; auto. now rewrite N.eqb_refl.
Qed.

Lemma eqb_eq (a b : jsstring) : JS.eqb a b = true <-> a = b.
Proof.
  revert b; induction a as [|x a IH]; intros [|y b]; simpl;
    split; intro H; try discriminate; auto.
  - apply andb_true_iff in H as [H1 H2]. apply N.eqb_eq in H1.
    apply IH in H2. congruence.
  - injection H as -> ->. rewrite N.eqb_refl. now apply IH.
Qed.

Lemma replace_to_end_cons r c s :
  replace_to_end r (c :: s) =
  if accepts r (c :: s) then [] else c :: replace_to_end r s.
Proof. reflexivity. Qed.

Lemma replace_to_end_nil r : replace_to_end r [] = [].
Proof. simpl. now destruct (nullable r). Qed.

(** What [replace_to_end] removes is either nothing or a match, and no
    earlier position starts a match. *)
Lemma replace_to_end_split r s :
  exists t, s = replace_to_end r s ++ t
    /\ (t = [] \/ accepts r t = true)
    /\ (forall p q, replace_to_end r s = p ++ q -> q <> [] ->
          accepts r (q ++ t) = false).
Proof.
  induction s as [|c s (t & Hs & Ht & Hleft)].
  - exists []. rewrite replace_to_end_nil. split; [reflexivity | split; [auto|]].
    intros p q E Hq; symmetry in E; apply app_eq_nil in E as [_ ->];
      congruence.
  - rewrite replace_to_end_cons. destruct (accepts r (c :: s)) eqn:E.
    + exists (c :: s). split; [reflexivity | split; [auto|]].
      intros p q E' Hq. symmetry in E'. apply app_eq_nil in E' as [_ ->].
      congruence.
    + exists t. split; [simpl; congruence | split; [auto|]].
      intros [|c' p] q E' Hq; simpl in E'.
      * subst q. rewrite <- app_comm_cons, <- Hs. exact E.
      * injection E' as -> E'. eauto.
Qed.

Lemma replace_to_end_fix r n :
  (forall p q, n = p ++ q -> q <> [] -> accepts r q = false) ->
  replace_to_end r n = n.
Proof.
  induction n as [|c n IH]; intro H.
  - apply replace_to_end_nil.
  - rewrite replace_to_end_cons.
    rewrite (H [] (c :: n)) by (auto; discriminate).
    f_equal. apply IH. intros p q -> Hq. now apply (H (c :: p) q).
Qed.

Lemma replace_to_end_length r s :
  (List.length (replace_to_end r s) <= List.length s)%nat.
Proof.
  destruct (replace_to_end_split r s) as (t & E & _).
  rewrite E at 2. rewrite length_app. lia.
Qed.

Lemma replace_to_end_same_length r s :
  List.length (replace_to_end r s) = List.length s -> replace_to_end r s = s.
Proof.
  destruct (replace_to_end_split r s) as (t & E & _). intro L.
  rewrite E in L at 2. rewrite length_app in L.
  destruct t; [|simpl in L; lia]. now rewrite app_nil_r in E.
Qed.

Lemma trimStart_head s c t : trimStart s = c :: t -> is_space c = false.
Proof.
  induction s as [|d s IH]; simpl; [discriminate|].
  destruct (is_space d) eqn:E; auto. intro H; injection H as -> _; auto.
Qed.

Lemma trimStart_suffix s : exists w, s = w ++ trimStart s.
Proof.
  induction s as [|d s [w IH]]; simpl.
  - now exists [].
  - destruct (is_space d).
    + exists (d :: w). simpl. congruence.
    + now exists [].
Qed.

Lemma trimEnd_prefix s : exists w, s = trimEnd s ++ w.
Proof.
  unfold trimEnd. destruct (trimStart_suffix (rev s)) as [w Hw].
  exists (rev w). rewrite <- rev_app_distr, <- Hw. now rewrite rev_involutive.
Qed.

Lemma trim_length s : (List.length (trim s) <= List.length s)%nat.
Proof.
  unfold trim. destruct (trimStart_suffix s) as [w1 E1].
  destruct (trimEnd_prefix (trimStart s)) as [w2 E2].
  rewrite E1 at 2. rewrite E2 at 2. rewrite !length_app. lia.
Qed.

Lemma trim_same_length s : List.length (trim s) = List.length s -> trim s = s.
Proof.
  unfold trim. destruct (trimStart_suffix s) as [w1 E1].
  destruct (trimEnd_prefix (trimStart s)) as [w2 E2]. intro L.
  rewrite E1 in L at 2. rewrite E2 in L at 2. rewrite !length_app in L.
  destruct w1; [|simpl in L; lia]. destruct w2; [|simpl in L; lia].
  rewrite app_nil_r in E2. simpl in E1. congruence.
Qed.

Lemma trim_head s c t : trim s = c :: t -> is_space c = false.
Proof.
  unfold trim. intro H.
  destruct (trimEnd_prefix (trimStart s)) as [w Hw]. rewrite H in Hw.
  simpl in Hw. eapply trimStart_head; eauto.
Qed.

Lemma trim_fix c t n' d :
  is_space c = false -> is_space d = false ->
  c :: t = n' ++ [d] -> trim (c :: t) = c :: t.
Proof.
  intros Hc Hd E. unfold trim. simpl. rewrite Hc.
  unfold trimEnd. rewrite E, rev_app_distr. simpl. rewrite Hd.
  change (d :: rev n') with ([d] ++ rev n').
  now rewrite rev_app_distr, rev_involutive.
Qed.

(** The last code unit of a string. *)
Definition ends_in (p : N -> bool) (s : jsstring) : Prop :=
  exists s' d, s = s' ++ [d] /\ p d = true.

Lemma lang_cat_ends p r1 r2 :
  (forall t, lang r2 t -> ends_in p t) ->
  forall s, lang (Cat r1 r2) s -> ends_in p s.
Proof.
  intros H s L. apply lang_cat in L as (s1 & s2 & -> & _ & L2).
  destruct (H _ L2) as (s' & d & -> & Hd).
  exists (s1 ++ s'), d. now rewrite app_assoc.
Qed.

Lemma lang_plus_cls_ends p s : lang (plus (Cls p)) s -> ends_in p s.
Proof.
  intro L. apply lang_plus_cls in L as [Hne Hall].
  destruct (exists_last Hne) as (s' & d & ->).
  exists s', d. split; auto.
  rewrite forallb_app in Hall. apply andb_true_iff in Hall as [_ Hd].
  simpl in Hd. now rewrite andb_true_r in Hd.
Qed.

End StringFacts.

(** ** [normalizeGithubUrl] applied to its own result *)

Module UrlFacts.

Import RegexFacts StringFacts.

Definition not_lt (c : N) : bool := negb (is_line_terminator c).
Definition repo_unit (c : N) : bool := negb (N.eqb c 47 || is_space c).

Lemma re_src_lang s :
  lang re_src s <-> exists d, s = u "/src/" ++ d /\ forallb not_lt d = true.
Proof.
  unfold re_src. rewrite lang_cat. split.
  - intros (s1 & s2 & -> & L1 & L2). apply lang_lit in L1. subst s1.
    exists s2. split; auto. now apply lang_star_cls in L2.
  - intros (d & -> & Hd). exists (u "/src/"), d.
    repeat split; [now apply lang_lit | now apply lang_star_cls].
Qed.

(** A prefix of what the [/src/] rule returns, cut before a tail without
    line terminators, is left alone by the rule. *)
Lemma strip_src_stable s n e :
  replace_to_end re_src s = n ++ e -> forallb not_lt e = true ->
  replace_to_end re_src n = n.
Proof.
  intros Hs He. apply replace_to_end_fix. intros p q -> Hq.
  apply not_accepts_lang. intro L.
  apply re_src_lang in L as (d & -> & Hd).
  destruct (replace_to_end_split re_src s) as (t & _ & Ht & Hleft).
  specialize (Hleft p ((u "/src/" ++ d) ++ e)).
  rewrite Hs, <- app_assoc in Hleft.
  specialize (Hleft eq_refl).
  assert (Hne : (u "/src/" ++ d) ++ e <> []) by discriminate.
  specialize (Hleft Hne). apply not_accepts_lang in Hleft. apply Hleft.
  apply re_src_lang. destruct Ht as [-> | Ht].
  - exists (d ++ e). rewrite app_nil_r, <- app_assoc. split; auto.
    rewrite forallb_app, Hd, He. reflexivity.
  - apply accepts_lang, re_src_lang in Ht as (d' & -> & Hd').
    exists (d ++ e ++ u "/src/" ++ d'). split.
    + now rewrite <- !app_assoc.
    + rewrite !forallb_app, Hd, He, Hd'. reflexivity.
Qed.

Lemma lit_tail w t :
  t = [] \/ accepts (lit w) t = true -> t = [] \/ t = w.
Proof.
  intros [-> | H]; auto. right. now apply accepts_lang, lang_lit in H.
Qed.

(** The result of the five rules is a prefix of their input, and what
    the last two rules removed carries no line terminator. *)
Lemma strip_paths_shape s :
  exists e w,
    replace_to_end re_src (replace_to_end re_blob (replace_to_end re_tree s))
      = strip_paths s ++ e
    /\ forallb not_lt e = true
    /\ s = strip_paths s ++ w.
Proof.
  unfold strip_paths.
  set (s1 := replace_to_end re_tree s).
  set (s2 := replace_to_end re_blob s1).
  set (s3 := replace_to_end re_src s2).
  set (s4 := replace_to_end re_slash s3).
  destruct (replace_to_end_split re_tree s) as (t1 & H1 & _ & _).
  destruct (replace_to_end_split re_blob s1) as (t2 & H2 & _ & _).
  destruct (replace_to_end_split re_src s2) as (t3 & H3 & _ & _).
  destruct (replace_to_end_split re_slash s3) as (t4 & H4 & T4 & _).
  destruct (replace_to_end_split re_git s4) as (t5 & H5 & T5 & _).
  fold s1 in H1. fold s2 in H2. fold s3 in H3, H4. fold s4 in H4, H5.
  apply lit_tail in T4, T5.
  exists (t5 ++ t4), (t5 ++ t4 ++ t3 ++ t2 ++ t1). split; [|split].
  - rewrite H4 at 1. rewrite H5 at 1. now rewrite <- app_assoc.
  - destruct T4 as [-> | ->], T5 as [-> | ->]; reflexivity.
  - rewrite H1 at 1. rewrite H2 at 1. rewrite H3 at 1. rewrite H4 at 1.
    rewrite H5 at 1. now rewrite <- !app_assoc.
Qed.

Lemma valid_ends n :
  accepts re_github n || accepts re_short n = true -> ends_in repo_unit n.
Proof.
  intro H. apply orb_true_iff in H as [H | H]; apply accepts_lang in H;
    revert n H.
  - unfold re_github. do 7 apply lang_cat_ends. apply lang_plus_cls_ends.
  - unfold re_short. do 2 apply lang_cat_ends. apply lang_plus_cls_ends.
Qed.

Lemma strip_slash_fix n : ends_in repo_unit n -> replace_to_end re_slash n = n.
Proof.
  intros (s' & d & E & Hd). apply replace_to_end_fix. intros p q -> Hq.
  apply not_accepts_lang. intro L. apply lang_lit in L. subst q.
  apply app_inj_tail in E as [_ <-]. discriminate.
Qed.

(** [strip_paths] returns its argument exactly when none of the five
    rules finds anything in it. *)
Lemma strip_paths_fixed n :
  strip_paths n = n <->
  replace_to_end re_tree n = n /\ replace_to_end re_blob n = n
  /\ replace_to_end re_src n = n /\ replace_to_end re_slash n = n
  /\ replace_to_end re_git n = n.
Proof.
  unfold strip_paths. split.
  - intro E.
    pose proof (replace_to_end_length re_tree n) as L1.
    pose proof (replace_to_end_length re_blob (replace_to_end re_tree n)) as L2.
    pose proof (replace_to_end_length re_src
                  (replace_to_end re_blob (replace_to_end re_tree n))) as L3.
    pose proof (replace_to_end_length re_slash
                  (replace_to_end re_src
                     (replace_to_end re_blob (replace_to_end re_tree n)))) as L4.
    pose proof (replace_to_end_length re_git
                  (replace_to_end re_slash
                     (replace_to_end re_src
                        (replace_to_end re_blob (replace_to_end re_tree n)))))
      as L5.
    rewrite E in L5.
    assert (E1 : replace_to_end re_tree n = n)
      by (apply replace_to_end_same_length; lia).
    rewrite E1 in *.
    assert (E2 : replace_to_end re_blob n = n)
      by (apply replace_to_end_same_length; lia).
    rewrite E2 in *.
    assert (E3 : replace_to_end re_src n = n)
      by (apply replace_to_end_same_length; lia).
    rewrite E3 in *.
    assert (E4 : replace_to_end re_slash n = n)
      by (apply replace_to_end_same_length; lia).
    rewrite E4 in *. auto.
  - intros (E1 & E2 & E3 & E4 & E5). now rewrite E1, E2, E3, E4, E5.
Qed.

(** What an accepted input is normalised to: a string that matches one
    of the two formats, has no space at either end, and in which the
    [/src/] rule and the trailing-slash rule find nothing. *)
Lemma normalized_shape url :
  valid (normalizeGithubUrl url) = true ->
  let n := normalizedUrl (normalizeGithubUrl url) in
  accepts re_github n || accepts re_short n = true
  /\ trim n = n /\ truthy n = true
  /\ replace_to_end re_src n = n /\ replace_to_end re_slash n = n.
Proof.
  unfold normalizeGithubUrl.
  destruct (truthy (trim url)) eqn:T; cbn [negb]; [|discriminate].
  remember (strip_paths (trim url)) as n eqn:Dn.
  destruct (accepts re_github n || accepts re_short n) eqn:A;
    [|discriminate].
  intros _.
  replace (normalizedUrl _) with n by now destruct (negb (JS.eqb url n)).
  destruct (strip_paths_shape (trim url)) as (e & w & Hsrc & He & Hw).
  rewrite <- Dn in Hsrc, Hw.
  destruct (valid_ends _ A) as (n' & d & En & Hd).
  assert (Hspace : is_space d = false).
  { unfold repo_unit in Hd. apply negb_true_iff in Hd.
    now apply orb_false_iff in Hd as [_ Hd]. }
  cbn zeta. split; [exact A|].
  assert (Htrim : trim n = n /\ truthy n = true).
  { destruct n as [|c t].
    - destruct n'; discriminate.
    - split; [|reflexivity].
      apply trim_fix with (n' := n') (d := d); auto.
      apply (trim_head url c (t ++ w)). exact Hw. }
  destruct Htrim as [Htrim Hne].
  repeat split; auto.
  - exact (strip_src_stable _ _ _ Hsrc He).
  - apply strip_slash_fix. now exists n', d.
Qed.

(** On such a string [normalizeGithubUrl] is the identity, with the
    empty message, exactly when [strip_paths] is. *)
Lemma normalize_fixed n :
  accepts re_github n || accepts re_short n = true ->
  trim n = n -> truthy n = true ->
  (normalizeGithubUrl n = mkValidation true n [] <-> strip_paths n = n).
Proof.
  intros A Htrim Hne. unfold normalizeGithubUrl. rewrite Htrim, Hne.
  cbn [negb]. split.
  - destruct (accepts re_github (strip_paths n)
              || accepts re_short (strip_paths n)); [|discriminate].
    destruct (JS.eqb n (strip_paths n)) eqn:E; cbn [negb].
    + intros _. symmetry. now apply eqb_eq.
    + discriminate.
  - intros ->. now rewrite A, eqb_refl.
Qed.

End UrlFacts.

Example parseInt_17 : parseInt (u "17") = Some 17%Z.
Proof. reflexivity. Qed.

Example parseInt_1_8 : parseInt (u "1.8") = Some 1%Z.
Proof. reflexivity. Qed.

Example parseInt_text : parseInt (u "unknown") = None.
Proof. reflexivity. Qed.

Example parseInt_hex : parseInt (u " -0x1F") = Some (-31)%Z.
Proof. reflexivity. Qed.

Example normalize_tree :
  normalizeGithubUrl (u "https://github.com/owner/repo/tree/main/src") =
  mkValidation true (u "https://github.com/owner/repo") msg_normalized.
Proof. vm_compute. reflexivity. Qed.

Example normalize_plain :
  normalizeGithubUrl (u "owner/repo") = mkValidation true (u "owner/repo") [].
Proof. vm_compute. reflexivity. Qed.

Example normalize_blank :
  normalizeGithubUrl (u "   ") = mkValidation false [] msg_required.
Proof. vm_compute. reflexivity. Qed.

Example normalize_no_scheme :
  valid (normalizeGithubUrl (u "github.com/owner/repo")) = false.
Proof. vm_compute. reflexivity. Qed.

Example request_of_ready :
  handleStartMigration Sample.ready =
  (Sample.ready |> setLoading true |> setError [],
   [Call (StartMigration
      {| source_repo_url := u "o/r"; target_repo_name := u "r-migrated";
         platform := u "github"; req_source_java_version := u "8";
         req_target_java_version := u "17"; token := u "t";
         req_conversion_types := [u "java_version"]; run_tests := true;
         run_sonar := false; fix_business_logic := true |})]).
Proof. reflexivity. Qed.

(** ** The service: [startMigration] *)

(** C8, as stated, fails where the body is not JSON.  A response that
    is not ok and carries, say, the HTML page of a gateway makes
    [response.json()] throw, and the error that leaves [startMigration]
    has the parser's message, which is neither a [detail] nor "Failed to
    start migration".  And an ok response with such a body returns no
    snapshot. *)
Lemma startMigration_body_not_json :
  let syntaxError := u "Unexpected token < in JSON at position 0" in
  startMigration (ResponseNotOk (NotJson syntaxError)) = Rejected syntaxError
  /\ syntaxError <> u "Failed to start migration"
  /\ ok (ResponseOk (A := MigrationResult) (NotJson syntaxError)) = true
  /\ startMigration (ResponseOk (NotJson syntaxError)) = Rejected syntaxError.
Proof.
  intro syntaxError. repeat split. discriminate.
Qed.

(** C8, amended.  [startMigration] returns a snapshot exactly when the
    response is ok and its body parses, and the snapshot is then the
    parsed body; on a response that is not ok it never returns one.  On
    a response that is not ok whose body parses to a value other than
    [null], it throws an error whose message is the [detail] of the body
    when that is a string other than the empty one, and "Failed to start
    migration" when [detail] is missing or the empty string.  A body
    that does not parse makes it throw the parser's error. *)
Theorem startMigration_outcome :
  (forall response job,
      startMigration response = Resolved job <->
      response = ResponseOk (Json job))
  /\ (forall body job, startMigration (ResponseNotOk body) <> Resolved job)
  /\ (forall c d,
        startMigration
          (ResponseNotOk (Json (JsonValue (Some (DetailString (c :: d))))))
        = Rejected (c :: d))
  /\ startMigration (ResponseNotOk (Json (JsonValue (Some (DetailString [])))))
     = Rejected (u "Failed to start migration")
  /\ startMigration (ResponseNotOk (Json (JsonValue None)))
     = Rejected (u "Failed to start migration")
  /\ (forall syntaxError,
        startMigration (ResponseNotOk (NotJson syntaxError))
        = Rejected syntaxError
        /\ startMigration (ResponseOk (NotJson syntaxError))
           = Rejected syntaxError).
Proof.
  repeat split; try reflexivity.
  - destruct response as [[e | value] | [e | [| detail]]]; simpl;
      intro H; try discriminate. now injection H as ->.
  - now intros ->.
  - destruct body as [e | [| detail]]; discriminate.
Qed.

(** ** The stuck check *)

(** C3.  The 15-second stuck check changes nothing but the error
    banner: every other field of the state, the job and its status among
    them, is as before; polling goes on exactly as before; and the
    banner changes only to the advisory text, and only when more than
    30000 ms passed without an update while the job is cloning. *)
Theorem stuckCheck_advisory (timeSinceLastUpdate : Z) (st : State) :
  let st' := stuckCheck timeSinceLastUpdate st in
  st' = setError (error st') st
  /\ migrationJob st' = migrationJob st
  /\ step st' = step st
  /\ pollingActive st' = pollingActive st
  /\ pollTick st' = pollTick st
  /\ (error st' = error st
      \/ error st' = msg_stuck
         /\ (30000 < timeSinceLastUpdate)%Z
         /\ jobStatusIn st ["cloning"%string] = true).
Proof.
  assert (Hid : st = setError (error st) st) by now destruct st.
  assert (H : stuckCheck timeSinceLastUpdate st = st
              \/ stuckCheck timeSinceLastUpdate st = setError msg_stuck st
                 /\ (30000 < timeSinceLastUpdate)%Z
                 /\ jobStatusIn st ["cloning"%string] = true).
  { unfold stuckCheck, jobStatusIn.
    destruct (pollingActive st); auto.
    destruct (30000 <? timeSinceLastUpdate)%Z eqn:T; auto.
    destruct (migrationJob st) as [job|]; auto.
    destruct (statusIs job "cloning") eqn:S; auto.
    right. simpl. rewrite S. repeat split. now apply Z.ltb_lt. }
  destruct H as [-> | (-> & T & S)]; simpl.
  - repeat split; auto.
  - repeat split; auto.
Qed.

(** ** The animated steps *)

(** C4, as stated, fails: at 10 percent the first animated step already
    carries its check mark, although no stage floor of the specification
    (the lowest is 20) is reached; and at 90 percent all five steps are
    checked, the report step among them, whose floor is 100. *)
Lemma animation_thresholds_differ :
  let at10 := Sample.showing 9 (Sample.snapshot "j" "cloning" 10) in
  let at90 := Sample.showing 9 (Sample.snapshot "j" "testing" 90) in
  map snd (animationSteps at10) = [true; false; false; false; false]
  /\ map (fun floor => (floor <=? 10)%Z) stageFloors
     = [false; false; false; false; false]
  /\ map snd (animationSteps at90) = [true; true; true; true; true]
  /\ map (fun floor => (floor <=? 90)%Z) stageFloors
     = [true; true; true; true; false]
  /\ map snd (animationSteps at10)
     <> map (fun floor => (floor <=? 10)%Z) stageFloors
  /\ map snd (animationSteps at90)
     <> map (fun floor => (floor <=? 90)%Z) stageFloors.
Proof. repeat split; discriminate. Qed.

(** C4, amended.  The five animated steps are checked exactly when the
    progress percent of the displayed job (0 when there is no job) is at
    least 10, 30, 50, 70 and 90. *)
Theorem animation_thresholds (st : State) :
  let p := match migrationJob st with
           | Some job => progress_percent job
           | None => 0%Z
           end in
  map fst (animationSteps st) =
    [u "Analyzing Source Code"; u "Updating Dependencies";
     u "Applying Code Transformations"; u "Running Tests & Quality Checks";
     u "Generating Migration Report"]
  /\ map snd (animationSteps st) =
     map (fun threshold => (threshold <=? p)%Z) [10; 30; 50; 70; 90]%Z.
Proof.
  intro p. split; [reflexivity|].
  assert (Hp : progressOrZero st = p).
  { unfold progressOrZero, p. destruct (migrationJob st) as [job|]; auto.
    destruct (progress_percent job =? 0)%Z eqn:E; auto.
    apply Z.eqb_eq in E. congruence. }
  unfold animationSteps. rewrite Hp. reflexivity.
Qed.

(** ** [resetWizard] *)

(** C10: the code where the user has unticked "Fix Business Logic
    Issues".  After [resetWizard] the flag is still off, so the wizard
    is not back in its initial state and the next request carries
    [fix_business_logic = false], where a fresh session sends [true].
    So it is in the run in which the user unticks the box, sees the
    migration through, presses "Start New Migration" and goes through
    the wizard again with the same repository: the second request goes
    out with the flag off, the other two flags at their defaults. *)
Theorem resetWizard_misses_fixBusinessLogic :
  (let st := Sample.showing 11 (Sample.snapshot "j" "completed" 100)
               |> setFixBusinessLogic false in
   fixBusinessLogic (resetWizard st) = false
   /\ fixBusinessLogic (initialState (u "t")) = true
   /\ resetWizard st <> initialState (u "t")
   /\ fix_business_logic
        (migrationRequest (resetWizard st |> setRepoUrl (u "o/r"))) = false
   /\ fix_business_logic
        (migrationRequest (initialState (u "t") |> setRepoUrl (u "o/r")))
      = true)
  /\
  (exists s request,
     run (Sample.toModernize ++
          [ User (ChangeFixBusinessLogic false);
            User ClickStartMigration; StartAnswer (Sample.answer "j" "pending" 0);
            PollTimer; StatusAnswer (Sample.answer "j" "completed" 100);
            User ClickStartNew ] ++
          Sample.toModernize ++ [ User ClickStartMigration ])
         (mounted (u "t")) = Some s
     /\ outstanding s =
        [GetJavaVersions; GetConversionTypes; GetMigrationLogs (u "j");
         StartMigration request]
     /\ fix_business_logic request = false
     /\ run_tests request = true
     /\ run_sonar request = false).
Proof.
  split.
  - repeat split. intro H. apply (f_equal fixBusinessLogic) in H. discriminate.
  - eexists. eexists. split; [vm_compute; reflexivity|].
    split; [vm_compute; reflexivity|]. repeat split.
Qed.

(** What [resetWizard] does restore: everything but the flag
    [fixBusinessLogic], the token and the three catalogue lists, which
    it does not touch. *)
Lemma resetWizard_spec (st : State) :
  resetWizard st =
  initialState (githubToken st)
    |> setFixBusinessLogic (fixBusinessLogic st)
    |> setSourceVersions (sourceVersions st)
    |> setTargetVersions (targetVersions st)
    |> setConversionTypes (conversionTypes st).
Proof. reflexivity. Qed.

(** ** Reading the status *)

Lemma statusIs_true job s : statusIs job s = true <-> status job = u s.
Proof. unfold statusIs. apply StringFacts.eqb_eq. Qed.

(** ** Polling *)




(** ** The report view and its downloads *)

(** C6, as stated, fails.  There is a run from mount that ends on the
    report view with the three downloads on offer for a job that is
    still cloning: while a status request for job "j" is outstanding
    the user goes back to the Modernize step and starts a second
    migration, "k"; the wizard polls "k"; then the answer for "j"
    arrives, completed, and moves the wizard to the report view; and
    then the answer for "k" arrives and replaces the displayed job.  The
    report view never looks at the status.  Nor does the button of the
    progress view hold the user back: it is offered for a job that is
    still testing. *)
Lemma report_reachable_before_completed :
  (exists s,
     run (Sample.toModernize ++
          [ User ClickStartMigration; StartAnswer (Sample.answer "j" "pending" 0);
            PollTimer;
            User (ClickStepIndicator 5);
            User ClickStartMigration; StartAnswer (Sample.answer "k" "pending" 0);
            PollTimer;
            StatusAnswer (Sample.answer "j" "completed" 100);
            StatusAnswer (Sample.answer "k" "cloning" 5) ])
         (mounted (u "t")) = Some s
     /\ step (ui s) = 11%Z
     /\ option_map status (migrationJob (ui s)) = Some (u "cloning")
     /\ map (fun a => snd (dispatch (ClickDownload a) (ui s)))
            [download_zip; report; jmeter]
        = [[OpenUrl (u "http://localhost:8001/api/migration/k/download-zip")];
           [OpenUrl (u "http://localhost:8001/api/migration/k/report")];
           [OpenUrl (u "http://localhost:8001/api/migration/k/jmeter")]])
  /\
  (let st := Sample.showing 10 (Sample.snapshot "j" "testing" 80) in
   let st' := fst (dispatch ClickViewReport st) in
   offered st ClickViewReport = true
   /\ step st' = 11%Z
   /\ option_map status (migrationJob st') = Some (u "testing")
   /\ snd (dispatch (ClickDownload report) st')
      = [OpenUrl (u "http://localhost:8001/api/migration/j/report")]).
Proof.
  split.
  - eexists. split; [vm_compute; reflexivity|]. repeat split.
  - repeat split; vm_compute; reflexivity.
Qed.

(** C6, amended.  An answer to a status request moves the wizard to the
    report view exactly when its snapshot is completed, and leaves the
    step alone otherwise.  "View Migration Report" is offered on the
    progress view for every status other than cloning, analyzing,
    migrating, pending and failed.  On the report view each download
    opens its URL for whatever job is displayed; the status of that job
    is not consulted. *)
Theorem report_view_gates (st : State) :
  (forall p,
      step (fst (statusSettled p st)) =
      match p with
      | Resolved job => if statusIs job "completed" then 11%Z else step st
      | Rejected _ => step st
      end)
  /\ offered st ClickViewReport =
       (step st =? 10)%Z && negb (isNull (migrationJob st))
       && negb (jobStatusIn st
            ["cloning"; "analyzing"; "migrating"; "pending"; "failed"]%string)
  /\ (forall a,
      dispatch (ClickDownload a) st =
      (st, match migrationJob st with
           | Some job =>
               if (step st =? 11)%Z then [OpenUrl (artifactUrl a (job_id job))]
               else []
           | None => []
           end)).
Proof.
  split; [|split].
  - intros [job | message]; cbn [statusSettled fst]; [|reflexivity].
    destruct (statusIs job "completed"); reflexivity.
  - reflexivity.
  - intro a. unfold dispatch. cbn [offered handle].
    destruct (step st =? 11)%Z, (migrationJob st); reflexivity.
Qed.

(** ** Starting a migration *)

Lemma or_else_truthy a b : truthy b = true -> truthy (or_else a b) = true.
Proof. unfold or_else. now destruct a. Qed.

(** What the wizard shows after a start that failed: the job, the step
    and the rest of the configuration are as before the click, and an
    error is on the banner. *)
Lemma start_rejected_view (message : jsstring) (st : State) :
  let st1 := fst (handleStartMigration st) in
  let st2 := startMigrationSettled (Rejected message) st1 in
  migrationJob st2 = migrationJob st
  /\ step st2 = step st
  /\ loading st2 = false
  /\ truthy (error st2) = true.
Proof.
  unfold handleStartMigration.
  destruct (isNull (selectedRepo st) && negb (truthy (repoUrl st)));
    cbn [fst startMigrationSettled];
    (split; [vm_compute; reflexivity|]); (split; [vm_compute; reflexivity|]);
    (split; [vm_compute; reflexivity|]);
    change (truthy (or_else message (u "Failed to start migration.")) = true);
    now apply or_else_truthy.
Qed.

Section Rejected.

Variable valid_options : bool -> bool -> bool -> bool.
Variable describe : ValidationError -> jsstring.
Variable allocate : list MigrationResult -> MigrationRequest -> MigrationResult.

Let create := create valid_options describe allocate.

(** A request that fails validation creates no job and is answered
    with an error. *)
Lemma create_invalid jobs r e :
  validate valid_options r = Some e ->
  create jobs r =
  (jobs, ResponseNotOk (Json (JsonValue (Some (DetailString (describe e)))))).
Proof. unfold create, Registry.create. now intros ->. Qed.

Lemma create_invalid_seen jobs r e st :
  validate valid_options r = Some e ->
  let st1 := fst (handleStartMigration st) in
  let st2 := startMigrationSettled (startMigration (snd (create jobs r))) st1 in
  fst (create jobs r) = jobs
  /\ ok (snd (create jobs r)) = false
  /\ migrationJob st2 = migrationJob st
  /\ step st2 = step st
  /\ truthy (error st2) = true.
Proof.
  intros V st1 st2. subst st1 st2. rewrite (create_invalid jobs r e V).
  cbn [fst snd ok startMigration throwDetail].
  destruct (start_rejected_view
              (detail_or (Some (DetailString (describe e)))
                         (u "Failed to start migration")) st)
    as (J & S & _ & E).
  auto.
Qed.

End Rejected.

(** The wizard itself compares no versions when it builds the request:
    in the run in which the analysis finds Java 21 and the user leaves
    the version [select] alone, the request goes out with source 21 and
    the default target 17. *)
Example start_with_older_target_sent :
  exists s request,
    run (Sample.toModernizeOn "21" ++ [ User ClickStartMigration ])
        (mounted (u "t")) = Some s
    /\ outstanding s =
       [GetJavaVersions; GetConversionTypes; StartMigration request]
    /\ req_source_java_version request = u "21"
    /\ req_target_java_version request = u "17".
Proof.
  eexists. eexists. split; [vm_compute; reflexivity|].
  split; [vm_compute; reflexivity|]. split; reflexivity.
Qed.

(** C1.  The target version [select] lists only versions whose integer
    value is strictly greater than that of the selected source version.
    And a start request whose target version is not greater than its
    source version is answered by the registry with a validation error:
    no job is added to the registry, and the wizard shows an error, with
    its job and its step as they were before the click. *)
Theorem target_version_above_source :
  (forall st v,
      In v (offeredTargetVersions st) ->
      In v (targetVersions st)
      /\ exists t s, parseInt (value v) = Some t
                     /\ parseInt (selectedSourceVersion st) = Some s
                     /\ (s < t)%Z)
  /\
  (forall valid_options describe allocate jobs request st t s,
      parseInt (req_target_java_version request) = Some t ->
      parseInt (req_source_java_version request) = Some s ->
      (t <= s)%Z ->
      let answer := create valid_options describe allocate jobs request in
      let st1 := fst (handleStartMigration st) in
      let st2 := startMigrationSettled (startMigration (snd answer)) st1 in
      fst answer = jobs
      /\ ok (snd answer) = false
      /\ migrationJob st2 = migrationJob st
      /\ step st2 = step st
      /\ truthy (error st2) = true).
Proof.
  split.
  - intros st v H. unfold offeredTargetVersions in H.
    apply filter_In in H as [H G]. split; auto.
    unfold num_gt in G.
    destruct (parseInt (value v)) as [t|]; [|discriminate].
    destruct (parseInt (selectedSourceVersion st)) as [s|]; [|discriminate].
    exists t, s. repeat split. now apply Z.ltb_lt.
  - intros valid_options describe allocate jobs request st t s T S L.
    assert (V : exists e, validate valid_options request = Some e).
    { unfold validate. destruct (truthy (source_repo_url request)); cbn [negb].
      - rewrite T, S. cbn [num_gt].
        replace (s <? t)%Z with false by (symmetry; apply Z.ltb_ge; lia).
        cbn [negb]. eauto.
      - eauto. }
    destruct V as [e V].
    eapply create_invalid_seen; eassumption.
Qed.

(** The theorem where the source version was detected as 21, the target
    is still the default 17 and the list offers 11, 17 and 25. *)
Lemma target_version_above_source_witness :
  let st := Sample.ready
              |> setSelectedSourceVersion (u "21")
              |> setTargetVersions
                   [ {| value := u "11"; label := u "Java 11" |};
                     {| value := u "17"; label := u "Java 17" |};
                     {| value := u "25"; label := u "Java 25" |} ] in
  let v := {| value := u "25"; label := u "Java 25" |} in
  let request := migrationRequest st in
  let answer := create (fun _ _ _ => true) Sample.describe Sample.allocate [] request in
  (exists t s, parseInt (value v) = Some t
               /\ parseInt (selectedSourceVersion st) = Some s /\ (s < t)%Z)
  /\ fst answer = [] /\ ok (snd answer) = false.
Proof.
  intros st v request answer.
  destruct target_version_above_source as [Offered Refused]. split.
  - apply (Offered st v). vm_compute. auto.
  - destruct (Refused (fun _ _ _ => true) Sample.describe Sample.allocate []
                request st 17%Z 21%Z) as (A & B & _);
      [reflexivity | reflexivity | lia | auto].
Defined.

(** The wizard does not hold back a start with no conversion type
    selected: the request goes out with an empty list. *)
Example start_without_conversion_sent :
  let st := Sample.ready |> setSelectedConversions [] in
  exists st1 request,
    dispatch ClickStartMigration st = (st1, [Call (StartMigration request)])
    /\ req_conversion_types request = [].
Proof. intro st. eexists. eexists. split; vm_compute; reflexivity. Qed.

(** C7.  With no conversion type selected, pressing "Start Migration"
    either sends nothing, or sends a request with an empty conversion
    list which the registry answers with a validation error: no job is
    added to the registry, and the wizard shows an error, with its job
    and its step as they were before the click. *)
Theorem empty_conversion_list_rejected
  (valid_options : bool -> bool -> bool -> bool)
  (describe : ValidationError -> jsstring)
  (allocate : list MigrationResult -> MigrationRequest -> MigrationResult)
  (jobs : list MigrationResult) (st : State) :
  selectedConversions st = [] ->
  snd (dispatch ClickStartMigration st) = []
  \/ exists request,
       snd (dispatch ClickStartMigration st) = [Call (StartMigration request)]
       /\ req_conversion_types request = []
       /\ let answer := create valid_options describe allocate jobs request in
          let st1 := fst (dispatch ClickStartMigration st) in
          let st2 := startMigrationSettled (startMigration (snd answer)) st1 in
          fst answer = jobs
          /\ ok (snd answer) = false
          /\ migrationJob st2 = migrationJob st
          /\ step st2 = step st
          /\ truthy (error st2) = true.
Proof.
  intro E. unfold dispatch.
  destruct (offered st ClickStartMigration); [|left; reflexivity].
  cbn [handle]. unfold handleStartMigration at 1 2.
  destruct (isNull (selectedRepo st) && negb (truthy (repoUrl st))) eqn:R;
    [left; reflexivity|].
  right. exists (migrationRequest st). split; [reflexivity|].
  split; [exact E|].
  assert (V : exists e, validate valid_options (migrationRequest st) = Some e).
  { unfold validate.
    destruct (negb (truthy (source_repo_url (migrationRequest st)))); eauto.
    destruct (negb (num_gt _ _)); eauto.
    change (req_conversion_types (migrationRequest st))
      with (selectedConversions st).
    rewrite E. cbn. eauto. }
  destruct V as [e V].
  eapply create_invalid_seen; eassumption.
Qed.

(** The theorem on the Modernize step with the conversion type cleared:
    the request is sent and refused. *)
Lemma empty_conversion_list_rejected_witness :
  let st := Sample.ready |> setSelectedConversions [] in
  selectedConversions st = []
  /\ (snd (dispatch ClickStartMigration st) = []
      \/ exists request,
           snd (dispatch ClickStartMigration st)
             = [Call (StartMigration request)]
           /\ req_conversion_types request = []
           /\ let answer :=
                create (fun _ _ _ => true) Sample.describe Sample.allocate
                       [] request in
              let st1 := fst (dispatch ClickStartMigration st) in
              let st2 :=
                startMigrationSettled (startMigration (snd answer)) st1 in
              fst answer = []
              /\ ok (snd answer) = false
              /\ migrationJob st2 = migrationJob st
              /\ step st2 = step st
              /\ truthy (error st2) = true).
Proof.
  intro st. split; [reflexivity|].
  apply (empty_conversion_list_rejected (fun _ _ _ => true) Sample.describe
           Sample.allocate [] st).
  reflexivity.
Defined.

(** ** [normalizeGithubUrl] on its own result *)

(** C9, as stated, fails.  Only one [.git] suffix is removed, so
    "owner/repo.git.git" is accepted with a normalised URL that the
    second application changes again.  And where a [/tree/] or [/blob/]
    rule meets a line terminator further right, it removes a later
    match and leaves an earlier [/tree/x] or [/blob/x] in an accepted
    URL, which the second application then rejects. *)
Lemma normalize_not_idempotent :
  (normalizeGithubUrl (u "owner/repo.git.git")
     = mkValidation true (u "owner/repo.git") msg_normalized
   /\ normalizeGithubUrl (u "owner/repo.git")
     = mkValidation true (u "owner/repo") msg_normalized)
  /\
  (normalizeGithubUrl (u "https://github.com/tree/a/tree/b" ++ [10%N] ++ u "c")
     = mkValidation true (u "https://github.com/tree/a") msg_normalized
   /\ normalizeGithubUrl (u "https://github.com/tree/a")
     = mkValidation false [] msg_invalid)
  /\
  (normalizeGithubUrl (u "https://github.com/blob/a/blob/b" ++ [10%N] ++ u "c")
     = mkValidation true (u "https://github.com/blob/a") msg_normalized
   /\ normalizeGithubUrl (u "https://github.com/blob/a")
     = mkValidation false [] msg_invalid).
Proof. repeat split; vm_compute; reflexivity. Qed.

(** C9, amended.  For every input that [normalizeGithubUrl] accepts,
    applying it to the normalised URL accepts that URL, returns it
    unchanged and gives the empty message exactly when the normalised
    URL does not end in [.git] and the [/tree/] and [/blob/] rules find
    nothing in it.  (The other steps never find anything in a normalised
    URL.) *)
Theorem normalize_idempotent (url : jsstring) :
  valid (normalizeGithubUrl url) = true ->
  let n := normalizedUrl (normalizeGithubUrl url) in
  normalizeGithubUrl n = mkValidation true n [] <->
  replace_to_end re_git n = n
  /\ replace_to_end re_tree n = n
  /\ replace_to_end re_blob n = n.
Proof.
  intros V n.
  destruct (UrlFacts.normalized_shape url V) as (A & Htrim & Hne & Hsrc & Hslash).
  fold n in A, Htrim, Hne, Hsrc, Hslash.
  rewrite (UrlFacts.normalize_fixed n A Htrim Hne), UrlFacts.strip_paths_fixed.
  tauto.
Qed.

(** The theorem at a URL copied from a branch page. *)
Lemma normalize_idempotent_witness :
  let url := u "https://github.com/owner/repo/tree/main" in
  valid (normalizeGithubUrl url) = true
  /\ normalizedUrl (normalizeGithubUrl url) = u "https://github.com/owner/repo"
  /\ normalizeGithubUrl (u "https://github.com/owner/repo")
     = mkValidation true (u "https://github.com/owner/repo") [].
Proof.
  intro url. split; [vm_compute; reflexivity|].
  split; [vm_compute; reflexivity|].
  assert (V : valid (normalizeGithubUrl url) = true) by (vm_compute; reflexivity).
  apply (proj2 (normalize_idempotent url V)).
  repeat split; vm_compute; reflexivity.
Defined.

(** ** The steps a run can reach *)

Ltac step_of_setters :=
  cbn [fst snd step setStep setRepoUrl setRepos setSelectedRepo setGithubToken
       setRepoAnalysis setRepoFiles setCurrentPath setTargetRepoName
       setSourceVersions setTargetVersions setSelectedSourceVersion
       setSelectedTargetVersion setConversionTypes setSelectedConversions
       setRunTests setRunSonar setFixBusinessLogic setLoading setMigrationJob
       setMigrationLogs setError setMigrationApproach setRiskLevel
       setSelectedFrameworks].

Lemma handle_shownStep a st :
  offered st a = true -> shownStep st = true ->
  shownStep (fst (handle a st)) = true.
Proof.
  intros O I. destruct a; cbn [handle].
  all: try (step_of_setters; exact I).
  all: try reflexivity.
  - destruct (truthy (repoUrl st) && valid (urlValidation st));
      step_of_setters; auto.
  - cbn [offered] in O.
    destruct (step st =? 2)%Z; [reflexivity|].
    destruct (step st =? 3)%Z; [reflexivity|].
    destruct (step st =? 4)%Z; reflexivity.
  - destruct (step st =? 2)%Z; [reflexivity|].
    destruct (step st =? 3)%Z; reflexivity.
  - destruct (nth_error (repoFiles st) idx) as [[? ? [] ? ?]|];
      step_of_setters; exact I.
  - unfold handleStartMigration.
    destruct (isNull (selectedRepo st) && negb (truthy (repoUrl st)));
      step_of_setters; exact I.
  - destruct (migrationJob st); exact I.
  - cbn [offered] in O. apply andb_true_iff in O as [O _].
    unfold shownStep. step_of_setters.
    cbn [existsb] in O |- *.
    destruct (stepId =? 1)%Z; [reflexivity|]. destruct (stepId =? 2)%Z; [reflexivity|].
    destruct (stepId =? 3)%Z; [reflexivity|]. destruct (stepId =? 4)%Z; [reflexivity|].
    destruct (stepId =? 5)%Z; [reflexivity|]. discriminate.
Qed.

Lemma fire_shownStep e s s' :
  fire e s = Some s' -> shownStep (ui s) = true -> shownStep (ui s') = true.
Proof.
  intros F I. destruct e; cbn [fire] in F.
  all: try (destruct (answered _ (outstanding s)); [|discriminate];
            injection F as <-; cbn [after ui fst]).
  - destruct (offered (ui s) a) eqn:O; [|discriminate].
    injection F as <-. now apply handle_shownStep.
  - destruct (pollingActive (ui s)); [|discriminate]. now injection F as <-.
  - destruct (pollingActive (ui s)); [|discriminate]. injection F as <-.
    cbn [after ui fst]. unfold stuckCheck.
    destruct (pollingActive (ui s)); auto.
    destruct (_ && _); auto.
  - injection F as <-. cbn [after ui]. unfold analysisEffect.
    destruct (selectedRepo (ui s)); auto.
    destruct (_ && _); auto.
  - injection F as <-. cbn [after ui]. unfold filesEffect.
    destruct (selectedRepo (ui s)); auto.
    destruct (_ =? _)%Z; auto.
  - injection F as <-. cbn [after ui fst]. unfold autofillEffect.
    destruct (selectedRepo (ui s)); auto.
    destruct (negb _); auto.
  - exact I.
  - exact I.
  - destruct p as [analysis | message]; cbn [analysisSettled]; [|exact I].
    destruct (java_version analysis) as [v|];
      [destruct (truthy v && negb (JS.eqb v (u "unknown")))|];
      destruct (has_tests analysis && negb (isNull (build_tool analysis)));
      try destruct (negb (isNull (build_tool analysis))); exact I.
  - destruct p; exact I.
  - destruct (startMigration response); [reflexivity | exact I].
  - destruct (getMigrationStatus response) as [job | message];
      cbn [statusSettled fst]; [|exact I].
    destruct (statusIs job "completed"); [reflexivity | exact I].
  - destruct (getMigrationLogs response); exact I.
Qed.

(** X1.  Whatever happens after mount, the wizard is on one of the steps 1 to
    5, 9 or 11: no handler sets step 10, so the progress view, with its
    "Cancel Migration", "Try Again" and "View Migration Report" buttons,
    never comes on the screen. *)
Lemma progress_view_never_shown tok events s :
  run events (mounted tok) = Some s ->
  shownStep (ui s) = true
  /\ step (ui s) <> 10%Z
  /\ offered (ui s) ClickCancelMigration = false
  /\ offered (ui s) ClickTryAgain = false
  /\ offered (ui s) ClickViewReport = false.
Proof.
  intro R.
  assert (I : shownStep (ui s) = true).
  { assert (G : forall events s0, shownStep (ui s0) = true ->
                  run events s0 = Some s -> shownStep (ui s) = true).
    { clear. induction events as [|e events IH]; intros s0 I R; simpl in R.
      - now injection R as <-.
      - destruct (fire e s0) as [s1|] eqn:F; [|discriminate].
        eapply IH; [|exact R]. eapply fire_shownStep; eauto. }
    apply (G events (mounted tok)); auto. }
  assert (N : (step (ui s) =? 10)%Z = false).
  { unfold shownStep in I. cbn [existsb] in I.
    destruct (step (ui s) =? 10)%Z eqn:E; auto.
    apply Z.eqb_eq in E. rewrite E in I. discriminate. }
  split; [exact I|]. split; [now apply Z.eqb_neq|].
  cbn [offered]. now rewrite N.
Qed.

(** ** What holds along every run *)

Ltac fields :=
  cbn [fst snd step repoUrl repos selectedRepo githubToken repoAnalysis
       repoFiles currentPath targetRepoName sourceVersions targetVersions
       selectedSourceVersion selectedTargetVersion conversionTypes
       selectedConversions runTests runSonar fixBusinessLogic loading
       migrationJob migrationLogs error migrationApproach riskLevel
       selectedFrameworks
       setStep setRepoUrl setRepos setSelectedRepo setGithubToken
       setRepoAnalysis setRepoFiles setCurrentPath setTargetRepoName
       setSourceVersions setTargetVersions setSelectedSourceVersion
       setSelectedTargetVersion setConversionTypes setSelectedConversions
       setRunTests setRunSonar setFixBusinessLogic setLoading setMigrationJob
       setMigrationLogs setError setMigrationApproach setRiskLevel
       setSelectedFrameworks resetWizard] in *.

(** Case analysis on the tests a handler makes. *)
Ltac tests :=
  repeat match goal with
         | |- context [match ?c with _ => _ end] =>
             lazymatch c with
             | context [match _ with _ => _ end] => fail
             | _ => destruct c eqn:?
             end
         end.

Lemma run_induction (P : Sys -> Prop) tok :
  P (mounted tok) ->
  (forall e s s', fire e s = Some s' -> P s -> P s') ->
  forall events s, run events (mounted tok) = Some s -> P s.
Proof.
  intros P0 Pstep events.
  assert (G : forall s0, P s0 -> forall s, run events s0 = Some s -> P s).
  { induction events as [|e events IH]; intros s0 I s R; simpl in R.
    - now injection R as <-.
    - destruct (fire e s0) as [s1|] eqn:F; [|discriminate]. eauto. }
  intros s R. eapply G; eauto.
Qed.

Lemma fire_ui e s s' : fire e s = Some s' -> ui_step (ui s) (ui s').
Proof.
  intro F. destruct e; cbn [fire] in F.
  all: try (destruct (answered _ (outstanding s)); [|discriminate];
            injection F as <-; cbn [after ui fst]; constructor).
  - destruct (offered (ui s) a) eqn:O; [|discriminate].
    injection F as <-. now constructor.
  - destruct (pollingActive (ui s)); [|discriminate]. injection F as <-.
    constructor.
  - destruct (pollingActive (ui s)); [|discriminate]. injection F as <-.
    cbn [after ui fst]. constructor.
  - injection F as <-. constructor.
  - injection F as <-. constructor.
  - injection F as <-. constructor.
Qed.

(** A property of the screen that every step keeps holds along every
    run. *)
Lemma run_ui_invariant (I : State -> Prop) tok :
  I (initialState tok) ->
  (forall st st', ui_step st st' -> I st -> I st') ->
  forall events s, run events (mounted tok) = Some s -> I (ui s).
Proof.
  intros I0 Istep. apply (run_induction (fun s => I (ui s))); auto.
  intros e s s' F. apply Istep. eapply fire_ui; eauto.
Qed.

Lemma indicator_step stepId :
  existsb (Z.eqb stepId) [1; 2; 3; 4; 5]%Z = true -> (1 <= stepId <= 5)%Z.
Proof.
  cbn [existsb]. rewrite !orb_true_iff, !Z.eqb_eq. intuition (try lia; try discriminate).
Qed.

Lemma jobShown_step st st' :
  ui_step st st' -> jobShown st = true -> jobShown st' = true.
Proof.
  unfold jobShown.
  intros U I. destruct U; auto.
  - destruct a; cbn [handle offered] in *; unfold handleStartMigration;
      tests; fields; auto; try congruence.
    + apply andb_true_iff in H as [H _]. apply andb_true_iff in H as [_ H].
      now rewrite H, orb_true_r.
    + apply andb_true_iff in H as [H _]. apply indicator_step in H.
      replace (stepId <? 9)%Z with true; auto. symmetry. apply Z.ltb_lt. lia.
  - unfold stuckCheck. tests; fields; auto; congruence.
  - unfold analysisEffect. tests; fields; auto; congruence.
  - unfold filesEffect. tests; fields; auto; congruence.
  - unfold autofillEffect. tests; fields; auto; congruence.
  - destruct p; cbn [analysisSettled]; tests; fields; auto; congruence.
  - destruct p; cbn [filesSettled]; fields; auto.
  - destruct p; cbn [startMigrationSettled]; fields; auto.
  - destruct p; cbn [statusSettled]; tests; fields; auto;
      now rewrite orb_true_r.
  - destruct p; cbn [logsSettled]; fields; auto.
Qed.

Lemma run_shownStep tok events s :
  run events (mounted tok) = Some s -> shownStep (ui s) = true.
Proof.
  apply (run_induction (fun s => shownStep (ui s) = true)); auto.
  intros e s0 s' F. now apply fire_shownStep with (e := e).
Qed.

(** X2.  Job and step.  In the runs of this model every ok answer to a
    start or status request carries a job snapshot, as the declared
    type of the service function says.  Along every such run, whenever
    the wizard is at step 9 or later it is at step 9 or 11 and a job is
    displayed; so on the report view each of the three download buttons
    opens the URL of that job.  The proviso is needed, for the client
    does not test the body: when [startMigration] resolves to [null]
    the callbacks leave the wizard at step 9 with no job and no polling,
    and when [getMigrationStatus] does, the displayed job is dropped
    where the wizard stands. *)
Theorem job_shown_from_step_9 :
  (forall tok events s,
     run events (mounted tok) = Some s ->
     (step (ui s) <? 9)%Z = false ->
     exists job,
       migrationJob (ui s) = Some job
       /\ (step (ui s) = 9%Z \/ step (ui s) = 11%Z)
       /\ (step (ui s) = 11%Z ->
           forall a, dispatch (ClickDownload a) (ui s)
                     = (ui s, [OpenUrl (artifactUrl a (job_id job))])))
  /\ (forall st,
        step (startMigrationSettledNull st) = 9%Z
        /\ migrationJob (startMigrationSettledNull st) = None
        /\ pollingActive (startMigrationSettledNull st) = false)
  /\ (forall st,
        step (statusSettledNull st) = step st
        /\ migrationJob (statusSettledNull st) = None
        /\ pollingActive (statusSettledNull st) = false).
Proof.
  split; [|split; intro st; repeat split; try reflexivity;
            unfold pollingActive; cbn [migrationJob statusSettledNull
              setMigrationJob setError]; apply andb_false_r].
  intros tok events s R S.
  pose proof (run_ui_invariant (fun st => jobShown st = true) tok eq_refl
                jobShown_step events s R) as J.
  cbn beta in J. unfold jobShown in J. rewrite S in J. cbn [orb] in J.
  destruct (migrationJob (ui s)) as [job|] eqn:E; [|discriminate].
  exists job. split; [reflexivity|].
  pose proof (run_shownStep tok events s R) as Sh.
  unfold shownStep in Sh. cbn [existsb] in Sh.
  apply Z.ltb_ge in S.
  assert (St : step (ui s) = 9%Z \/ step (ui s) = 11%Z).
  { rewrite !orb_true_iff, !Z.eqb_eq in Sh. intuition (try lia; discriminate). }
  split; [exact St|].
  intros S11 a. unfold dispatch. cbn [offered handle].
  rewrite S11, E. reflexivity.
Qed.

(** ** Cancelling *)

(** C5, as stated, fails.  In the run in which a migration was started
    and the registry reports the job as cloning, the wizard shows the
    animation: "Cancel Migration" is not on the screen, pressing it is
    not possible, and no control that is there sends any request, so
    nothing the user does signals a cancellation to the registry; the
    job goes on being polled. *)
Lemma running_job_cannot_be_cancelled :
  exists s s',
    run (Sample.toModernize ++
         [ User ClickStartMigration; StartAnswer (Sample.answer "j" "cloning" 5) ])
        (mounted (u "t")) = Some s
    /\ step (ui s) = 9%Z
    /\ option_map status (migrationJob (ui s)) = Some (u "cloning")
    /\ offered (ui s) ClickCancelMigration = false
    /\ dispatch ClickCancelMigration (ui s) = (ui s, [])
    /\ (forall a, snd (dispatch a (ui s)) = [])
    /\ fire PollTimer s = Some s'
    /\ outstanding s' = outstanding s ++ [GetMigrationStatus (u "j")].
Proof.
  eexists. eexists. split; [vm_compute; reflexivity|].
  split; [reflexivity|]. split; [reflexivity|]. split; [reflexivity|].
  split; [reflexivity|]. split; [|split; vm_compute; reflexivity].
  intro a. unfold dispatch.
  match goal with |- snd (if ?b then _ else _) = _ => destruct b eqn:O end;
    [|reflexivity].
  destruct a; cbn [handle snd]; try reflexivity;
    vm_compute in O; discriminate O.
Qed.

(** C5, amended.  The client never signals a cancellation: along every
    run from mount the wizard is not on step 10, the only step whose
    view has the "Cancel Migration" button, so the button is never
    offered and pressing it is not possible.  Its handler, as it is
    written, sends no request: it clears the banner and resets the
    wizard, which drops the job and ends the polling.  The button would
    be offered only while the status is cloning, analyzing or migrating;
    never for a job that is completed, failed or cancelled, nor right
    after a cancel, and an action that is not offered does nothing. *)
Theorem cancel_is_local (st : State) :
  (forall tok events s,
     run events (mounted tok) = Some s ->
     step (ui s) <> 10%Z
     /\ offered (ui s) ClickCancelMigration = false
     /\ dispatch ClickCancelMigration (ui s) = (ui s, []))
  /\ dispatch ClickCancelMigration st =
       (if offered st ClickCancelMigration then (resetWizard st, []) else (st, []))
  /\ migrationJob (resetWizard st) = None
  /\ pollingActive (resetWizard st) = false
  /\ offered st ClickCancelMigration =
       (step st =? 10)%Z
       && jobStatusIn st ["cloning"; "analyzing"; "migrating"]%string
  /\ jobStatusIn st ["completed"; "failed"; "cancelled"]%string
     && offered st ClickCancelMigration = false
  /\ offered (resetWizard st) ClickCancelMigration = false.
Proof.
  split.
  { intros tok events s R. pose proof (run_shownStep tok events s R) as Sh.
    assert (N : (step (ui s) =? 10)%Z = false).
    { unfold shownStep in Sh. cbn [existsb] in Sh.
      destruct (step (ui s) =? 10)%Z eqn:E; auto.
      apply Z.eqb_eq in E. rewrite E in Sh. discriminate. }
    split; [now apply Z.eqb_neq|].
    assert (O : offered (ui s) ClickCancelMigration = false)
      by (cbn [offered]; now rewrite N).
    split; [exact O|]. unfold dispatch. now rewrite O. }
  split.
  { unfold dispatch. destruct (offered st ClickCancelMigration);
      [vm_compute|]; reflexivity. }
  split; [vm_compute; reflexivity|]. split; [vm_compute; reflexivity|].
  split; [reflexivity|]. split; [|vm_compute; reflexivity].
  cbn [offered]. unfold jobStatusIn.
  destruct (migrationJob st) as [job|]; [|reflexivity].
  cbn [existsb].
  destruct (step st =? 10)%Z; [|now rewrite andb_false_r]. cbn [andb].
  destruct (statusIs job "cloning") eqn:E1;
    [apply statusIs_true in E1; unfold statusIs; rewrite E1; reflexivity|].
  destruct (statusIs job "analyzing") eqn:E2;
    [apply statusIs_true in E2; unfold statusIs; rewrite E2; reflexivity|].
  destruct (statusIs job "migrating") eqn:E3;
    [apply statusIs_true in E3; unfold statusIs; rewrite E3; reflexivity|].
  now rewrite andb_false_r.
Qed.

Lemma truthy_app_r a b : truthy b = true -> truthy (a ++ b) = true.
Proof. destruct a; auto. Qed.

Lemma continue_repo st :
  valid (urlValidation st) = true ->
  accepted (normalizedUrl (urlValidation st)) = true
  /\ truthy (normalizedUrl (urlValidation st)) = true.
Proof.
  unfold urlValidation. destruct (truthy (repoUrl st)); [|discriminate].
  intro V. destruct (UrlFacts.normalized_shape _ V) as (A & _ & T & _).
  split; assumption.
Qed.

Ltac kept :=
  try match goal with E : selectedRepo _ = _ |- _ => rewrite E in * end;
  do 3 (split; [auto|]);
  first [ assumption
        | let E := fresh "E" in
          intros ? E;
          first [ discriminate
                | injection E as <-;
                  match goal with
                  | R : forall r, _ = Some r -> _ |- _ => now apply R
                  end ] ].

Lemma screenOk_step tok st st' :
  ui_step st st' -> screenOk tok st -> screenOk tok st'.
Proof.
  unfold screenOk, sourceVersionKnown.
  intros U (T & C & V & R). destruct U; auto.
  - destruct a; cbn [handle offered] in *; unfold handleStartMigration;
      tests; fields; try kept.
    (* Continue: the repository selected is the normalised URL *)
    do 3 (split; [assumption|]). intros r0 E. injection E as <-.
      cbn [url name].
      apply andb_true_iff in Heqb as [_ Hv].
      destruct (continue_repo st Hv) as [A N].
      repeat split; auto. now apply or_else_truthy.
  - unfold stuckCheck. tests; fields; kept.
  - unfold analysisEffect. tests; fields; kept.
  - unfold filesEffect. tests; fields; kept.
  - unfold autofillEffect. tests; fields; kept.
  - destruct p; cbn [analysisSettled]; tests; fields;
      kept.
  - destruct p; cbn [filesSettled]; fields; kept.
  - destruct p; cbn [startMigrationSettled]; fields;
      kept.
  - destruct p; cbn [statusSettled]; tests; fields;
      kept.
  - destruct p; cbn [logsSettled]; fields; kept.
Qed.

Lemma answered_In p l l' c : answered p l = Some l' -> In c l' -> In c l.
Proof.
  revert l'. induction l as [|x l IH]; intros l' A H; simpl in A.
  - discriminate.
  - destruct (p x).
    + injection A as <-. now right.
    + destruct (answered p l) as [l0|]; [|discriminate].
      injection A as <-. destruct H as [-> | H]; [now left | right; eauto].
Qed.

Lemma detectPlatform_cases url :
  detectPlatform url = u "github" \/ detectPlatform url = u "gitlab".
Proof. unfold detectPlatform. tests; auto. Qed.

(** The request the wizard builds is well formed as soon as it has a
    repository URL to put in it. *)
Lemma migrationRequest_wellFormed tok st :
  screenOk tok st ->
  isNull (selectedRepo st) && negb (truthy (repoUrl st)) = false ->
  wellFormed tok (migrationRequest st).
Proof.
  intros (T & C & V & R) G. unfold wellFormed, migrationRequest.
  cbn [token source_repo_url target_repo_name platform
       req_source_java_version req_conversion_types].
  unfold sourceVersionKnown in V. apply andb_true_iff in V as [V1 V2].
  split; [exact T|]. split.
  - destruct (selectedRepo st) as [r|] eqn:E; cbn [repoUrlOf].
    + destruct (R r eq_refl) as (_ & U & _). unfold or_else. now rewrite U.
    + cbn [isNull andb] in G. apply negb_false_iff in G.
      unfold or_else. cbn [truthy]. exact G.
  - split.
    + unfold or_else at 1. destruct (truthy (targetRepoName st)) eqn:N; auto.
      now apply truthy_app_r.
    + split; [apply detectPlatform_cases|]. split; [exact V1|]. split; auto.
      intro U. rewrite U in V2. discriminate.
Qed.

Lemma handle_calls tok st a c :
  screenOk tok st -> offered st a = true ->
  In c (calls (snd (handle a st))) -> wizardCall tok c.
Proof.
  intros S O. destruct a; cbn [handle]; try (intros []).
  all: tests; cbn [snd calls flat_map app In]; try tauto.
  unfold handleStartMigration.
  destruct (isNull (selectedRepo st) && negb (truthy (repoUrl st))) eqn:G;
    cbn [snd calls flat_map app In]; [tauto|].
  intros [<- | []]. cbn [wizardCall]. now apply migrationRequest_wellFormed.
Qed.

Lemma fire_runOk tok e s s' : fire e s = Some s' -> runOk tok s -> runOk tok s'.
Proof.
  intros F [S Q]. split.
  { eapply screenOk_step; [eapply fire_ui|]; eauto. }
  intros c H. destruct e; cbn [fire] in F.
  all: try (destruct (answered _ (outstanding s)) as [rest|] eqn:A;
            [|discriminate];
            injection F as <-; cbn [after ui outstanding fst snd calls
                                     flat_map] in H;
            try rewrite app_nil_r in H;
            try (apply Q; eapply answered_In; eassumption)).
  - destruct (offered (ui s) a) eqn:O; [|discriminate]. injection F as <-.
    cbn [after outstanding] in H. apply in_app_or in H as [H | H]; auto.
    eapply handle_calls; eauto.
  - destruct (pollingActive (ui s)) eqn:P; [|discriminate]. injection F as <-.
    cbn [after outstanding snd] in H. apply in_app_or in H as [H | H]; auto.
    unfold pollTick in H. rewrite P in H.
    destruct (migrationJob (ui s)); cbn in H; [|tauto].
    destruct H as [<- | []]. exact I.
  - destruct (pollingActive (ui s)); [|discriminate]. injection F as <-.
    cbn [after outstanding snd calls flat_map] in H.
    rewrite app_nil_r in H. auto.
  - injection F as <-. cbn [after outstanding] in H.
    apply in_app_or in H as [H | H]; auto.
    unfold analysisEffect in H. destruct S as (T & _ & _ & R).
    destruct (selectedRepo (ui s)) as [r|] eqn:E; [|destruct H].
    destruct (_ && _); cbn in H; [|tauto]. destruct H as [<- | []].
    cbn [wizardCall]. destruct (R r eq_refl) as (A & _). auto.
  - injection F as <-. cbn [after outstanding] in H.
    apply in_app_or in H as [H | H]; auto.
    unfold filesEffect in H. destruct S as (T & _ & _ & R).
    destruct (selectedRepo (ui s)) as [r|] eqn:E; [|destruct H].
    destruct (_ =? _)%Z; cbn in H; [|tauto]. destruct H as [<- | []].
    cbn [wizardCall]. destruct (R r eq_refl) as (A & _). auto.
  - injection F as <-. cbn [after outstanding snd calls flat_map] in H.
    rewrite app_nil_r in H. auto.
  - (* a status answer may ask for the logs *)
    apply in_app_or in H as [H | H].
    + apply Q. eapply answered_In; eassumption.
    + destruct (getMigrationStatus response) as [job | message];
        cbn [statusSettled snd] in H; [|destruct H].
      destruct (statusIs job "completed"), (statusIs job "failed");
        cbn in H; intuition (subst; exact I).
Qed.

Lemma run_runOk tok events s :
  run events (mounted tok) = Some s -> runOk tok s.
Proof.
  apply (run_induction (runOk tok)).
  - split.
    + do 3 (split; [reflexivity|]). intros r H. discriminate H.
    + intros c [<- | [<- | []]]; exact I.
  - intros e s0 s'. apply fire_runOk.
Qed.

(** ** What the wizard asks of the service *)

(** X3. Whatever the user does and in whatever order the answers
    arrive, a request of the wizard that is on its way is one of seven
    of the fifteen functions of the service module (the two catalogues,
    [analyzeRepoUrl], [listRepoFiles], [startMigration],
    [getMigrationStatus], [getMigrationLogs]), and where it carries a
    token it is the token the wizard was mounted with: no control
    changes it. *)
Theorem wizard_requests tok events s c :
  run events (mounted tok) = Some s ->
  In c (outstanding s) ->
  match c with
  | GetJavaVersions | GetConversionTypes
  | GetMigrationStatus _ | GetMigrationLogs _ => True
  | AnalyzeRepoUrl _ t | ListRepoFiles _ t _ => t = tok
  | StartMigration request => token request = tok
  | FetchRepositories _ | AnalyzeRepository _ _ _ | GetFileContent _ _ _
  | DownloadMigratedProject _ | DownloadMigrationReport _
  | ListMigrations | GetRecipes | HealthCheck => False
  end.
Proof.
  intros R H. destruct (run_runOk _ _ _ R) as [_ Q]. specialize (Q c H).
  destruct c; cbn [wizardCall] in Q; try exact Q; try exact I.
  - apply Q.
  - apply Q.
  - apply Q.
Qed.

(** The theorem after "Start Migration" on the sample run: the start
    request is on its way, with the token of mount. *)
Lemma wizard_requests_witness :
  run startedRun (mounted (u "t")) = Some started
  /\ In (StartMigration (migrationRequest (ui started))) (outstanding started)
  /\ token (migrationRequest (ui started)) = u "t".
Proof.
  assert (R : run startedRun (mounted (u "t")) = Some started)
    by (vm_compute; reflexivity).
  assert (H : In (StartMigration (migrationRequest (ui started)))
                 (outstanding started))
    by (vm_compute; auto).
  split; [exact R|]. split; [exact H|].
  exact (wizard_requests (u "t") startedRun started _ R H).
Defined.

(** X4. Every start request the wizard sends names a repository and a
    target repository (neither string is empty), has platform "github"
    or "gitlab", a source version that is neither empty nor "unknown",
    and at most one conversion type. *)
Theorem start_request_well_formed tok events s request :
  run events (mounted tok) = Some s ->
  In (StartMigration request) (outstanding s) ->
  truthy (source_repo_url request) = true
  /\ truthy (target_repo_name request) = true
  /\ (platform request = u "github" \/ platform request = u "gitlab")
  /\ truthy (req_source_java_version request) = true
  /\ req_source_java_version request <> u "unknown"
  /\ (List.length (req_conversion_types request) <= 1)%nat.
Proof.
  intros R H. destruct (run_runOk _ _ _ R) as [_ Q].
  destruct (Q _ H) as (_ & A & B & C & D & E & F).
  repeat (split; [assumption|]).
  unfold oneConversion in F. now apply Nat.leb_le.
Qed.

(** The theorem at the start request of the sample run. *)
Lemma start_request_well_formed_witness :
  run startedRun (mounted (u "t")) = Some started
  /\ In (StartMigration (migrationRequest (ui started))) (outstanding started)
  /\ truthy (target_repo_name (migrationRequest (ui started))) = true
  /\ (List.length (req_conversion_types (migrationRequest (ui started))) <= 1)%nat.
Proof.
  assert (R : run startedRun (mounted (u "t")) = Some started)
    by (vm_compute; reflexivity).
  assert (H : In (StartMigration (migrationRequest (ui started)))
                 (outstanding started))
    by (vm_compute; auto).
  split; [exact R|]. split; [exact H|].
  destruct (start_request_well_formed (u "t") startedRun started _ R H)
    as (_ & B & _ & _ & _ & F).
  split; [exact B | exact F].
Defined.

(** X5. The analysis and the file listing are only ever asked for a
    URL that passed the validation of step 1: one of the form
    [http(s)://(www.)github.com/owner/repo] or [owner/repo]. *)
Theorem analysed_url_accepted tok events s c repoUrl :
  run events (mounted tok) = Some s ->
  In c (outstanding s) ->
  (exists t, c = AnalyzeRepoUrl repoUrl t)
  \/ (exists t dirPath, c = ListRepoFiles repoUrl t dirPath) ->
  accepts re_github repoUrl || accepts re_short repoUrl = true.
Proof.
  intros R H K. destruct (run_runOk _ _ _ R) as [_ Q]. specialize (Q c H).
  destruct K as [[t ->] | (t & p & ->)]; apply Q.
Qed.

(** The theorem on the sample run, stopped where the analysis has been
    asked for. *)
Lemma analysed_url_accepted_witness :
  let events := [User (ChangeRepoUrl (u "o/r")); User ClickContinue;
                 AnalysisEffect] in
  let s := match run events (mounted (u "t")) with
           | Some s => s
           | None => mounted (u "t")
           end in
  run events (mounted (u "t")) = Some s
  /\ In (AnalyzeRepoUrl (u "o/r") (u "t")) (outstanding s)
  /\ accepts re_github (u "o/r") || accepts re_short (u "o/r") = true.
Proof.
  intros events s.
  assert (R : run events (mounted (u "t")) = Some s)
    by (vm_compute; reflexivity).
  assert (H : In (AnalyzeRepoUrl (u "o/r") (u "t")) (outstanding s))
    by (vm_compute; auto).
  split; [exact R|]. split; [exact H|].
  apply (analysed_url_accepted (u "t") events s _ (u "o/r") R H).
  left. exists (u "t"). reflexivity.
Defined.

(** The lemma on the sample run, after the start was answered with a
    job that is cloning. *)
Lemma progress_view_never_shown_witness :
  let events := startedRun ++ [StartAnswer (Sample.answer "j" "cloning" 5)] in
  let s := match run events (mounted (u "t")) with
           | Some s => s
           | None => mounted (u "t")
           end in
  run events (mounted (u "t")) = Some s
  /\ step (ui s) = 9%Z
  /\ offered (ui s) ClickCancelMigration = false.
Proof.
  intros events s.
  assert (R : run events (mounted (u "t")) = Some s)
    by (vm_compute; reflexivity).
  split; [exact R|]. split; [vm_compute; reflexivity|].
  exact (proj1 (proj2 (proj2 (progress_view_never_shown (u "t") events s R)))).
Defined.

(** The theorem on the sample run, after the start was answered with a
    job that is cloning. *)
Lemma job_shown_from_step_9_witness :
  let events := startedRun ++ [StartAnswer (Sample.answer "j" "cloning" 5)] in
  let s := match run events (mounted (u "t")) with
           | Some s => s
           | None => mounted (u "t")
           end in
  run events (mounted (u "t")) = Some s
  /\ (step (ui s) <? 9)%Z = false
  /\ exists job, migrationJob (ui s) = Some job
                 /\ (step (ui s) = 9%Z \/ step (ui s) = 11%Z).
Proof.
  intros events s.
  assert (R : run events (mounted (u "t")) = Some s)
    by (vm_compute; reflexivity).
  assert (S : (step (ui s) <? 9)%Z = false) by (vm_compute; reflexivity).
  split; [exact R|]. split; [exact S|].
  destruct (proj1 job_shown_from_step_9 (u "t") events s R S)
    as (job & J & St & _).
  exists job. split; [exact J | exact St].
Defined.

(** ** The handlers, one at a time *)

(** X6.  A status request that fails, whether the response is not ok or
    its body is not JSON, changes nothing but the banner, which gets the
    fixed text "Failed to fetch migration status." whatever the server
    said: the job, the step and the polling stay as they were, so the
    next tick asks again. *)
Theorem failed_poll_keeps_polling (response : Response MigrationResult) st :
  (forall job, response <> ResponseOk (Json job)) ->
  statusSettled (getMigrationStatus response) st
    = (st |> setError (u "Failed to fetch migration status."), [])
  /\ pollingActive (fst (statusSettled (getMigrationStatus response) st))
     = pollingActive st
  /\ pollTick (fst (statusSettled (getMigrationStatus response) st))
     = pollTick st.
Proof.
  intro N.
  assert (E : exists message, getMigrationStatus response = Rejected message).
  { destruct response as [[e | job] | [e | [|d]]]; cbn; eauto.
    now destruct (N job). }
  destruct E as [message ->]. cbn [statusSettled fst].
  split; [reflexivity|]. split; reflexivity.
Qed.

(** The theorem at a 500 answer with a detail, while job "j" is
    migrating. *)
Lemma failed_poll_keeps_polling_witness :
  let response :=
    ResponseNotOk (Json (JsonValue (Some (DetailString (u "boom"))))) in
  let st := Sample.showing 9 (Sample.snapshot "j" "migrating" 50) in
  error (fst (statusSettled (getMigrationStatus response) st))
    = u "Failed to fetch migration status."
  /\ pollTick (fst (statusSettled (getMigrationStatus response) st))
     = [Call (GetMigrationStatus (u "j"))].
Proof.
  intros response st.
  assert (N : forall job, response <> ResponseOk (Json job))
    by (intros job; discriminate).
  destruct (failed_poll_keeps_polling response st N) as (A & _ & C).
  split.
  - rewrite A. reflexivity.
  - rewrite C. vm_compute. reflexivity.
Defined.

(** X7.  "Start Migration", where it is offered, does one of two
    things.  With neither a repository selected nor a URL typed it
    sends nothing and shows "Please select a repository or enter a
    repository URL".  Otherwise it sends exactly one start request,
    clears the banner and is disabled from then on, so a second press
    sends nothing until some answer ends the loading. *)
Theorem start_button_once st :
  offered st ClickStartMigration = true ->
  (isNull (selectedRepo st) && negb (truthy (repoUrl st)) = true
   /\ dispatch ClickStartMigration st
      = (st |> setError (u "Please select a repository or enter a repository URL"),
         []))
  \/ (isNull (selectedRepo st) && negb (truthy (repoUrl st)) = false
      /\ snd (dispatch ClickStartMigration st)
         = [Call (StartMigration (migrationRequest st))]
      /\ error (fst (dispatch ClickStartMigration st)) = []
      /\ loading (fst (dispatch ClickStartMigration st)) = true
      /\ dispatch ClickStartMigration (fst (dispatch ClickStartMigration st))
         = (fst (dispatch ClickStartMigration st), [])).
Proof.
  intro O.
  assert (D : dispatch ClickStartMigration st = handleStartMigration st)
    by (unfold dispatch; now rewrite O).
  rewrite !D. unfold handleStartMigration.
  destruct (isNull (selectedRepo st) && negb (truthy (repoUrl st))) eqn:G.
  - left. auto.
  - right. split; [reflexivity|]. cbn [fst snd].
    split; [reflexivity|]. split; [reflexivity|]. split; [reflexivity|].
    unfold dispatch. cbn [offered]. fields.
    now rewrite andb_false_r.
Qed.

(** The theorem on the Modernize step with "o/r" typed in. *)
Lemma start_button_once_witness :
  snd (dispatch ClickStartMigration Sample.ready)
    = [Call (StartMigration (migrationRequest Sample.ready))]
  /\ snd (dispatch ClickStartMigration
            (fst (dispatch ClickStartMigration Sample.ready))) = [].
Proof.
  assert (O : offered Sample.ready ClickStartMigration = true)
    by (vm_compute; reflexivity).
  destruct (start_button_once Sample.ready O) as [[G _] | (_ & A & _ & _ & D)].
  - vm_compute in G. discriminate G.
  - split; [exact A|]. rewrite D. reflexivity.
Defined.



(** X9.  The effect that proposes a target repository name never
    overwrites a name that is there, gives a non-empty name whenever a
    repository is selected, and running it once more changes nothing. *)
Theorem autofill_keeps_typed_name st :
  (truthy (targetRepoName st) = true -> autofillEffect st = st)
  /\ (forall r, selectedRepo st = Some r ->
        truthy (targetRepoName (autofillEffect st)) = true)
  /\ autofillEffect (autofillEffect st) = autofillEffect st.
Proof.
  unfold autofillEffect. split; [|split].
  - intro T. rewrite T. now destruct (selectedRepo st).
  - intros r ->. destruct (truthy (targetRepoName st)) eqn:T; cbn [negb]; auto.
    fields. now apply truthy_app_r.
  - destruct (selectedRepo st) as [r|] eqn:E; [|now rewrite E].
    destruct (truthy (targetRepoName st)) eqn:T; cbn [negb].
    + now rewrite E, T.
    + fields. rewrite E. now rewrite truthy_app_r.
Qed.

(** The theorem with a name typed in, and with none. *)
Lemma autofill_keeps_typed_name_witness :
  let r := {| name := u "r"; full_name := u "o/r"; url := u "o/r";
              default_branch := u "main"; language := None;
              description := Some [] |} in
  let typed := Sample.ready |> setSelectedRepo (Some r)
                            |> setTargetRepoName (u "mine") in
  let blank := Sample.ready |> setSelectedRepo (Some r) in
  autofillEffect typed = typed
  /\ truthy (targetRepoName (autofillEffect blank)) = true.
Proof.
  intros r typed blank. split.
  - apply (proj1 (autofill_keeps_typed_name typed)). reflexivity.
  - apply (proj1 (proj2 (autofill_keeps_typed_name blank)) r). reflexivity.
Defined.

(** X10.  When the source version does not start with a number (the
    analysis may report any text but "unknown"), [parseInt] gives [NaN],
    every comparison fails and the target version list is empty: no
    target version can be chosen, and the one stored stays. *)
Theorem no_target_without_numeric_source st :
  parseInt (selectedSourceVersion st) = None ->
  offeredTargetVersions st = []
  /\ forall v, dispatch (ChangeTargetVersion v) st = (st, []).
Proof.
  intro P.
  assert (E : offeredTargetVersions st = []).
  { unfold offeredTargetVersions. rewrite P.
    induction (targetVersions st) as [|o l IH]; auto.
    cbn [filter]. now destruct (parseInt (value o)). }
  split; [exact E|]. intro v. unfold dispatch. cbn [offered]. rewrite E.
  cbn [existsb]. now rewrite andb_false_r.
Qed.

(** The theorem where the analysis reported "Java 8". *)
Lemma no_target_without_numeric_source_witness :
  let st := Sample.ready
              |> setSelectedSourceVersion (u "Java 8")
              |> setTargetVersions [ {| value := u "17"; label := u "Java 17" |} ]
              |> setStep 4 in
  parseInt (selectedSourceVersion st) = None
  /\ offeredTargetVersions st = [].
Proof.
  intro st.
  assert (P : parseInt (selectedSourceVersion st) = None)
    by (vm_compute; reflexivity).
  split; [exact P|].
  exact (proj1 (no_target_without_numeric_source st P)).
Defined.

(** ** More on the strings *)

Lemma trimStart_blank s : trimStart s = [] <-> forallb is_space s = true.
Proof.
  induction s as [|c s IH]; cbn [trimStart forallb].
  - tauto.
  - destruct (is_space c); cbn [andb]; [exact IH|]. split; discriminate.
Qed.

(** [trim] leaves nothing exactly of the strings made of white space. *)
Lemma trim_blank s : trim s = [] <-> forallb is_space s = true.
Proof.
  rewrite <- trimStart_blank. unfold trim, trimEnd. split.
  - intro E. destruct (trimStart s) as [|c t] eqn:T; auto.
    apply (f_equal (@rev N)) in E. rewrite rev_involutive in E. cbn [rev] in E.
    apply trimStart_blank in E. rewrite forallb_forall in E.
    pose proof (StringFacts.trimStart_head s c t T) as Hc.
    rewrite (E c) in Hc; [discriminate|]. apply in_or_app. right. now left.
  - intros ->. reflexivity.
Qed.

Lemma forallb_skipn (p : N -> bool) n s :
  forallb p s = true -> forallb p (skipn n s) = true.
Proof.
  revert s. induction n as [|n IH]; intros [|c s] H; auto.
  cbn [skipn]. apply IH. cbn [forallb] in H. now apply andb_true_iff in H.
Qed.

Lemma remove_first_forallb (p : N -> bool) pat s :
  forallb p s = true -> forallb p (remove_first pat s) = true.
Proof.
  induction s as [|c s IH]; intro H.
  - cbn [remove_first]. destruct (startsWith pat []); auto.
    now apply forallb_skipn.
  - cbn [remove_first]. destruct (startsWith pat (c :: s)).
    + now apply forallb_skipn.
    + cbn [forallb] in *. apply andb_true_iff in H as [Hc Hs].
      now rewrite Hc, IH.
Qed.

(** Without an occurrence of the pattern, [replace] returns the string. *)
Lemma remove_first_absent pat s :
  includes pat s = false -> remove_first pat s = s.
Proof.
  induction s as [|c s IH]; cbn [includes remove_first]; intro H.
  - apply orb_false_iff in H as [-> _]. reflexivity.
  - apply orb_false_iff in H as [-> H]. now rewrite IH.
Qed.

Lemma split_pop_from_no_slash cur s :
  forallb (fun c => negb (N.eqb c 47)) cur = true ->
  forallb (fun c => negb (N.eqb c 47)) (split_pop_from cur s) = true.
Proof.
  revert cur. induction s as [|c s IH]; intros cur H; cbn [split_pop_from].
  - rewrite forallb_forall in *. intros x Hx. apply H. now apply in_rev.
  - destruct (N.eqb c 47) eqn:E; apply IH; auto.
    cbn [forallb]. now rewrite E, H.
Qed.

Lemma split_pop_from_last cur s d :
  N.eqb d 47 = false -> exists t, split_pop_from cur (s ++ [d]) = t ++ [d].
Proof.
  intro D. revert cur. induction s as [|c s IH]; intro cur.
  - cbn [app split_pop_from]. rewrite D. cbn [rev]. eauto.
  - cbn [app split_pop_from]. destruct (N.eqb c 47); apply IH.
Qed.

(** ** Step 1: the URL field and "Continue" *)

(** X11.  What "Continue" selects.  Where the button is offered, it
    leaves the typed text alone, moves to step 2 and selects a
    repository whose URL is the normalised URL: in one of the two
    accepted formats and a prefix of the typed text without the white
    space around it.  The repository name is not empty and has no
    slash; it is the last path segment of the URL whenever that segment
    does not contain ".git". *)
Theorem continue_selects_normalized st :
  offered st ClickContinue = true ->
  exists r,
    dispatch ClickContinue st
      = (st |> setSelectedRepo (Some r) |> setStep 2, [])
    /\ url r = normalizedUrl (normalizeGithubUrl (repoUrl st))
    /\ full_name r = url r
    /\ accepts re_github (url r) || accepts re_short (url r) = true
    /\ (exists w, trim (repoUrl st) = url r ++ w)
    /\ truthy (name r) = true
    /\ forallb (fun c => negb (N.eqb c 47)) (name r) = true
    /\ (includes (u ".git") (split_pop (url r)) = false ->
        name r = split_pop (url r)).
Proof.
  intro O. unfold dispatch. rewrite O. cbn [offered handle] in *.
  apply andb_true_iff in O as [O V]. apply andb_true_iff in O as [_ T].
  rewrite T, V. cbn [andb].
  unfold urlValidation in *. rewrite T in *.
  set (n := normalizedUrl (normalizeGithubUrl (repoUrl st))).
  destruct (UrlFacts.normalized_shape _ V) as (A & _ & _ & _ & _).
  fold n in A.
  eexists. split; [reflexivity|]. cbn [url full_name name].
  split; [reflexivity|]. split; [reflexivity|]. split; [exact A|].
  split; [|split; [|split]].
  - unfold n, normalizeGithubUrl in *.
    destruct (negb (truthy (trim (repoUrl st)))); [discriminate V|].
    destruct (accepts re_github (strip_paths (trim (repoUrl st)))
              || accepts re_short (strip_paths (trim (repoUrl st))));
      [|discriminate V].
    destruct (UrlFacts.strip_paths_shape (trim (repoUrl st)))
      as (e & w & _ & _ & W).
    exists w. destruct (negb (JS.eqb _ _)); exact W.
  - now apply or_else_truthy.
  - unfold or_else.
    destruct (truthy (remove_first (u ".git") (split_pop n))); [|reflexivity].
    apply remove_first_forallb. now apply split_pop_from_no_slash.
  - intro G. rewrite (remove_first_absent _ _ G).
    destruct (UrlFacts.valid_ends n A) as (s' & d & E & D).
    unfold split_pop. rewrite E.
    destruct (split_pop_from_last [] s' d) as [t ->].
    + unfold UrlFacts.repo_unit in D. apply negb_true_iff in D.
      now apply orb_false_iff in D.
    + unfold or_else. now destruct t.
Qed.

(** The theorem with a URL copied from a branch page typed in. *)
Lemma continue_selects_normalized_witness :
  let st := initialState (u "t")
              |> setRepoUrl (u " https://github.com/owner/repo/tree/main") in
  exists r,
    selectedRepo (fst (dispatch ClickContinue st)) = Some r
    /\ url r = u "https://github.com/owner/repo"
    /\ name r = u "repo".
Proof.
  intro st.
  assert (O : offered st ClickContinue = true) by (vm_compute; reflexivity).
  destruct (continue_selects_normalized st O)
    as (r & D & U & _ & _ & _ & _ & _ & N).
  exists r. split; [now rewrite D|].
  assert (U' : url r = u "https://github.com/owner/repo")
    by (rewrite U; vm_compute; reflexivity).
  split; [exact U'|].
  rewrite N; rewrite U'; vm_compute; reflexivity.
Defined.

(** X12.  The outcomes of [normalizeGithubUrl].  A rejected input gives
    an empty URL and one of two messages, "URL is required" exactly for
    the inputs made of white space only.  An accepted input gives a URL
    that is a prefix of the trimmed input, so the function only ever
    cuts at the end; the message is empty exactly when the URL comes
    back as it was typed, and is the "URL normalized" notice
    otherwise, also when only white space was removed. *)
Theorem normalize_outcomes url :
  (valid (normalizeGithubUrl url) = false ->
   normalizedUrl (normalizeGithubUrl url) = []
   /\ (message (normalizeGithubUrl url) = msg_required
       \/ message (normalizeGithubUrl url) = msg_invalid)
   /\ (message (normalizeGithubUrl url) = msg_required
       <-> forallb is_space url = true))
  /\ (valid (normalizeGithubUrl url) = true ->
      (exists w, trim url = normalizedUrl (normalizeGithubUrl url) ++ w)
      /\ (message (normalizeGithubUrl url) = []
          \/ message (normalizeGithubUrl url) = msg_normalized)
      /\ (message (normalizeGithubUrl url) = []
          <-> normalizedUrl (normalizeGithubUrl url) = url)).
Proof.
  unfold normalizeGithubUrl.
  destruct (truthy (trim url)) eqn:T; cbn [negb].
  - assert (B : forallb is_space url = false).
    { destruct (forallb is_space url) eqn:B; auto.
      apply trim_blank in B. rewrite B in T. discriminate. }
    destruct (accepts re_github (strip_paths (trim url))
              || accepts re_short (strip_paths (trim url))).
    + split; [destruct (negb _); discriminate|]. intros _.
      destruct (UrlFacts.strip_paths_shape (trim url)) as (e & w & _ & _ & W).
      destruct (JS.eqb url (strip_paths (trim url))) eqn:E;
        cbn [negb valid normalizedUrl message].
      * apply StringFacts.eqb_eq in E.
        split; [eauto|]. split; [now left|]. split; auto.
      * split; [eauto|]. split; [now right|]. split; [discriminate|].
        intro K. symmetry in K. apply StringFacts.eqb_eq in K. congruence.
    + split; [|discriminate]. intros _. cbn [valid normalizedUrl message].
      split; [reflexivity|]. split; [now right|]. rewrite B.
      split; discriminate.
  - split; [|discriminate]. intros _. cbn [valid normalizedUrl message].
    split; [reflexivity|]. split; [now left|].
    split; [intros _|reflexivity]. apply trim_blank.
    now destruct (trim url).
Qed.

(** The theorem at a URL with a trailing space, and at a blank input. *)
Lemma normalize_outcomes_witness :
  message (normalizeGithubUrl (u "owner/repo ")) = msg_normalized
  /\ message (normalizeGithubUrl (u "  ")) = msg_required.
Proof.
  destruct (normalize_outcomes (u "owner/repo ")) as [_ Ok].
  destruct (normalize_outcomes (u "  ")) as [Bad _].
  split.
  - destruct Ok as (_ & [E | E] & M); [vm_compute; reflexivity| |exact E].
    apply M in E. vm_compute in E. discriminate E.
  - apply Bad; vm_compute; reflexivity.
Defined.

(** ** The framework check boxes *)

Lemma existsb_eqb_In (x : jsstring) l : existsb (JS.eqb x) l = true <-> In x l.
Proof.
  rewrite existsb_exists. split.
  - intros (y & H & E). apply StringFacts.eqb_eq in E. now subst.
  - intro H. exists x. split; auto. apply StringFacts.eqb_refl.
Qed.

Lemma NoDup_snoc (x : jsstring) l : NoDup l -> ~ In x l -> NoDup (l ++ [x]).
Proof.
  induction 1 as [|y l Hy Hl IH]; intro Hx; cbn [app].
  - constructor; [intros []|constructor].
  - constructor.
    + intro K. apply in_app_or in K as [K | [K | []]]; [tauto|].
      apply Hx. now left.
    + apply IH. intro K. apply Hx. now right.
Qed.

Lemma filter_absent (x : jsstring) l :
  ~ In x l -> filter (fun c => negb (JS.eqb c x)) l = l.
Proof.
  induction l as [|y l IH]; intro H; cbn [filter]; auto.
  destruct (JS.eqb y x) eqn:E; cbn [negb].
  - apply StringFacts.eqb_eq in E. subst. destruct H. now left.
  - rewrite IH; auto. intro K. apply H. now right.
Qed.

(** The updater shared by [handleFrameworkToggle] and
    [handleConversionToggle]. *)
Lemma toggle_flips (id : jsstring) (prev : list jsstring) :
  (In id (toggle id prev) <-> ~ In id prev)
  /\ (forall x, x <> id -> (In x (toggle id prev) <-> In x prev))
  /\ (NoDup prev -> NoDup (toggle id prev))
  /\ (~ In id prev -> toggle id (toggle id prev) = prev).
Proof.
  unfold toggle at 1 2 3.
  destruct (existsb (JS.eqb id) prev) eqn:E.
  - assert (I : In id prev) by now apply existsb_eqb_In.
    split; [|split; [|split]].
    + rewrite filter_In, StringFacts.eqb_refl. cbn [negb].
      split; [intros [_ K]; discriminate | tauto].
    + intros x N. rewrite filter_In. split; [tauto|]. intro K. split; auto.
      destruct (JS.eqb x id) eqn:X; auto.
      apply StringFacts.eqb_eq in X. contradiction.
    + apply NoDup_filter.
    + tauto.
  - assert (I : ~ In id prev).
    { intro K. apply existsb_eqb_In in K. congruence. }
    split; [|split; [|split]].
    + split; auto. intros _. apply in_or_app. right. now left.
    + intros x N. rewrite in_app_iff. cbn [In]. split; [|tauto].
      intros [K | [K | []]]; auto. now destruct N.
    + intro D. now apply NoDup_snoc.
    + intros _. unfold toggle. rewrite E.
      replace (existsb (JS.eqb id) (prev ++ [id])) with true.
      * rewrite filter_app, filter_absent; auto. cbn [filter].
        rewrite StringFacts.eqb_refl. cbn [negb]. apply app_nil_r.
      * symmetry. apply existsb_eqb_In, in_or_app. right. now left.
Qed.

(** X13.  A framework check box flips the membership of its own
    framework in the selection and of no other, keeps the selection
    free of duplicates, and ticking a box that was clear and clearing
    it again gives back the very state.  ([handleConversionToggle] has
    the same updater on the conversion types.) *)
Theorem framework_toggle_flips (framework : jsstring) (st : State) :
  (In framework (selectedFrameworks (handleFrameworkToggle framework st))
   <-> ~ In framework (selectedFrameworks st))
  /\ (forall x, x <> framework ->
        (In x (selectedFrameworks (handleFrameworkToggle framework st))
         <-> In x (selectedFrameworks st)))
  /\ (NoDup (selectedFrameworks st) ->
      NoDup (selectedFrameworks (handleFrameworkToggle framework st)))
  /\ (~ In framework (selectedFrameworks st) ->
      handleFrameworkToggle framework (handleFrameworkToggle framework st) = st).
Proof.
  destruct (toggle_flips framework (selectedFrameworks st)) as (A & B & C & D).
  unfold handleFrameworkToggle. fields.
  split; [exact A|]. split; [exact B|]. split; [exact C|].
  intro N. rewrite (D N). now destruct st.
Qed.

(** The theorem at a selection: ticking a second box and clearing it
    again. *)
Lemma framework_toggle_flips_witness :
  let st := Sample.ready |> setSelectedFrameworks [u "spring"] in
  selectedFrameworks (handleFrameworkToggle (u "junit") st)
    = [u "spring"; u "junit"]
  /\ NoDup (selectedFrameworks (handleFrameworkToggle (u "junit") st))
  /\ handleFrameworkToggle (u "junit") (handleFrameworkToggle (u "junit") st)
     = st.
Proof.
  intro st.
  destruct (framework_toggle_flips (u "junit") st) as (_ & _ & D & T).
  split; [reflexivity|]. split.
  - apply D. constructor; [intros []|constructor].
  - apply T. intros [K | []]. vm_compute in K. discriminate K.
Defined.

(** ** The dependency list of the discovery view *)

(** X14.  Every dependency of the analysis is either among the ten
    drawn, which are the first ten in their order, or counted by the
    line "+N more"; that line is drawn exactly when something is left
    out, and then N is at least 1. *)
Theorem dependencies_shown_or_counted (deps : list DependencyInfo) :
  (exists rest,
     deps = shownDependencies deps ++ rest
     /\ List.length rest = match moreItems deps with Some n => n | None => 0%nat end)
  /\ (List.length (shownDependencies deps) <= 10)%nat
  /\ (moreItems deps = None <-> shownDependencies deps = deps)
  /\ (forall n, moreItems deps = Some n -> (1 <= n)%nat).
Proof.
  unfold shownDependencies, moreItems.
  pose proof (firstn_skipn 10 deps) as S.
  pose proof (length_skipn 10 deps) as L.
  pose proof (length_firstn 10 deps) as F.
  split; [|split; [|split]].
  - exists (skipn 10 deps). split; [now symmetry|]. rewrite L.
    destruct (Nat.ltb 10 (List.length deps)) eqn:E; auto.
    apply Nat.ltb_ge in E. lia.
  - lia.
  - destruct (Nat.ltb 10 (List.length deps)) eqn:E.
    + apply Nat.ltb_lt in E. split; [discriminate|]. intro K.
      rewrite K in F. lia.
    + apply Nat.ltb_ge in E. split; auto. intros _. now apply firstn_all2.
  - intros n. destruct (Nat.ltb 10 (List.length deps)) eqn:E; [|discriminate].
    apply Nat.ltb_lt in E. intro K. injection K as <-. lia.
Qed.

(** ** Where the requests go *)

Lemma some_app_tail (a b t : jsstring) : Some (a ++ t) = Some (b ++ t) <-> a = b.
Proof.
  split.
  - intro E. assert (E' : a ++ t = b ++ t) by congruence.
    now apply app_inv_tail in E'.
  - now intros ->.
Qed.

(** X15.  The download buttons of the report view do not go through
    the service module: their URLs are written out with the host
    [http://localhost:8001].  They agree with the URLs the service
    module would fetch exactly when [VITE_API_URL] is unset, empty, or
    that very host. *)
Theorem download_links_fixed_host (VITE_API_URL : option jsstring) jobId :
  let configured :=
    or_else (match VITE_API_URL with Some v => v | None => [] end)
            (u "http://localhost:8001") in
  (requestUrl (API_BASE_URL VITE_API_URL) (DownloadMigratedProject jobId)
     = Some (artifactUrl download_zip jobId)
   <-> configured = u "http://localhost:8001")
  /\ (requestUrl (API_BASE_URL VITE_API_URL) (DownloadMigrationReport jobId)
        = Some (artifactUrl report jobId)
      <-> configured = u "http://localhost:8001").
Proof.
  intro configured.
  assert (Z : requestUrl (API_BASE_URL VITE_API_URL) (DownloadMigratedProject jobId)
              = Some (configured
                      ++ u "/api" ++ u "/migration/" ++ jobId ++ u "/download-zip")).
  { unfold requestUrl, API_BASE_URL, text. cbn [join option_map]. fold configured.
    now rewrite <- !app_assoc, app_nil_r. }
  assert (R : requestUrl (API_BASE_URL VITE_API_URL) (DownloadMigrationReport jobId)
              = Some (configured
                      ++ u "/api" ++ u "/migration/" ++ jobId ++ u "/report")).
  { unfold requestUrl, API_BASE_URL, text. cbn [join option_map]. fold configured.
    now rewrite <- !app_assoc, app_nil_r. }
  rewrite Z, R.
  change (artifactUrl download_zip jobId)
    with (u "http://localhost:8001"
          ++ u "/api" ++ u "/migration/" ++ jobId ++ u "/download-zip").
  change (artifactUrl report jobId)
    with (u "http://localhost:8001"
          ++ u "/api" ++ u "/migration/" ++ jobId ++ u "/report").
  split; apply some_app_tail.
Qed.

(** ** The query parameters *)

Lemma hexDigit_unreserved d : (d < 16)%N -> unreserved (hexDigit d) = true.
Proof.
  intro H.
  assert (K : (d = 0 \/ d = 1 \/ d = 2 \/ d = 3 \/ d = 4 \/ d = 5 \/ d = 6
               \/ d = 7 \/ d = 8 \/ d = 9 \/ d = 10 \/ d = 11 \/ d = 12
               \/ d = 13 \/ d = 14 \/ d = 15)%N) by lia.
  repeat (destruct K as [-> | K]; [reflexivity|]). now subst.
Qed.

Lemma delimiter_not_encoded c :
  unreserved c || N.eqb c 37 = true -> negb (delimiter c) = true.
Proof.
  intro H. destruct (delimiter c) eqn:D; auto.
  unfold delimiter in D. apply existsb_exists in D as (x & I & E).
  apply N.eqb_eq in E. subst x. cbn [In] in I.
  repeat (destruct I as [<- | I]; [discriminate H|]). destruct I.
Qed.

Lemma percent_inert l :
  forallb (fun c => negb (delimiter c)) (flat_map percent l) = true.
Proof.
  induction l as [|o l IH]; auto.
  cbn [flat_map]. rewrite forallb_app, IH, andb_true_r.
  unfold percent. cbn [forallb]. rewrite andb_true_r.
  rewrite !delimiter_not_encoded; auto.
  - rewrite hexDigit_unreserved; auto. now apply N.mod_lt.
  - rewrite hexDigit_unreserved; auto. now apply N.mod_lt.
Qed.

Lemma encodeURIComponent_cons c s :
  encodeURIComponent (c :: s) =
  if unreserved c then option_map (cons c) (encodeURIComponent s)
  else if isLowSurrogate c then None
  else if isHighSurrogate c then
    match s with
    | d :: s'' =>
        if isLowSurrogate d then
          option_map
            (app (flat_map percent
                    (utf8 ((c - 55296) * 1024 + (d - 56320) + 65536)%N)))
            (encodeURIComponent s'')
        else None
    | [] => None
    end
  else option_map (app (flat_map percent (utf8 c))) (encodeURIComponent s).
Proof. reflexivity. Qed.

Lemma option_map_inert (f : jsstring -> jsstring) (o : option jsstring) :
  (forall t, o = Some t -> forallb (fun c => negb (delimiter c)) t = true) ->
  (forall t, forallb (fun c => negb (delimiter c)) t = true ->
             forallb (fun c => negb (delimiter c)) (f t) = true) ->
  forall t, option_map f o = Some t ->
            forallb (fun c => negb (delimiter c)) t = true.
Proof.
  intros Ho Hf t. destruct o as [x|]; cbn [option_map]; [|discriminate].
  intro E. injection E as <-. auto.
Qed.

(** What [encodeURIComponent] returns holds no delimiter. *)
Lemma encodeURIComponent_inert s :
  forall t, encodeURIComponent s = Some t ->
            forallb (fun c => negb (delimiter c)) t = true.
Proof.
  assert (G : (forall t, encodeURIComponent s = Some t ->
                 forallb (fun c => negb (delimiter c)) t = true)
              /\ forall c t, encodeURIComponent (c :: s) = Some t ->
                   forallb (fun c => negb (delimiter c)) t = true).
  { induction s as [|d s [IH1 IH2]].
    - split.
      + intros t E. injection E as <-. reflexivity.
      + intros c t. rewrite encodeURIComponent_cons.
        destruct (unreserved c) eqn:U; [|destruct (isLowSurrogate c);
          [discriminate|destruct (isHighSurrogate c); [discriminate|]]];
          cbn [encodeURIComponent option_map]; intro E; injection E as <-.
        * cbn [forallb]. rewrite delimiter_not_encoded; auto. now rewrite U.
        * rewrite app_nil_r. apply percent_inert.
    - split; [apply IH2|].
      intros c t. rewrite encodeURIComponent_cons.
      destruct (unreserved c) eqn:U; [|destruct (isLowSurrogate c);
        [discriminate|destruct (isHighSurrogate c);
          [destruct (isLowSurrogate d); [|discriminate]|]]];
        apply option_map_inert; eauto.
      + intros x Hx. cbn [forallb]. rewrite Hx, delimiter_not_encoded; auto.
        now rewrite U.
      + intros x Hx. now rewrite forallb_app, percent_inert.
      + intros x Hx. now rewrite forallb_app, percent_inert. }
  apply G.
Qed.

(** Without surrogates [encodeURIComponent] does not throw. *)
Lemma encodeURIComponent_total s :
  forallb (fun c => negb (isSurrogate c)) s = true ->
  exists t, encodeURIComponent s = Some t.
Proof.
  induction s as [|c s IH]; intro H.
  - now exists [].
  - cbn [forallb] in H. apply andb_true_iff in H as [Hc Hs].
    destruct (IH Hs) as [t E].
    unfold isSurrogate in Hc. apply negb_true_iff, orb_false_iff in Hc as [Hh Hl].
    rewrite encodeURIComponent_cons, Hl, Hh, E.
    destruct (unreserved c); cbn [option_map]; eauto.
Qed.

(** X16.  In the URLs of [analyzeRepoUrl] and [listRepoFiles], the two
    requests by which the wizard passes on what the user typed, every
    parameter is encoded: whatever the repository URL, the token and
    the path are, their values hold none of [/ ? # & = +] nor a space,
    so the query has exactly the parameters written in the template.
    When no value holds a surrogate, nothing is thrown and the URL is
    built. *)
Theorem query_parameters_encoded (base repoUrl tok dirPath : jsstring) :
  (forall url,
     requestUrl base (AnalyzeRepoUrl repoUrl tok) = Some url ->
     exists e1 e2,
       url = base ++ u "/github/analyze-url?repo_url=" ++ e1
                  ++ u "&token=" ++ e2
       /\ forallb (fun c => negb (delimiter c)) (e1 ++ e2) = true)
  /\ (forall url,
        requestUrl base (ListRepoFiles repoUrl tok dirPath) = Some url ->
        exists e1 e2 e3,
          url = base ++ u "/github/list-files?repo_url=" ++ e1
                     ++ u "&token=" ++ e2 ++ u "&path=" ++ e3
          /\ forallb (fun c => negb (delimiter c)) (e1 ++ e2 ++ e3) = true)
  /\ (forallb (fun c => negb (isSurrogate c)) (repoUrl ++ tok ++ dirPath) = true ->
      (exists url, requestUrl base (AnalyzeRepoUrl repoUrl tok) = Some url)
      /\ exists url, requestUrl base (ListRepoFiles repoUrl tok dirPath) = Some url).
Proof.
  unfold requestUrl, text. cbn [join].
  pose proof (encodeURIComponent_inert repoUrl) as I1.
  pose proof (encodeURIComponent_inert tok) as I2.
  pose proof (encodeURIComponent_inert dirPath) as I3.
  split; [|split].
  - intro url.
    destruct (encodeURIComponent repoUrl) as [e1|]; [|discriminate].
    destruct (encodeURIComponent tok) as [e2|]; [|discriminate].
    cbn [join option_map]. intro E. injection E as <-.
    exists e1, e2. rewrite app_nil_r. split; [reflexivity|].
    now rewrite forallb_app, I1, I2.
  - intro url.
    destruct (encodeURIComponent repoUrl) as [e1|]; [|discriminate].
    destruct (encodeURIComponent tok) as [e2|]; [|discriminate].
    destruct (encodeURIComponent dirPath) as [e3|]; [|discriminate].
    cbn [join option_map]. intro E. injection E as <-.
    exists e1, e2, e3. rewrite app_nil_r. split; [reflexivity|].
    now rewrite !forallb_app, I1, I2, I3.
  - rewrite !forallb_app, !andb_true_iff. intros (S1 & S2 & S3).
    destruct (encodeURIComponent_total _ S1) as [e1 ->].
    destruct (encodeURIComponent_total _ S2) as [e2 ->].
    destruct (encodeURIComponent_total _ S3) as [e3 ->].
    cbn [join option_map]. eauto.
Qed.

(** The theorem at a repository URL that tries to add a parameter. *)
Lemma query_parameters_encoded_witness :
  exists e1 e2,
    requestUrl (u "http://h/api") (AnalyzeRepoUrl (u "o/r&token=x") (u "t"))
      = Some (u "http://h/api" ++ u "/github/analyze-url?repo_url=" ++ e1
                ++ u "&token=" ++ e2)
    /\ forallb (fun c => negb (delimiter c)) (e1 ++ e2) = true.
Proof.
  destruct (query_parameters_encoded (u "http://h/api") (u "o/r&token=x")
              (u "t") [])
    as (A & _ & T).
  destruct T as [[url E] _]; [vm_compute; reflexivity|].
  destruct (A url E) as (e1 & e2 & -> & I).
  exists e1, e2. split; [exact E | exact I].
Defined.

(** ** Where [normalizeGithubUrl] cuts *)

Lemma lit_cat_head c w r t :
  accepts (Cat (lit (c :: w)) r) t = true -> exists t', t = c :: t'.
Proof.
  intro A. apply RegexFacts.accepts_lang, RegexFacts.lang_cat in A
    as (s1 & s2 & -> & L & _).
  apply RegexFacts.lang_lit in L. subst s1. cbn [app]. eauto.
Qed.

Lemma cut_tail r s :
  (forall t, accepts r t = true -> exists t', t = 47%N :: t') ->
  exists t, s = replace_to_end r s ++ t /\ (t = [] \/ exists t', t = 47%N :: t').
Proof.
  intro H. destruct (StringFacts.replace_to_end_split r s) as (t & E & [T | T] & _).
  - exists t. auto.
  - exists t. split; auto.
Qed.

(** X17.  [normalizeGithubUrl] cuts at a boundary.  What it removes
    from the end of an accepted input (after trimming) is nothing, or
    starts at a slash, or starts at a ".git": it never cuts through the
    name of the owner or of the repository anywhere else. *)
Theorem normalize_cuts_at_boundary url :
  valid (normalizeGithubUrl url) = true ->
  exists w,
    trim url = normalizedUrl (normalizeGithubUrl url) ++ w
    /\ (w = [] \/ (exists w', w = 47%N :: w')
        \/ exists w', w = u ".git" ++ w').
Proof.
  unfold normalizeGithubUrl.
  destruct (negb (truthy (trim url))); [discriminate|].
  destruct (accepts re_github (strip_paths (trim url))
            || accepts re_short (strip_paths (trim url))); [|discriminate].
  intros _.
  assert (N : normalizedUrl
                (if negb (JS.eqb url (strip_paths (trim url)))
                 then mkValidation true (strip_paths (trim url)) msg_normalized
                 else mkValidation true (strip_paths (trim url)) [])
              = strip_paths (trim url)) by now destruct (negb _).
  rewrite N. clear N. unfold strip_paths. set (s := trim url).
  destruct (cut_tail re_tree s) as (t1 & E1 & T1);
    [apply lit_cat_head|].
  set (s1 := replace_to_end re_tree s) in *.
  destruct (cut_tail re_blob s1) as (t2 & E2 & T2);
    [apply lit_cat_head|].
  set (s2 := replace_to_end re_blob s1) in *.
  destruct (cut_tail re_src s2) as (t3 & E3 & T3);
    [apply lit_cat_head|].
  set (s3 := replace_to_end re_src s2) in *.
  destruct (cut_tail re_slash s3) as (t4 & E4 & T4).
  { intros t A. apply RegexFacts.accepts_lang, RegexFacts.lang_lit in A.
    subst t. now exists []. }
  set (s4 := replace_to_end re_slash s3) in *.
  destruct (StringFacts.replace_to_end_split re_git s4) as (t5 & E5 & T5 & _).
  apply UrlFacts.lit_tail in T5.
  set (s5 := replace_to_end re_git s4) in *.
  exists (t5 ++ t4 ++ t3 ++ t2 ++ t1). split.
  - rewrite E1 at 1. rewrite E2 at 1. rewrite E3 at 1. rewrite E4 at 1.
    rewrite E5 at 1. now rewrite <- !app_assoc.
  - destruct T5 as [-> | ->]; [|right; right; eauto]. cbn [app].
    destruct T4 as [-> | [t' ->]]; [|right; left; cbn [app]; eauto]. cbn [app].
    destruct T3 as [-> | [t' ->]]; [|right; left; cbn [app]; eauto]. cbn [app].
    destruct T2 as [-> | [t' ->]]; [|right; left; cbn [app]; eauto]. cbn [app].
    destruct T1 as [-> | [t' ->]]; [now left|right; left; eauto].
Qed.

(** The theorem at a clone URL with a branch path after it. *)
Lemma normalize_cuts_at_boundary_witness :
  exists w,
    trim (u "owner/repo.git/tree/main")
      = normalizedUrl (normalizeGithubUrl (u "owner/repo.git/tree/main")) ++ w
    /\ (w = [] \/ (exists w', w = 47%N :: w')
        \/ exists w', w = u ".git" ++ w').
Proof.
  apply (normalize_cuts_at_boundary (u "owner/repo.git/tree/main")).
  vm_compute. reflexivity.
Defined.

(** ** The file list of the discovery view *)

(** X18.  Browsing.  Clicking a directory of the list makes it the
    current path, so that the files effect then asks for the listing of
    that very directory of the selected repository; clicking a file
    does nothing.  When the listing is empty, as in an empty directory,
    the list is not drawn: neither an entry nor the "home" button can be
    clicked there. *)
Theorem file_browser st :
  (forall idx f r,
     offered st (ClickFile idx) = true ->
     nth_error (repoFiles st) idx = Some f ->
     selectedRepo st = Some r ->
     match type f with
     | dir =>
         snd (dispatch (ClickFile idx) st) = []
         /\ snd (filesEffect (fst (dispatch (ClickFile idx) st)))
            = [Call (ListRepoFiles (url r) (githubToken st) (path f))]
     | file => dispatch (ClickFile idx) st = (st, [])
     end)
  /\ (repoFiles st = [] ->
      dispatch ClickHome st = (st, [])
      /\ forall idx, dispatch (ClickFile idx) st = (st, [])).
Proof.
  split.
  - intros idx f r O F R. unfold dispatch. rewrite O. cbn [handle]. rewrite F.
    cbn [offered] in O. apply andb_true_iff in O as [O _].
    apply andb_true_iff in O as [O _]. apply andb_true_iff in O as [O _].
    destruct f as [n p [] sz fu]; cbn [type path]; [reflexivity|].
    split; [reflexivity|]. cbn [fst]. unfold filesEffect. fields.
    rewrite R, O. reflexivity.
  - intro E. unfold dispatch. cbn [offered]. rewrite E. cbn [List.length Nat.eqb negb].
    rewrite !andb_false_r. cbn [andb]. split; [reflexivity|].
    intro idx. destruct idx; cbn [nth_error isNull negb];
      now rewrite !andb_false_r.
Qed.

(** The theorem with one directory listed. *)
Lemma file_browser_witness :
  let st := Sample.ready
              |> setSelectedRepo
                   (Some {| name := u "r"; full_name := u "o/r"; url := u "o/r";
                            default_branch := u "main"; language := None;
                            description := Some [] |})
              |> setRepoFiles [ {| file_name := u "src"; path := u "src";
                                   type := dir; size := 0;
                                   file_url := u "x" |} ]
              |> setStep 2 in
  snd (filesEffect (fst (dispatch (ClickFile 0) st)))
    = [Call (ListRepoFiles (u "o/r") (u "t") (u "src"))].
Proof.
  intro st.
  destruct (file_browser st) as [B _].
  assert (O : offered st (ClickFile 0) = true) by (vm_compute; reflexivity).
  exact (proj2 (B 0%nat _ _ O eq_refl eq_refl)).
Defined.

(** ** Failures and the banner *)

(** X19.  Which failures are shown.  Of the seven requests of the
    wizard, four have a [catch]: when the analysis, the file listing or
    the start fails, the banner gets a text that is not empty, whatever
    the message of the error (an empty one is replaced), and the
    loading ends; a failed status request sets a fixed text.  The other
    three have none: when the log request or one of the two catalogue
    requests of the mount effect fails, the state stays exactly as it
    was, and nothing is shown. *)
Theorem rejections_shown_where_caught (message : jsstring) (st : State) :
  (truthy (error (analysisSettled (Rejected message) st)) = true
   /\ loading (analysisSettled (Rejected message) st) = false)
  /\ (truthy (error (filesSettled (Rejected message) st)) = true
      /\ loading (filesSettled (Rejected message) st) = false)
  /\ (truthy (error (startMigrationSettled (Rejected message) st)) = true
      /\ loading (startMigrationSettled (Rejected message) st) = false)
  /\ fst (statusSettled (Rejected message) st)
     = st |> setError (u "Failed to fetch migration status.")
  /\ logsSettled (Rejected message) st = st
  /\ javaVersionsSettled (Rejected message) st = st
  /\ conversionTypesSettled (Rejected message) st = st.
Proof.
  cbn [analysisSettled filesSettled startMigrationSettled statusSettled
       logsSettled javaVersionsSettled conversionTypesSettled]. fields.
  repeat split; try reflexivity; now apply or_else_truthy.
Qed.

(** ** After a reset *)

(** X20.  After [resetWizard], as long as no request is on its way,
    nothing goes on by itself: an event that is not a user action (a
    timer, an effect, an answer) either cannot occur or leaves the
    state and the outstanding requests as they are; and a second
    [resetWizard] changes nothing.  The reset does not call off what is
    on its way: the answer to a status request that is still
    outstanding replaces the job all the same and, when the job is
    completed, moves the wizard to the report view and asks for the
    logs. *)
Theorem reset_is_quiescent (st : State) :
  (forall e s',
     (forall a, e <> User a) ->
     fire e {| ui := resetWizard st; outstanding := [] |} = Some s' ->
     s' = {| ui := resetWizard st; outstanding := [] |})
  /\ resetWizard (resetWizard st) = resetWizard st
  /\ (forall job rest,
        exists s',
          fire (StatusAnswer (ResponseOk (Json job)))
               {| ui := resetWizard st;
                  outstanding := GetMigrationStatus (job_id job) :: rest |}
            = Some s'
          /\ migrationJob (ui s') = Some job
          /\ (statusIs job "completed" = true ->
              step (ui s') = 11%Z
              /\ In (GetMigrationLogs (job_id job)) (outstanding s'))).
Proof.
  split; [|split].
  - intros e s' N F. destruct e; try (vm_compute in F; discriminate F).
    + now destruct (N a).
    + vm_compute in F. injection F as <-. vm_compute. reflexivity.
    + vm_compute in F. injection F as <-. vm_compute. reflexivity.
    + vm_compute in F. injection F as <-. vm_compute. reflexivity.
  - vm_compute. reflexivity.
  - intros job rest. cbn [fire outstanding answered isStatusFor].
    rewrite StringFacts.eqb_refl. eexists. split; [reflexivity|].
    cbn [after ui outstanding fst snd getMigrationStatus returnJson
         statusSettled].
    destruct (statusIs job "completed"); fields; split; auto;
      [|discriminate].
    intros _. split; [reflexivity|]. apply in_or_app. right.
    cbn [calls flat_map app]. now left.
Qed.

(** The theorem on the sample session, after "Start New Migration" on
    the report view: no request is on its way, and the analysis effect,
    which may run at any time, changes nothing. *)
Lemma reset_is_quiescent_witness :
  let before := ui (reached toReport) in
  let s := {| ui := resetWizard before; outstanding := [] |} in
  let s' := match fire AnalysisEffect s with Some x => x | None => s end in
  run (toReport ++ [User ClickStartNew]) (mounted (u "t")) = Some s
  /\ fire AnalysisEffect s = Some s'
  /\ s' = s.
Proof.
  intros before s s'.
  assert (F : fire AnalysisEffect s = Some s') by (vm_compute; reflexivity).
  assert (N : forall a, AnalysisEffect <> User a) by (intro a; discriminate).
  split; [vm_compute; reflexivity|]. split; [exact F|].
  exact (proj1 (reset_is_quiescent before) AnalysisEffect s' N F).
Defined.

(** ** What [normalizeGithubUrl] undoes *)

Lemma no_match_of_fix r n :
  replace_to_end r n = n ->
  forall p q, n = p ++ q -> q <> [] -> accepts r q = false.
Proof.
  intros F p q E Q.
  destruct (StringFacts.replace_to_end_split r n) as (t & S & _ & H).
  rewrite F in S, H.
  assert (T : t = []).
  { apply (app_inv_head n). now rewrite app_nil_r. }
  subst t. specialize (H p q E Q). now rewrite app_nil_r in H.
Qed.

(** The rule cuts where its match starts: at the end of [n], when
    nothing that starts inside [n] matches. *)
Lemma replace_to_end_at r n e :
  accepts r e = true ->
  (forall p q, n = p ++ q -> q <> [] -> accepts r (q ++ e) = false) ->
  replace_to_end r (n ++ e) = n.
Proof.
  intro A. induction n as [|c n IH]; intro H; cbn [app].
  - destruct e; [apply StringFacts.replace_to_end_nil|].
    now rewrite StringFacts.replace_to_end_cons, A.
  - rewrite StringFacts.replace_to_end_cons.
    assert (K : accepts r ((c :: n) ++ e) = false)
      by (apply (H [] (c :: n) eq_refl); discriminate).
    cbn [app] in K. rewrite K.
    f_equal. apply IH. intros p q -> Q. now apply (H (c :: p) q).
Qed.

Lemma replace_to_end_keep r n e :
  (forall p q, n = p ++ q -> q <> [] -> accepts r (q ++ e) = false) ->
  (forall p q, e = p ++ q -> q <> [] -> accepts r q = false) ->
  replace_to_end r (n ++ e) = n ++ e.
Proof.
  intros Hn He. apply StringFacts.replace_to_end_fix. intros p q E Q.
  apply app_eq_app in E as [l [[E1 E2] | [E1 E2]]].
  - subst q. destruct l as [|c l].
    + cbn [app] in Q |- *. now apply (He [] e).
    + apply (Hn p (c :: l)); [exact E1 | discriminate].
  - now apply (He l q).
Qed.

Lemma split_tail (L q l : jsstring) :
  L = q ++ l -> q = firstn (List.length q) L /\ l = skipn (List.length q) L.
Proof.
  intros ->. split.
  - now rewrite firstn_app, Nat.sub_diag, firstn_all, app_nil_r.
  - now rewrite skipn_app, Nat.sub_diag, skipn_all.
Qed.

Lemma lang_segment z :
  lang (Cat (plus not_slash) (Star dot)) z <->
  exists x y, z = x ++ y /\ x <> []
              /\ forallb (fun c => negb (N.eqb c 47)) x = true
              /\ forallb UrlFacts.not_lt y = true.
Proof.
  rewrite RegexFacts.lang_cat. unfold not_slash, dot. split.
  - intros (x & y & -> & Lx & Ly).
    apply RegexFacts.lang_plus_cls in Lx as [Nx Fx].
    apply RegexFacts.lang_star_cls in Ly. now exists x, y.
  - intros (x & y & -> & Nx & Fx & Fy). exists x, y.
    split; [reflexivity|]. split.
    + now apply RegexFacts.lang_plus_cls.
    + now apply RegexFacts.lang_star_cls.
Qed.

Lemma segment_closed a b :
  a <> [] -> lang (Cat (plus not_slash) (Star dot)) (a ++ b) ->
  lang (Cat (plus not_slash) (Star dot)) a.
Proof.
  intros Na L. apply lang_segment in L as (x & y & E & Nx & Fx & Fy).
  apply lang_segment.
  apply app_eq_app in E as [l [[-> ->] | [-> ->]]].
  - exists x, l. rewrite forallb_app in Fy. apply andb_true_iff in Fy as [Fl _].
    auto.
  - exists a, []. rewrite forallb_app in Fx. apply andb_true_iff in Fx as [Fa _].
    rewrite app_nil_r. auto.
Qed.

Lemma dots_closed a b :
  a <> [] -> lang (Star dot) (a ++ b) -> lang (Star dot) a.
Proof.
  intros _ L. unfold dot in *. apply RegexFacts.lang_star_cls in L.
  apply RegexFacts.lang_star_cls. rewrite forallb_app in L.
  now apply andb_true_iff in L.
Qed.

(** A match of [lit L @ R] that starts inside [q] and runs on into [e]
    either stops a match within [q], or starts within the last
    characters of [q], reading the rest of [L] from [e]. *)
Lemma lit_cat_cases L R q e :
  (forall a b, a <> [] -> lang R (a ++ b) -> lang R a) ->
  lang (Cat (lit L) R) (q ++ e) ->
  lang (Cat (lit L) R) q
  \/ exists l z, L = q ++ l /\ e = l ++ z /\ lang R z.
Proof.
  intros C H. apply RegexFacts.lang_cat in H as (s1 & z & E & L1 & Lz).
  apply RegexFacts.lang_lit in L1. subst s1.
  apply app_eq_app in E as [l [[E1 E2] | [E1 E2]]].
  - subst q z. destruct l as [|c l].
    + right. exists [], e. now rewrite !app_nil_r.
    + left. apply RegexFacts.lang_cat. exists L, (c :: l).
      split; [reflexivity|]. split; [now apply RegexFacts.lang_lit|].
      apply (C (c :: l) e); [discriminate | exact Lz].
  - right. now exists l, z.
Qed.

(** The rule [lit L @ R] leaves [n ++ e] alone when it leaves [n]
    alone, finds nothing inside [e], and no match straddles the two. *)
Lemma path_rule_keep L R n e :
  (forall a b, a <> [] -> lang R (a ++ b) -> lang R a) ->
  replace_to_end (Cat (lit L) R) n = n ->
  (forall p q, e = p ++ q -> q <> [] -> accepts (Cat (lit L) R) q = false) ->
  (forall p q l z, n = p ++ q -> q <> [] -> L = q ++ l -> e = l ++ z ->
                   lang R z -> False) ->
  replace_to_end (Cat (lit L) R) (n ++ e) = n ++ e.
Proof.
  intros C F He Ho. apply replace_to_end_keep; auto.
  intros p q En Q. apply RegexFacts.not_accepts_lang. intro H.
  apply lit_cat_cases in H as [H | (l & z & EL & Ee & Lz)]; auto.
  - apply RegexFacts.accepts_lang in H.
    rewrite (no_match_of_fix _ _ F p q En Q) in H. discriminate.
  - exact (Ho p q l z En Q EL Ee Lz).
Qed.

Lemma path_rule_at L R n e :
  (forall a b, a <> [] -> lang R (a ++ b) -> lang R a) ->
  replace_to_end (Cat (lit L) R) n = n ->
  accepts (Cat (lit L) R) e = true ->
  (forall p q l z, n = p ++ q -> q <> [] -> L = q ++ l -> e = l ++ z ->
                   lang R z -> False) ->
  replace_to_end (Cat (lit L) R) (n ++ e) = n.
Proof.
  intros C F A Ho. apply replace_to_end_at; auto.
  intros p q En Q. apply RegexFacts.not_accepts_lang. intro H.
  apply lit_cat_cases in H as [H | (l & z & EL & Ee & Lz)]; auto.
  - apply RegexFacts.accepts_lang in H.
    rewrite (no_match_of_fix _ _ F p q En Q) in H. discriminate.
  - exact (Ho p q l z En Q EL Ee Lz).
Qed.

Lemma literal_rule_at w n :
  w <> [] -> replace_to_end (lit w) (n ++ w) = n.
Proof.
  intro W. apply replace_to_end_at.
  - apply RegexFacts.accepts_lang. now apply RegexFacts.lang_lit.
  - intros p q _ Q. apply RegexFacts.not_accepts_lang. intro H.
    apply RegexFacts.lang_lit in H. apply (f_equal (@List.length N)) in H.
    rewrite length_app in H. destruct q; [contradiction|]. cbn [List.length] in H.
    lia.
Qed.

Lemma canonical_facts n :
  normalizeGithubUrl n = mkValidation true n [] ->
  accepts re_github n || accepts re_short n = true
  /\ trim n = n /\ truthy n = true
  /\ replace_to_end re_tree n = n /\ replace_to_end re_blob n = n
  /\ replace_to_end re_src n = n /\ replace_to_end re_slash n = n
  /\ replace_to_end re_git n = n.
Proof.
  intro C.
  assert (V : valid (normalizeGithubUrl n) = true) by now rewrite C.
  pose proof (UrlFacts.normalized_shape n V) as S. cbn zeta in S.
  rewrite C in S. cbn [normalizedUrl] in S. destruct S as (A & T & H & _).
  apply (UrlFacts.normalize_fixed n A T H) in C.
  apply UrlFacts.strip_paths_fixed in C. tauto.
Qed.

Lemma no_trailing_slash n p q :
  accepts re_github n || accepts re_short n = true ->
  n = p ++ q -> q <> [] -> last q 0%N = 47%N -> False.
Proof.
  intros A E Q L. destruct (UrlFacts.valid_ends n A) as (s' & d & E' & D).
  rewrite (app_removelast_last 0%N Q), L in E.
  rewrite E', app_assoc in E. apply app_inj_tail in E as [_ ->].
  discriminate D.
Qed.

Lemma space_line_terminator c : is_space c = false -> UrlFacts.not_lt c = true.
Proof.
  unfold is_space, UrlFacts.not_lt. intro H.
  apply orb_false_iff in H as [_ H]. now rewrite H.
Qed.

(** An input made of a normalised URL and something after it that the
    rules remove is accepted, with the notice. *)
Lemma normalize_appended n e :
  normalizeGithubUrl n = mkValidation true n [] ->
  StringFacts.ends_in (fun c => negb (is_space c)) e ->
  strip_paths (n ++ e) = n ->
  normalizeGithubUrl (n ++ e) = mkValidation true n msg_normalized.
Proof.
  intros C (e' & d & -> & D) S.
  destruct (canonical_facts n C) as (A & T & H & _).
  unfold normalizeGithubUrl.
  assert (Tr : trim (n ++ e' ++ [d]) = n ++ e' ++ [d]).
  { destruct n as [|c t]; [discriminate H|]. cbn [app].
    apply StringFacts.trim_fix with (n' := c :: t ++ e') (d := d).
    - now apply (StringFacts.trim_head (c :: t) c t).
    - now apply negb_true_iff in D.
    - cbn [app]. now rewrite <- app_assoc. }
  rewrite Tr, S, A.
  replace (truthy (n ++ e' ++ [d])) with true
    by (destruct n; [discriminate H | reflexivity]).
  cbn [negb]. destruct (JS.eqb (n ++ e' ++ [d]) n) eqn:E; [|reflexivity].
  apply StringFacts.eqb_eq in E. apply (f_equal (@List.length N)) in E.
  rewrite !length_app in E. cbn [List.length] in E. lia.
Qed.

Lemma split_bound (L q l : jsstring) (m : nat) :
  L = q ++ l -> List.length L = m -> (List.length q <= m)%nat.
Proof. intros -> <-. rewrite length_app. lia. Qed.

(** The cases of a rule's literal read partly from the end of [n] and
    partly from what follows. *)
Ltac overlap A :=
  let p := fresh "p" in let q := fresh "q" in
  let l := fresh "l" in let z := fresh "z" in
  let En := fresh "En" in let Q := fresh "Q" in
  let EL := fresh "EL" in let Ee := fresh "Ee" in let Lz := fresh "Lz" in
  let B := fresh "B" in
  intros p q l z En Q EL Ee Lz;
  match type of EL with
  | ?L = _ =>
      let m := eval vm_compute in (List.length L) in
      pose proof (split_bound L q l m EL eq_refl) as B
  end;
  apply split_tail in EL as [EL Ee'];
  rewrite Ee' in Ee; clear Ee';
  destruct (List.length q) as [|[|[|[|[|[|[|?k]]]]]]]; [..|exfalso; lia];
  vm_compute in EL; vm_compute in Ee;
  first [ now (subst q; destruct Q)
        | discriminate Ee
        | now (subst q; apply (no_trailing_slash _ _ _ A En);
               [discriminate | reflexivity])
        | subst q; clear Q B; revert p En Ee Lz ].

Ltac inside :=
  let p := fresh "p" in let q := fresh "q" in
  let E := fresh "E" in let Q := fresh "Q" in
  let B := fresh "B" in
  intros p q E Q;
  match type of E with
  | ?L = _ =>
      let m := eval vm_compute in (List.length L) in
      pose proof (split_bound L p q m E eq_refl) as B
  end;
  apply split_tail in E as [_ E];
  destruct (List.length p) as [|[|[|[|[|?k]]]]]; [..|exfalso; lia];
  vm_compute in E; subst q;
  first [ now destruct Q | vm_compute; reflexivity ].

(** X21.  What [normalizeGithubUrl] undoes.  Let [n] be a URL the
    function returns unchanged.  Then [n] with ".git" after it is
    normalised to [n]; so is [n] with a slash after it, unless [n] ends
    in "/src"; and so is [n] followed by "/tree/", a branch name and any
    path without white space, unless [n] ends in "/tree".  In each case
    the notice "URL normalized" is shown. *)
Theorem normalize_undoes n :
  normalizeGithubUrl n = mkValidation true n [] ->
  normalizeGithubUrl (n ++ u ".git") = mkValidation true n msg_normalized
  /\ ((forall p, n <> p ++ u "/src") ->
      normalizeGithubUrl (n ++ u "/") = mkValidation true n msg_normalized)
  /\ ((forall p, n <> p ++ u "/tree") ->
      forall b rest,
        b <> [] ->
        forallb (fun c => negb (N.eqb c 47)) b = true ->
        forallb (fun c => negb (is_space c)) (b ++ rest) = true ->
        normalizeGithubUrl (n ++ u "/tree/" ++ b ++ rest)
          = mkValidation true n msg_normalized).
Proof.
  intro C. destruct (canonical_facts n C) as (A & T & H & Ft & Fb & Fs & Fl & Fg).
  split; [|split].
  - apply normalize_appended; auto.
    { exists (u ".gi"), 116%N. split; reflexivity. }
    unfold strip_paths.
    assert (K1 : replace_to_end re_tree (n ++ u ".git") = n ++ u ".git")
      by (apply path_rule_keep;
          [exact segment_closed | exact Ft | inside | overlap A]).
    rewrite K1.
    assert (K2 : replace_to_end re_blob (n ++ u ".git") = n ++ u ".git")
      by (apply path_rule_keep;
          [exact segment_closed | exact Fb | inside | overlap A]).
    rewrite K2.
    assert (K3 : replace_to_end re_src (n ++ u ".git") = n ++ u ".git")
      by (apply path_rule_keep;
          [exact dots_closed | exact Fs | inside | overlap A]).
    rewrite K3.
    rewrite UrlFacts.strip_slash_fix
      by (exists (n ++ u ".gi"), 116%N; split;
          [now rewrite <- app_assoc | reflexivity]).
    now apply literal_rule_at.
  - intro NS. apply normalize_appended; auto.
    { exists [], 47%N. split; reflexivity. }
    unfold strip_paths.
    assert (K1 : replace_to_end re_tree (n ++ u "/") = n ++ u "/").
    { apply path_rule_keep;
        [exact segment_closed | exact Ft | inside | overlap A].
      intros p _ Ee Lz. injection Ee as <-.
      apply lang_segment in Lz as (x & y & E & Nx & _).
      destruct x; [contradiction | discriminate]. }
    rewrite K1.
    assert (K2 : replace_to_end re_blob (n ++ u "/") = n ++ u "/").
    { apply path_rule_keep;
        [exact segment_closed | exact Fb | inside | overlap A].
      intros p _ Ee Lz. injection Ee as <-.
      apply lang_segment in Lz as (x & y & E & Nx & _).
      destruct x; [contradiction | discriminate]. }
    rewrite K2.
    assert (K3 : replace_to_end re_src (n ++ u "/") = n ++ u "/").
    { apply path_rule_keep;
        [exact dots_closed | exact Fs | inside | overlap A].
      intros p En _ _. exact (NS p En). }
    rewrite K3.
    unfold re_slash at 1. rewrite literal_rule_at by discriminate. exact Fg.
  - intros NT b rest Nb Sb Wb.
    destruct (exists_last (l := b ++ rest)) as (e' & d & Eb).
    { destruct b; [contradiction | discriminate]. }
    assert (Wd : negb (is_space d) = true).
    { rewrite Eb, forallb_app in Wb. apply andb_true_iff in Wb as [_ Wb].
      cbn [forallb] in Wb. now rewrite andb_true_r in Wb. }
    apply normalize_appended; auto.
    { exists (u "/tree/" ++ e'), d. split; [|exact Wd].
      now rewrite <- app_assoc, <- Eb. }
    unfold strip_paths.
    assert (K1 : replace_to_end re_tree (n ++ u "/tree/" ++ b ++ rest) = n).
    { apply path_rule_at; [exact segment_closed | exact Ft | | overlap A].
      - apply RegexFacts.accepts_lang, RegexFacts.lang_cat.
        exists (u "/tree/"), (b ++ rest). split; [reflexivity|].
        split; [now apply RegexFacts.lang_lit|].
        apply lang_segment. exists b, rest. repeat split; auto.
        rewrite forallb_app in Wb. apply andb_true_iff in Wb as [_ Wr].
        rewrite forallb_forall in *. intros x Hx.
        apply space_line_terminator. specialize (Wr x Hx).
        now apply negb_true_iff in Wr.
      - intros p En _ _. exact (NT p En). }
    rewrite K1, Fb, Fs, Fl. exact Fg.
Qed.

(** The theorem at [https://github.com/owner/repo]: the clone URL, and
    the URL of a directory on a branch. *)
Lemma normalize_undoes_witness :
  let n := u "https://github.com/owner/repo" in
  normalizeGithubUrl (u "https://github.com/owner/repo.git")
    = mkValidation true n msg_normalized
  /\ normalizeGithubUrl (u "https://github.com/owner/repo/")
     = mkValidation true n msg_normalized
  /\ normalizeGithubUrl (u "https://github.com/owner/repo/tree/main/docs")
     = mkValidation true n msg_normalized.
Proof.
  intro n.
  assert (C : normalizeGithubUrl n = mkValidation true n [])
    by (vm_compute; reflexivity).
  assert (NS : forall p, n <> p ++ u "/src").
  { intros p E. apply (f_equal (@rev N)) in E. rewrite rev_app_distr in E.
    vm_compute in E. discriminate E. }
  assert (NT : forall p, n <> p ++ u "/tree").
  { intros p E. apply (f_equal (@rev N)) in E. rewrite rev_app_distr in E.
    vm_compute in E. discriminate E. }
  destruct (normalize_undoes n C) as (G & S & T).
  split; [exact G|]. split; [exact (S NS)|].
  apply (T NT (u "main") (u "/docs")); [discriminate | reflexivity | reflexivity].
Defined.
